(** * mcp-outlet (Python): the dispatcher, the worker bridge, the argument
    resolver, the tracer and the error model, embedded from

    - app/helpers/error.py
    - app/helpers/schema.py
    - app/helpers/uv_handler.py
    - app/helpers/tracer.py
    - app/helpers/mcp_caller.py
    - app/handlers/helpers.py
    - app/handlers/rpc.py

  Python values that travel through the gateway are decoded JSON, so they
  are modelled by the inductive type [json]; dictionaries keep their
  insertion order (association lists), because the order of
  [handlers_map] is observable in an error message.  Exceptions are
  values of [py_exc]; a computation that may raise returns [Res].
  Everything the interpreter or a library decides (the text of an
  interpreter-raised error, pydantic's lax coercions, [repr] of a
  container, the clock, the package index, the worker on the other side of
  the pipes) is a parameter: the class [PyRuntime] and the record [Env]. *)

From Stdlib Require Import String Ascii ZArith List Bool Lia DecimalString.
Import ListNotations.

Local Open Scope string_scope.
Local Open Scope Z_scope.
Local Open Scope list_scope.

Set Implicit Arguments.
Set Warnings "-register-all".

(* ================================================================= *)
(** ** Python strings *)

Module PyStr.

(** [s.startswith(p)] *)
Definition startswith (s p : string) : bool := String.prefix p s.

(** [c in s] for a one-character needle. *)
Fixpoint has_char (c : ascii) (s : string) : bool :=
  match s with
  | EmptyString => false
  | String a s' => if Ascii.eqb a c then true else has_char c s'
  end.

(** [sub in s] for an arbitrary needle. *)
Fixpoint contains (sub s : string) : bool :=
  if String.prefix sub s then true
  else match s with
       | EmptyString => false
       | String _ s' => contains sub s'
       end.

(** [s.split(c, 1)] when [c in s]: the text before the first [c] and the
    text after it; [(s, None)] when [c] does not occur. *)
Fixpoint split_first (c : ascii) (s : string) : string * option string :=
  match s with
  | EmptyString => (EmptyString, None)
  | String a s' =>
      if Ascii.eqb a c then (EmptyString, Some s')
      else let '(h, t) := split_first c s' in (String a h, t)
  end.

(** [s.rsplit(c, 1)] when [c in s]: the text before the last [c] and the
    text after it; [(s, None)] when [c] does not occur. *)
Fixpoint rsplit_last (c : ascii) (s : string) : string * option string :=
  match s with
  | EmptyString => (EmptyString, None)
  | String a s' =>
      match rsplit_last c s' with
      | (h, Some t) => (String a h, Some t)
      | (h, None) =>
          if Ascii.eqb a c then (EmptyString, Some h) else (String a h, None)
      end
  end.

(** [s.split(c)]: all the fields, at least one. *)
Fixpoint split (c : ascii) (s : string) : list string :=
  match s with
  | EmptyString => [EmptyString]
  | String a s' =>
      if Ascii.eqb a c then EmptyString :: split c s'
      else match split c s' with
           | [] => [String a EmptyString]
           | h :: t => String a h :: t
           end
  end.

(** The scan of [s.replace(old, new)] for a non-empty [old]: occurrences
    are found left to right and do not overlap; [skip] counts the
    characters of an occurrence that are still to be dropped. *)
Fixpoint replace_go (old new : string) (skip : nat) (s : string) : string :=
  match s with
  | EmptyString => EmptyString
  | String a s' =>
      match skip with
      | S k => replace_go old new k s'
      | O =>
          if String.prefix old s
          then new ++ replace_go old new (Nat.pred (String.length old)) s'
          else String a (replace_go old new O s')
      end
  end.

(** [s.replace("", new)] puts [new] before every character and at the
    end. *)
Fixpoint intersperse (new s : string) : string :=
  match s with
  | EmptyString => new
  | String a s' => new ++ String a (intersperse new s')
  end.

(** [s.replace(old, new)] *)
Definition replace (s old new : string) : string :=
  match old with
  | EmptyString => intersperse new s
  | _ => replace_go old new O s
  end.

(** [sep.join(l)] *)
Definition join (sep : string) (l : list string) : string :=
  String.concat sep l.

(** [str(n)] for an integer. *)
Definition of_Z (z : Z) : string := NilZero.string_of_int (Z.to_int z).

End PyStr.

(* ================================================================= *)
(** ** Decoded JSON values and Python dictionaries *)

(** Numbers are integers: request ids, error codes and millisecond
  timestamps.  A [JObj] lists its keys in insertion order and holds every
  key once, as a Python [dict] does. *)
Inductive json : Type :=
| JNull
| JBool (b : bool)
| JNum (z : Z)
| JStr (s : string)
| JArr (l : list json)
| JObj (d : list (string * json)).

Definition dict := list (string * json).

Module Dict.

(** [d.get(k)] / [d[k]] / [k in d] *)
Fixpoint get (k : string) (d : dict) : option json :=
  match d with
  | [] => None
  | (k', v) :: r => if String.eqb k' k then Some v else get k r
  end.

Definition has (k : string) (d : dict) : bool :=
  match get k d with Some _ => true | None => false end.

(** [d[k] = v]: an existing key keeps its place, a new key goes last. *)
Fixpoint set (k : string) (v : json) (d : dict) : dict :=
  match d with
  | [] => [(k, v)]
  | (k', v') :: r =>
      if String.eqb k' k then (k', v) :: r else (k', v') :: set k v r
  end.

(** [{**a, **b}] and [a.update(b)] *)
Definition update (a b : dict) : dict :=
  fold_left (fun acc kv => set (fst kv) (snd kv) acc) b a.

Definition keys (d : dict) : list string := map fst d.

End Dict.

(** Truth value of a decoded JSON value ([bool(v)], [not v], [v or w]). *)
Definition truthy (v : json) : bool :=
match v with
| JNull => false
| JBool b => b
| JNum z => negb (z =? 0)
| JStr s => negb (String.eqb s "")
| JArr l => match l with [] => false | _ => true end
| JObj d => match d with [] => false | _ => true end
end.

(** [d.get(k)] with Python's [None] for a missing key. *)
Definition get_or_null (k : string) (d : dict) : json :=
match Dict.get k d with Some v => v | None => JNull end.

(** [a or b] *)
Definition py_or (a b : json) : json := if truthy a then a else b.

(* ================================================================= *)
(** ** Exceptions *)

(** The exception classes that occur in the modelled code, apart from
  [CustomError]. *)
Inductive exc_class : Type :=
| TypeError | AttributeError | KeyError | ValueError | RuntimeError
| TimeoutError | OSError | JSONDecodeError | ValidationError
| CalledProcessError | TimeoutExpired.

(** error.py, [class CustomErrorCode] *)
Module CustomErrorCode.
Definition PARSE_ERROR : Z := -32700.
Definition INVALID_REQUEST : Z := -32600.
Definition METHOD_NOT_FOUND : Z := -32601.
Definition INVALID_PARAMS : Z := -32602.
Definition INTERNAL_ERROR : Z := -32603.
Definition CONNECTION_CLOSED : Z := -32001.
Definition REQUEST_TIMEOUT : Z := -32002.
End CustomErrorCode.

(** error.py, [class CustomError].  The constructor stores what it is
  given: [message] is a string at every call site but one
  ([execute_mcp_call] passes the worker's own [message] field), so it is
  a [json]; [data] is [None] or whatever was passed. *)
Record CustomError : Type := mkCustomError {
code : Z;
message : json;
data : json
}.

Inductive py_exc : Type :=
| ExcCustom (e : CustomError)
| ExcOther (cls : exc_class) (msg : string).

(** What a caught or passed [error: Any] can be: an exception object or an
  ordinary value. *)
Inductive py_any : Type :=
| AnyExc (e : py_exc)
| AnyVal (v : json).

(** A computation that returns or raises. *)
Inductive Res (A : Type) : Type :=
| Ok (a : A)
| Raise (e : py_exc).
Arguments Ok {A} a.
Arguments Raise {A} e.

(* ================================================================= *)
(** ** The interpreter and pydantic, as far as the code relies on them *)

Class PyRuntime : Type := {
(** [repr(v)] of a list or a dict (quoting and escaping are the
    interpreter's). *)
repr_container : json -> string;
(** The text of an error the interpreter raises itself on a value:
    a [TypeError] of [**v] or [v[k]] or [k in v], an [AttributeError] of
    [v.get], a [KeyError]. *)
interp_message : exc_class -> json -> string;
(** pydantic's lax-mode coercion of an input that is not a number to an
    [int] field, and to a [float] field. *)
coerce_int : json -> option Z;
coerce_float : json -> option Z;
(** [str(e)] of the [ValidationError] pydantic raises for the named
    model on an input. *)
validation_message : string -> json -> string;
(** [datetime.isoformat()] of a clock reading. *)
isoformat : Z -> string
}.

Section Runtime.
Context {RT : PyRuntime}.

(** [str(v)], also what an f-string does with [{v}]. *)
Definition py_str (v : json) : string :=
  match v with
  | JNull => "None"
  | JBool true => "True"
  | JBool false => "False"
  | JNum z => PyStr.of_Z z
  | JStr s => s
  | _ => repr_container v
  end.

(** [str(e)] of an exception: [CustomError] calls
    [super().__init__(message)]. *)
Definition exc_str (e : py_exc) : string :=
  match e with
  | ExcCustom c => py_str (message c)
  | ExcOther _ m => m
  end.

(** schema.py, [class CustomErrorResponse]: [code: int], [message: str],
    [data: Optional[Dict[str, Any]] = None]; other keys are ignored. *)
Definition CustomErrorResponse (d : dict) : option (Z * string * json) :=
  let c := match Dict.get "code" d with
           | Some (JNum z) => Some z
           | Some v => coerce_int v
           | None => None
           end in
  let m := match Dict.get "message" d with
           | Some (JStr s) => Some s
           | _ => None
           end in
  let x := match Dict.get "data" d with
           | None => Some JNull
           | Some JNull => Some JNull
           | Some (JObj o) => Some (JObj o)
           | Some _ => None
           end in
  match c, m, x with
  | Some c, Some m, Some x => Some (c, m, x)
  | _, _, _ => None
  end.

(** error.py, [CustomError.to_response] *)
Definition to_response (e : CustomError) : dict :=
  let response := [("code", JNum (code e)); ("message", message e)] in
  if truthy (data e) then Dict.set "data" (data e) response else response.

(** error.py, [format_error]: the last two cases of the source. *)
Definition format_error_fallback (error : py_any) : CustomError :=
  match error with
  | AnyExc e =>
      mkCustomError CustomErrorCode.INTERNAL_ERROR (JStr (exc_str e)) JNull
  | AnyVal v =>
      mkCustomError CustomErrorCode.INTERNAL_ERROR (JStr "Unknown error")
        (JObj [("error", match v with
                         | JNull => JNull
                         | _ => JStr (py_str v)
                         end)])
  end.

(** error.py, [format_error] *)
Definition format_error (error : py_any) : CustomError :=
  match error with
  | AnyExc (ExcCustom e) => e
  | AnyVal (JObj d) =>
      if Dict.has "code" d && Dict.has "message" d then
        match CustomErrorResponse d with
        | Some (c, m, x) =>
            mkCustomError c
              (JStr (PyStr.replace m ("MCP error " ++ PyStr.of_Z c ++ ": ") ""))
              x
        | None => format_error_fallback error
        end
      else format_error_fallback error
  | _ => format_error_fallback error
  end.

End Runtime.

(* ================================================================= *)
(** ** Stateful computations that may raise *)

(** A Python statement sequence over a state [S]: the state survives an
    exception, as the heap does. *)
Definition M (S A : Type) : Type := S -> Res A * S.

Definition ret {S A : Type} (a : A) : M S A := fun s => (Ok a, s).

Definition raise {S A : Type} (e : py_exc) : M S A := fun s => (Raise e, s).

Definition bind {S A B : Type} (m : M S A) (k : A -> M S B) : M S B :=
fun s =>
  match m s with
  | (Ok a, s') => k a s'
  | (Raise e, s') => (Raise e, s')
  end.

(** [try: m  except Exception as e: h e] *)
Definition try_except {S A : Type} (m : M S A) (h : py_exc -> M S A) : M S A :=
fun s =>
  match m s with
  | (Ok a, s') => (Ok a, s')
  | (Raise e, s') => h e s'
  end.

(** [try: m  finally: f]; an exception of [f] replaces the outcome. *)
Definition try_finally {S A : Type} (m : M S A) (f : M S unit) : M S A :=
fun s =>
  let '(r, s') := m s in
  match f s' with
  | (Ok _, s'') => (r, s'')
  | (Raise e, s'') => (Raise e, s'')
  end.

(** Read and change the state. *)
Definition gets {S A : Type} (f : S -> A) : M S A := fun s => (Ok (f s), s).
Definition modify {S : Type} (f : S -> S) : M S unit := fun s => (Ok tt, f s).

(** Run a computation on a part [T] of the state [S]. *)
Definition zoom {S T A : Type} (proj : S -> T) (inj : T -> S -> S)
  (m : M T A) : M S A :=
fun s => let '(r, t') := m (proj s) in (r, inj t' s).

(** Run a computation and hand its outcome over as a value. *)
Definition attempt {S A : Type} (m : M S A) : M S (Res A) :=
fun s => let '(r, s') := m s in (Ok r, s').

(** Lift a result into a computation. *)
Definition of_res {S A : Type} (r : Res A) : M S A := fun s => (r, s).

Declare Scope py_scope.
Delimit Scope py_scope with py.
Notation "x <- m ;; k" := (bind m (fun x => k))
  (at level 61, m at next level, right associativity) : py_scope.
Notation "m ;;; k" := (bind m (fun _ => k))
  (at level 61, right associativity) : py_scope.
Local Open Scope py_scope.

(* ================================================================= *)
(** ** The world outside the process *)

(** Observable actions, most recent first in a log. *)
Inductive event : Type :=
| EvAcquire                                   (* [_rpc_lock.acquire()] *)
| EvRelease                                   (* [_rpc_lock.release()] *)
| EvResolve (args : option (list string))     (* [parse_mcp_server_params] entered *)
| EvRun (cmd : list string)                   (* [subprocess.run(cmd, ...)] *)
| EvLaunch (w : nat) (module_path function_name : string)
                                              (* worker thread [w] started *)
| EvWrite (w : nat) (line : json)             (* a line written to worker [w] *)
| EvStop (w : nat).                           (* [SimpleThreadedMcpServer.stop] *)

(** How [subprocess.run(..., capture_output=True)] ends: the process exits
    (its standard output is carried with its [json.loads] decoding, [None]
    when it does not decode), or [run] itself raises ([TimeoutExpired], or
    [OSError] when there is no [uv]). *)
Inductive proc_outcome : Type :=
| Exited (returncode : Z) (stdout : option json) (stderr : string)
| RunRaises (timed_out : bool) (msg : string).

(** One [send_request] as the pipes decide it. *)
Inductive exchange : Type :=
| WriteFails (msg : string)   (* [write]/[flush] raises [OSError] *)
| NoReply                     (* [select] returns nothing within the timeout *)
| Eof                         (* [readline] returns the empty string *)
| Malformed (msg : string)    (* [json.loads] raises on the line *)
| Reply (v : json).           (* the decoded line *)

(** The environment: every function receives the log of what the process
    has done so far, so a package index, a file system or a worker with
    memory are instances. *)
Record Env : Type := {
  (** [time.time() * 1000] and [datetime.now()] at the n-th reading *)
  clock : nat -> Z;
  (** [str(uuid.uuid4())] *)
  uuid4 : list event -> string;
  (** the exception of [setup_uv_environment] ([os.makedirs]), if any, and
      the [UV_CACHE_DIR] it computes *)
  setup_uv_environment : list event -> Res string;
  (** [_is_package_installed(pkg)] ([find_spec] raises on some names) *)
  is_package_installed : list event -> string -> Res bool;
  (** [subprocess.run(cmd, ...)] *)
  subprocess_run : list event -> list string -> proc_outcome;
  (** whether [importlib.metadata.metadata(pkg)] and the code that reads it
      run through without raising *)
  importlib_metadata : list event -> string -> bool;
  (** the pipes of worker [w] on a request sent with the given timeout
      (the timeout is carried by its [str], "30.0" or "1e-05") *)
  worker_exchange : list event -> nat -> string -> exchange;
  (** what [safe_capture] collects from the redirected [sys.stdout] and
      [sys.stderr] at one reading of the two buffers *)
  captured_logs : list event -> list string
}.

(** The state outside the objects of one call. *)
Record World : Type := mkWorld {
  ticks : nat;            (* clock readings so far *)
  log : list event;       (* most recent first *)
  launched : nat          (* workers launched so far *)
}.

(** What only consults and extends the log runs on the log. *)
Definition record_event (e : event) : M (list event) unit :=
modify (cons e).

Definition on_log {A : Type} (m : M (list event) A) : M World A :=
zoom log (fun l w => mkWorld (ticks w) l (launched w)) m.

Definition emit (e : event) : M World unit := on_log (record_event e).

(* ================================================================= *)
(** ** Operations of the interpreter on decoded values *)

Section Dynamic.
Context {RT : PyRuntime}.

(** [k in v] for a string [k] *)
Definition py_in (k : string) (v : json) : Res bool :=
match v with
| JObj d => Ok (Dict.has k d)
| JArr l => Ok (existsb (fun x => match x with
                                  | JStr s => String.eqb s k
                                  | _ => false
                                  end) l)
| JStr s => Ok (PyStr.contains k s)
| _ => Raise (ExcOther TypeError (interp_message TypeError v))
end.

(** [v[k]] for a string [k] *)
Definition py_index (v : json) (k : string) : Res json :=
match v with
| JObj d => match Dict.get k d with
            | Some x => Ok x
            | None => Raise (ExcOther KeyError (interp_message KeyError (JStr k)))
            end
| _ => Raise (ExcOther TypeError (interp_message TypeError v))
end.

(** [v.get(k, default)] *)
Definition py_get (v : json) (k : string) (default : json) : Res json :=
match v with
| JObj d => match Dict.get k d with
            | Some x => Ok x
            | None => Ok default
            end
| _ => Raise (ExcOther AttributeError (interp_message AttributeError v))
end.

(** [{**a, **v}] for a dict [a] and an arbitrary [v] *)
Definition py_splat (a : dict) (v : json) : Res dict :=
match v with
| JObj d => Ok (Dict.update a d)
| _ => Raise (ExcOther TypeError (interp_message TypeError v))
end.

(** [v.rsplit(":", 1)] unpacked into two names, after [":" in v] held *)
Definition py_rsplit2 (v : json) : Res (string * string) :=
match v with
| JStr s => match PyStr.rsplit_last ":" s with
            | (h, Some t) => Ok (h, t)
            | (h, None) =>
                Raise (ExcOther ValueError (interp_message ValueError v))
            end
| _ => Raise (ExcOther AttributeError (interp_message AttributeError v))
end.

End Dynamic.

(* ================================================================= *)
(** ** uv_handler.py: the argument resolver *)

Module UvHandler.

(** The variables of the scan loop of [parse_mcp_server_params]. *)
Record scan_state : Type := mkScan {
  package_name : option string;
  entry_point : option string;
  source_path : option string;
  with_deps : list string;
  index_url : option string;
  extra_index_urls : list string
}.

Definition scan_init : scan_state := mkScan None None None [] None [].

(** [not package_name] *)
Definition no_package (st : scan_state) : bool :=
match package_name st with
| None => true
| Some s => String.eqb s ""
end.

(** The [elif not package_name: ... else: ...] arms, for a token that is
    not an option. *)
Definition scan_bare (st : scan_state) (arg : string) : scan_state :=
if no_package st then
  match PyStr.split_first ":" arg with
  | (p, Some e) =>
      mkScan (Some p) (Some e) (source_path st) (with_deps st)
             (index_url st) (extra_index_urls st)
  | (_, None) =>
      mkScan (Some arg) (entry_point st) (source_path st) (with_deps st)
             (index_url st) (extra_index_urls st)
  end
else st.

(** The [while i < len(args)] loop; [rest] is [args[i+1:]]. *)
Fixpoint scan (st : scan_state) (args : list string) : scan_state :=
match args with
| [] => st
| arg :: rest =>
    match rest with
    | v :: rest' =>
        if String.eqb arg "--from" then
          scan (mkScan (package_name st) (entry_point st) (Some v)
                       (with_deps st) (index_url st) (extra_index_urls st))
               rest'
        else if String.eqb arg "--with" then
          scan (mkScan (package_name st) (entry_point st) (source_path st)
                       (with_deps st ++ PyStr.split "," v)
                       (index_url st) (extra_index_urls st))
               rest'
        else if String.eqb arg "--index-url" then
          scan (mkScan (package_name st) (entry_point st) (source_path st)
                       (with_deps st) (Some v) (extra_index_urls st))
               rest'
        else if String.eqb arg "--extra-index-url" then
          scan (mkScan (package_name st) (entry_point st) (source_path st)
                       (with_deps st) (index_url st)
                       (extra_index_urls st ++ [v]))
               rest'
        else if PyStr.startswith arg "--" then
          if negb (PyStr.startswith v "--") then scan st rest'
          else scan st rest
        else scan (scan_bare st arg) rest
    | [] =>
        if PyStr.startswith arg "--" then st else scan_bare st arg
    end
end.

(** The dictionary [parse_mcp_server_params] returns, without
    [inspection_data] (which no caller reads) and the constant
    [install_success]. *)
Record uv_params : Type := mkUvParams {
  r_package_name : string;
  r_module_path : string;
  r_function_name : string;
  r_entry_point : option string;
  r_source_path : option string;
  r_with_deps : list string;
  r_entry_points : json
}.

Section WithRuntime.
Context {RT : PyRuntime}.

(** The console-script loop of [resolve_entry_point]:
    [for script_name, entry_target in console_scripts.items()]. *)
Fixpoint first_console_script (items : dict) : Res (option (string * string)) :=
match items with
| [] => Ok None
| (_, entry_target) :: r =>
    match py_in ":" entry_target with
    | Raise e => Raise e
    | Ok true =>
        match py_rsplit2 entry_target with
        | Ok p => Ok (Some p)
        | Raise e => Raise e
        end
    | Ok false => first_console_script r
    end
end.

(** uv_handler.py, [resolve_entry_point].  The fourth parameter of the
    source, [inspection_data], is not read. *)
Definition resolve_entry_point (package_name : string)
  (requested_entry : option string) (entry_points : json)
  : Res (string * string) :=
let default_module := PyStr.replace package_name "-" "_" in
let unpack_error : Res (string * string) :=
  Raise (ExcOther ValueError
           (interp_message ValueError (JStr (default_module ++ ":main")))) in
let case3 :=
  match PyStr.split ":" (default_module ++ ":main") with
  | [m; f] => Ok (m, f)
  | _ => unpack_error
  end in
let case2 :=
  match py_get entry_points "console_scripts" (JObj []) with
  | Raise e => Raise e
  | Ok console_scripts =>
      if truthy console_scripts then
        match py_in package_name console_scripts with
        | Raise e => Raise e
        | Ok found =>
            let by_name :=
              if found then
                match py_index console_scripts package_name with
                | Raise e => Raise e
                | Ok entry_target =>
                    match py_in ":" entry_target with
                    | Raise e => Raise e
                    | Ok true =>
                        match py_rsplit2 entry_target with
                        | Ok p => Ok (Some p)
                        | Raise e => Raise e
                        end
                    | Ok false => Ok None
                    end
                end
              else Ok None in
            match by_name with
            | Raise e => Raise e
            | Ok (Some p) => Ok p
            | Ok None =>
                match console_scripts with
                | JObj items =>
                    match first_console_script items with
                    | Raise e => Raise e
                    | Ok (Some p) => Ok p
                    | Ok None => case3
                    end
                | _ => Raise (ExcOther AttributeError
                                (interp_message AttributeError console_scripts))
                end
            end
        end
      else case3
  end in
match requested_entry with
| Some entry =>
    if negb (String.eqb entry "") then
      if PyStr.has_char "." entry && PyStr.has_char ":" entry then
        match PyStr.rsplit_last ":" entry with
        | (m, Some f) => Ok (m, f)
        | (_, None) => unpack_error
        end
      else if PyStr.has_char ":" entry then
        match PyStr.split_first ":" entry with
        | (m, Some f) =>
            Ok (if String.eqb m "" then default_module else m, f)
        | (_, None) => unpack_error
        end
      else Ok (default_module, entry)
    else case2
| None => case2
end.

(** [subprocess.run(cmd, check=True, ...)] *)
Definition run_checked (E : Env) (cmd : list string) : M (list event) unit :=
record_event (EvRun cmd) ;;;
out <- gets (fun l => subprocess_run E l cmd) ;;
match out with
| Exited rc _ stderr =>
    if rc =? 0 then ret tt
    else raise (ExcOther CalledProcessError
                  (interp_message CalledProcessError
                     (JArr [JArr (map JStr cmd); JNum rc; JStr stderr])))
| RunRaises timed_out msg =>
    raise (ExcOther (if timed_out then TimeoutExpired else OSError) msg)
end.

(** The main-package installation: [CalledProcessError] becomes
    [RuntimeError(f"uv install failed: {e.stderr}")], anything else
    propagates. *)
Definition install_package (E : Env) (cmd : list string) : M (list event) unit :=
record_event (EvRun cmd) ;;;
out <- gets (fun l => subprocess_run E l cmd) ;;
match out with
| Exited rc _ stderr =>
    if rc =? 0 then ret tt
    else raise (ExcOther RuntimeError ("uv install failed: " ++ stderr))
| RunRaises timed_out msg =>
    raise (ExcOther (if timed_out then TimeoutExpired else OSError) msg)
end.

(** [for dep in with_deps: ...] *)
Fixpoint install_deps (E : Env) (cache_dir : string) (deps : list string)
  : M (list event) unit :=
match deps with
| [] => ret tt
| dep :: r =>
    installed <- (fun l => (is_package_installed E l dep, l)) ;;
    (if installed : bool then ret tt
     else run_checked E ["uv"; "pip"; "install"; "--prefix"; cache_dir; dep]) ;;;
    install_deps E cache_dir r
end.

(** The metadata step: when [importlib.metadata] fails, one
    [uv pip show] whose [CalledProcessError] alone is caught. *)
Definition retrieve_metadata (E : Env) (pkg : string) : M (list event) unit :=
found <- gets (fun l => importlib_metadata E l pkg) ;;
if found : bool then ret tt
else
  record_event (EvRun ["uv"; "pip"; "show"; pkg]) ;;;
  out <- gets (fun l => subprocess_run E l ["uv"; "pip"; "show"; pkg]) ;;
  match out with
  | Exited _ _ _ => ret tt
  | RunRaises timed_out msg =>
      raise (ExcOther (if timed_out then TimeoutExpired else OSError) msg)
  end.

(** Step 4: [uv pip inspect] with every failure swallowed. *)
Definition inspect_entry_points (E : Env) (pkg : string) : M (list event) json :=
record_event (EvRun ["uv"; "pip"; "inspect"; pkg]) ;;;
out <- gets (fun l => subprocess_run E l ["uv"; "pip"; "inspect"; pkg]) ;;
ret match out with
    | Exited rc (Some detailed_data) _ =>
        if rc =? 0 then
          match py_in "entry_points" detailed_data with
          | Ok true =>
              match py_index detailed_data "entry_points" with
              | Ok v => v
              | Raise _ => JObj []
              end
          | _ => JObj []
          end
        else JObj []
    | _ => JObj []
    end.

(** [if s:] for an optional string *)
Definition nonempty (o : option string) : option string :=
match o with
| Some s => if String.eqb s "" then None else Some s
| None => None
end.

(** The [uv pip install] command line of the main package. *)
Definition uv_add_cmd (cache_dir : string) (st : scan_state) (pkg : string)
  : list string :=
["uv"; "pip"; "install"; "--prefix"; cache_dir]
  ++ match nonempty (index_url st) with
     | Some u => ["--index-url"; u]
     | None => []
     end
  ++ flat_map (fun u => ["--extra-index-url"; u]) (extra_index_urls st)
  ++ [match nonempty (source_path st) with
      | Some src => src
      | None => pkg
      end].

(** The part of [parse_mcp_server_params] between the scan and step 4:
    the main package and the [--with] dependencies are installed when
    missing, then the metadata is read. *)
Definition install_phase (E : Env) (cache_dir : string) (st : scan_state)
  (pkg : string) : M (list event) unit :=
installed <- (fun l => (is_package_installed E l pkg, l)) ;;
(if installed : bool then ret tt
 else install_package E (uv_add_cmd cache_dir st pkg)) ;;;
install_deps E cache_dir (with_deps st) ;;;
retrieve_metadata E pkg.

(** uv_handler.py, [parse_mcp_server_params].  [args] is the descriptor's
    [Optional[List[str]]]. *)
Definition parse_mcp_server_params (E : Env) (args : option (list string))
  : M (list event) uv_params :=
record_event (EvResolve args) ;;;
cache_dir <- (fun l => (setup_uv_environment E l, l)) ;;
match args with
| None => raise (ExcOther TypeError (interp_message TypeError JNull))
| Some args =>
    let st := scan scan_init args in
    match nonempty (package_name st) with
    | None =>
        raise (ExcOther ValueError "No package name found in arguments")
    | Some pkg =>
        install_phase E cache_dir st pkg ;;;
        entry_points <- inspect_entry_points E pkg ;;
        target <- of_res (resolve_entry_point pkg (entry_point st) entry_points) ;;
        ret (mkUvParams pkg (fst target) (snd target) (entry_point st)
               (source_path st) (with_deps st) entry_points)
    end
end.

End WithRuntime.

End UvHandler.

(* ================================================================= *)
(** ** uv_handler.py, [setup_uv_environment]: the search path *)

Module UvSetup.

(** [s.endswith(p)] *)
Fixpoint endswith (s p : string) : bool :=
if String.eqb s p then true
else match s with
     | EmptyString => false
     | String _ s' => endswith s' p
     end.

(** [os.path.join(a, b)] of [posixpath]. *)
Definition path_join (a b : string) : string :=
if PyStr.startswith b "/" then b
else if String.eqb a "" || endswith a "/" then a ++ b
else a ++ "/" ++ b.

(** [os.path.join(cache_dir, "lib", f"python{python_version}",
    "site-packages")] *)
Definition uv_install_dir (cache_dir python_version : string) : string :=
path_join (path_join (path_join cache_dir "lib") ("python" ++ python_version))
          "site-packages".

(** [if uv_install_dir not in sys.path: sys.path.insert(0, uv_install_dir)] *)
Definition insert_first (dir : string) (sys_path : list string) : list string :=
if existsb (String.eqb dir) sys_path then sys_path else dir :: sys_path.

(** [[p for p in python_paths if p and p not in seen and not seen.add(p)]] *)
Fixpoint dedup (seen : list string) (python_paths : list string) : list string :=
match python_paths with
| [] => []
| p :: r =>
    if negb (String.eqb p "") && negb (existsb (String.eqb p) seen)
    then p :: dedup (p :: seen) r
    else dedup seen r
end.

(** The list [python_paths] before the duplicates are removed.
    [site_packages] is what [site.getsitepackages()] returns, a list or
    anything else, [user_site] what [site.getusersitepackages()] returns,
    [existing_path] the value of [PYTHONPATH] ("" when unset). *)
Definition candidate_paths (dir : string) (site_packages : list string + string)
  (user_site : string) (sys_path : list string) (existing_path : string)
  : list string :=
[dir]
++ match site_packages with inl l => l | inr s => [s] end
++ (if negb (String.eqb user_site "") then [user_site] else [])
++ insert_first dir sys_path
++ (if negb (String.eqb existing_path "") then PyStr.split ":" existing_path
    else []).

(** The entries of the [PYTHONPATH] that [setup_uv_environment] exports. *)
Definition python_paths (cache_dir python_version : string)
  (site_packages : list string + string) (user_site : string)
  (sys_path : list string) (existing_path : string) : list string :=
dedup [] (candidate_paths (uv_install_dir cache_dir python_version)
            site_packages user_site sys_path existing_path).

(** [env["PYTHONPATH"]] *)
Definition PYTHONPATH (cache_dir python_version : string)
  (site_packages : list string + string) (user_site : string)
  (sys_path : list string) (existing_path : string) : string :=
PyStr.join ":" (python_paths cache_dir python_version site_packages user_site
                  sys_path existing_path).

End UvSetup.

(* ================================================================= *)
(** ** tracer.py and the [TraceSpan] schema *)

Module Tracer.

Inductive span_status : Type := st_running | st_success | st_error.

Definition status_str (s : span_status) : string :=
match s with
| st_running => "running"
| st_success => "success"
| st_error => "error"
end.

Definition is_running (s : span_status) : bool :=
match s with st_running => true | _ => false end.

(** schema.py, [class TraceSpan] *)
Record TraceSpan : Type := mkSpan {
  seq : string;
  parent_seq : option string;
  start_time : Z;
  duration : option Z;
  status : span_status;
  error : option string;
  data : option dict;
  is_valid : bool
}.

(** tracer.py, the attributes of [class Tracer] *)
Record Tracer : Type := mkTracer {
  spans : list TraceSpan;
  trace_id : string;
  trace_start_time : Z;
  end_time : option Z;
  current_parent : option string;
  trace_additional_data : option dict
}.

(** A method of the tracer runs on the tracer and the number of clock
    readings taken so far. *)
Definition TM (A : Type) : Type := M (Tracer * nat) A.

Definition time_ms (E : Env) : TM Z :=
fun s => (Ok (clock E (snd s)), (fst s, S (snd s))).

Definition set_spans (l : list TraceSpan) (t : Tracer) : Tracer :=
mkTracer l (trace_id t) (trace_start_time t) (end_time t)
         (current_parent t) (trace_additional_data t).

(** [self.spans.append(span)] *)
Definition append_span (sp : TraceSpan) : TM unit :=
modify (fun s => (set_spans (spans (fst s) ++ [sp]) (fst s), snd s)).

(** [Tracer(trace_id, parent, additional_data)] *)
Definition init (E : Env) (trace_id : string) (parent : option string)
  (additional_data : option dict) (k : nat) : Tracer * nat :=
(mkTracer [] trace_id (clock E k) None parent additional_data, S k).

(** tracer.py, [_end_previous_span]: the span with its duration and its
    status set, from one reading [end_time] of the clock. *)
Definition _end_previous_span (end_time : Z) (span : TraceSpan)
  (is_error : bool) : TraceSpan :=
mkSpan (seq span) (parent_seq span) (start_time span)
       (Some (end_time - start_time span))
       (if is_error then st_error else st_success)
       (error span) (data span) (is_valid span).

(** [if self.spans and self.spans[-1].status == "running":
       self._end_previous_span(self.spans[-1], False)] *)
Definition end_last_running (E : Env) : TM unit :=
fun s =>
  let '(t, k) := s in
  match rev (spans t) with
  | last :: before =>
      if is_running (status last)
      then (Ok tt,
            (set_spans (rev before ++ [_end_previous_span (clock E k) last false]) t,
             S k))
      else (Ok tt, s)
  | [] => (Ok tt, s)
  end.

(** [a or b] for an optional string and a fallback *)
Definition or_parent (a b : option string) : option string :=
match a with
| Some s => if String.eqb s "" then b else a
| None => b
end.

(** tracer.py, [Tracer.record_span] *)
Definition record_span (E : Env) (name : string) (parent_seq : option string)
  (additional_data : option dict) : TM TraceSpan :=
end_last_running E ;;;
t <- gets fst ;;
now <- time_ms E ;;
let span := mkSpan name (or_parent parent_seq (current_parent t)) now None
                   st_running None additional_data true in
append_span span ;;;
ret span.

Section WithRuntime.
Context {RT : PyRuntime}.

Definition validation_error (input : json) : py_exc :=
ExcOther ValidationError (validation_message "TraceSpan" input).

(** Field validators of [TraceSpan] on what [_merge_spans_array] passes. *)
Definition as_optional_str (v : json) : option (option string) :=
match v with
| JNull => Some None
| JStr s => Some (Some s)
| _ => None
end.

(** pydantic stores what it accepts for a [float] field as a float; the
    model keeps the number exact. *)
Definition as_float (v : json) : option Z :=
match v with
| JNull => None
| JNum z => Some z
| _ => coerce_float v
end.

Definition as_optional_float (v : json) : option (option Z) :=
match v with
| JNull => Some None
| _ => match as_float v with Some z => Some (Some z) | None => None end
end.

Definition as_status (v : json) : option span_status :=
match v with
| JStr s =>
    if String.eqb s "running" then Some st_running
    else if String.eqb s "success" then Some st_success
    else if String.eqb s "error" then Some st_error
    else None
| _ => None
end.

(** The body of the loop of [_merge_spans_array] for a dictionary
    [span_data]: the keyword arguments are evaluated in order (the clock is
    read for the default of [start_time] whether or not it is used), then
    [TraceSpan] validates them. *)
Definition merged_span (E : Env) (span_data : dict) (base_seq parent_seq : string)
  (status : string) (additional_data : dict) : TM TraceSpan :=
let seq := (base_seq ++ "." ++
            py_str (match Dict.get "seq" span_data with
                    | Some v => v
                    | None => JStr "unknown_span"
                    end))%string in
let parent := py_or (get_or_null "parent_seq" span_data) (JStr parent_seq) in
now <- time_ms E ;;
let start := match Dict.get "start_time" span_data with
             | Some v => v
             | None => JNum now
             end in
let duration := get_or_null "duration" span_data in
let st := py_or (get_or_null "status" span_data) (JStr status) in
let error := get_or_null "error" span_data in
data <- of_res (py_splat additional_data
                  (py_or (get_or_null "data" span_data) (JObj []))) ;;
match as_optional_str parent, as_float start, as_optional_float duration,
      as_status st, as_optional_str error with
| Some parent, Some start, Some duration, Some st, Some error =>
    ret (mkSpan seq parent start duration st error (Some data) false)
| _, _, _, _, _ => raise (validation_error (JObj span_data))
end.

(** tracer.py, [Tracer._merge_spans_array] *)
Fixpoint _merge_spans_array (E : Env) (spans : list json)
  (base_seq parent_seq status : string) (additional_data : dict) : TM unit :=
match spans with
| [] => ret tt
| span_data :: rest =>
    try_except
      (match span_data with
       | JObj d =>
           sp <- merged_span E d base_seq parent_seq status additional_data ;;
           append_span sp
       | _ => ret tt
       end)
      (fun _ => ret tt) ;;;
    _merge_spans_array E rest base_seq parent_seq status additional_data
end.

(** [child_traces.append(trace_data)] on whatever is stored under
    ["child_traces"] *)
Definition append_child_trace (child_traces trace_data : json) : Res json :=
match child_traces with
| JArr l => Ok (JArr (l ++ [trace_data]))
| _ => Raise (ExcOther AttributeError
                (interp_message AttributeError child_traces))
end.

Definition set_trace_data (d : option dict) (t : Tracer) : Tracer :=
mkTracer (spans t) (trace_id t) (trace_start_time t) (end_time t)
         (current_parent t) d.

(** tracer.py, [Tracer._merge_trace_data].  In Python the list under
    ["child_traces"] is one object shared with [additional_data]; the
    model copies it. *)
Definition _merge_trace_data (trace_data : json) (additional_data : dict)
  : TM unit :=
t <- gets fst ;;
let cur := match trace_additional_data t with
           | Some d => d
           | None => []
           end in
let cur := Dict.update cur additional_data in
modify (fun s => (set_trace_data (Some cur) (fst s), snd s)) ;;;
child_traces <- of_res
  (append_child_trace
     (match Dict.get "child_traces" cur with
      | Some v => v
      | None => JArr []
      end) trace_data) ;;
modify (fun s =>
          (set_trace_data (Some (Dict.set "child_traces" child_traces cur))
                          (fst s), snd s)).

(** [child_trace.get("trace_id") or child_trace.get("seq") or default]
    and its mirror image in [_create_error_span] *)
Definition span_label (child_trace : json) (k1 k2 default : string) : json :=
match child_trace with
| JObj d => py_or (get_or_null k1 d) (py_or (get_or_null k2 d) (JStr default))
| _ => JStr default
end.

(** tracer.py, [Tracer._create_fallback_span] *)
Definition _create_fallback_span (E : Env) (child_trace : json)
  (base_seq parent_seq : string) (status : span_status)
  (additional_data : dict) : TM unit :=
let trace_id := span_label child_trace "trace_id" "seq" "unknown_span" in
now <- time_ms E ;;
append_span
  (mkSpan (base_seq ++ "." ++ py_str trace_id)%string (Some parent_seq) now (Some 0)
          status None
          (Some (Dict.set "child_trace" child_trace additional_data)) false).

(** tracer.py, [Tracer._create_error_span] *)
Definition _create_error_span (E : Env) (child_trace : json)
  (base_seq parent_seq : string) (status : span_status)
  (additional_data : dict) (error_message : string) : TM unit :=
let trace_id := span_label child_trace "seq" "trace_id" "parse_error" in
now <- time_ms E ;;
append_span
  (mkSpan (base_seq ++ "." ++ py_str trace_id)%string (Some parent_seq) now (Some 0)
          status (Some error_message)
          (Some (Dict.set "child_trace" child_trace additional_data)) false).

(** [isinstance(child_trace["spans"], list)] *)
Definition spans_of (child_trace : dict) : option (list json) :=
match Dict.get "spans" child_trace with
| Some (JArr l) => Some l
| _ => None
end.

(** tracer.py, [Tracer.merge_child_trace] *)
Definition merge_child_trace (E : Env) (base_seq parent_seq : string)
  (is_success : bool) (child_trace : json) (additional_data : option dict)
  : TM unit :=
let status := if is_success then st_success else st_error in
let additional_data := match additional_data with
                       | Some d => d
                       | None => []
                       end in
let fallback :=
  _create_fallback_span E child_trace base_seq parent_seq status
    additional_data in
try_except
  (match child_trace with
   | JObj d =>
       handled <-
         try_except
           (match spans_of d with
            | Some l =>
                _merge_spans_array E l base_seq parent_seq
                  (status_str status) additional_data ;;;
                match Dict.get "data" d with
                | Some trace_data =>
                    _merge_trace_data trace_data additional_data
                | None => ret tt
                end ;;;
                ret true
            | None => fallback ;;; ret true
            end)
           (fun _ => ret false) ;;
       if handled : bool then ret tt else fallback
   | JArr l =>
       _merge_spans_array E l base_seq parent_seq (status_str status)
         additional_data
   | _ => fallback
   end)
  (fun error =>
     _create_error_span E child_trace base_seq parent_seq status
       additional_data (exc_str error)).

(** The loop [for span in self.spans: if span.status == "running": ...] of
    [get_trace]; every span that is closed reads the clock. *)
Fixpoint end_running (E : Env) (is_error : bool) (l : list TraceSpan)
  (k : nat) : list TraceSpan * nat :=
match l with
| [] => ([], k)
| sp :: r =>
    if is_running (status sp) then
      let '(r', k') := end_running E is_error r (S k) in
      (_end_previous_span (clock E k) sp is_error :: r', k')
    else
      let '(r', k') := end_running E is_error r k in
      (sp :: r', k')
end.

Definition opt_str (o : option string) : json :=
match o with Some s => JStr s | None => JNull end.

Definition opt_num (o : option Z) : json :=
match o with Some z => JNum z | None => JNull end.

Definition opt_dict (o : option dict) : json :=
match o with Some d => JObj d | None => JNull end.

(** The [output_span] dictionary of [get_trace]. *)
Definition output_span (span : TraceSpan) : json :=
JObj [("seq", JStr (seq span));
      ("parentSeq", opt_str (parent_seq span));
      ("startTime", JNum (start_time span));
      ("duration", opt_num (duration span));
      ("status", JStr (status_str (status span)));
      ("error", opt_str (error span));
      ("data", opt_dict (data span));
      ("isValid", JBool (is_valid span))].

(** tracer.py, [Tracer.get_trace] (with [_end] inlined at its place). *)
Definition get_trace (E : Env) (last_span_success : bool) : TM dict :=
fun s =>
  let '(t, k) := s in
  let '(closed, k1) := end_running E (negb last_span_success) (spans t) k in
  let '(finish, k2) := match end_time t with
                       | Some e => (e, k1)
                       | None => (clock E k1, S k1)
                       end in
  let t' := mkTracer closed (trace_id t) (trace_start_time t) (Some finish)
                     (current_parent t) (trace_additional_data t) in
  (Ok [("traceId", JStr (trace_id t));
       ("startTime", JStr (isoformat (trace_start_time t)));
       ("endTime", JStr (isoformat finish));
       ("data", opt_dict (trace_additional_data t));
       ("spans", JArr (map output_span closed));
       ("isValid", JBool true)],
   (t', k2)).

End WithRuntime.

End Tracer.

(* ================================================================= *)
(** ** mcp_caller.py: the worker bridge *)

(** mcp_caller.py, [_convert_to_dict] on decoded JSON: dictionary entries
    whose converted value is [None] are dropped, at every depth. *)
Fixpoint _convert_to_dict (obj : json) : json :=
match obj with
| JArr l => JArr (map _convert_to_dict l)
| JObj d =>
    JObj ((fix go (d : list (string * json)) : list (string * json) :=
             match d with
             | [] => []
             | (key, value) :: r =>
                 match _convert_to_dict value with
                 | JNull => go r
                 | converted_value => (key, converted_value) :: go r
                 end
             end) d)
| _ => obj
end.

Module SimpleThreadedMcpServer.

(** The attributes the methods read; [worker] names the thread and the
    two pipes the constructor allocates (allocating the pipes and
    starting the thread are taken to succeed). *)
Record t : Type := mk {
  module_path : string;
  function_name : string;
  is_running : bool;
  shutdown_flag : bool;
  worker : nat
}.

(** [SimpleThreadedMcpServer(module_path, function_name)] *)
Definition init (module_path function_name : string) : M World t :=
fun w =>
  (Ok (mk module_path function_name false false (launched w)),
   mkWorld (ticks w) (log w) (S (launched w))).

(** [start] *)
Definition start (self : t) : M World t :=
if is_running self then ret self
else
  emit (EvLaunch (worker self) (module_path self) (function_name self)) ;;;
  ret (mk (module_path self) (function_name self) true (shutdown_flag self)
          (worker self)).

(** [stop] *)
Definition stop (self : t) : M World t :=
emit (EvStop (worker self)) ;;;
ret (mk (module_path self) (function_name self) false true (worker self)).

(** [send_request(request, timeout)]; [timeout] is the [str] of the
    float.  The model covers the exchanges in which [readline] returns
    once [select] has reported the pipe ready; a worker that writes part
    of a line and no line end, on which [readline] waits for ever, is
    not among the outcomes of [exchange]. *)
Definition send_request (E : Env) (self : t) (request : json)
  (timeout : string) : M World json :=
if negb (is_running self) then
  raise (ExcOther RuntimeError "Server not running")
else
  emit (EvWrite (worker self) request) ;;;
  x <- gets (fun w => worker_exchange E (log w) (worker self) timeout) ;;
  match x with
  | WriteFails msg => raise (ExcOther OSError msg)
  | NoReply =>
      raise (ExcOther TimeoutError
               ("Request timed out after " ++ timeout ++ " seconds"))
  | Eof => raise (ExcOther RuntimeError "No response from MCP server")
  | Malformed msg => raise (ExcOther JSONDecodeError msg)
  | Reply v => ret v
  end.

End SimpleThreadedMcpServer.

Module McpCaller.

(** schema.py, [class McpCallerConfiguration] *)
Record McpCallerConfiguration : Type := mkConfig {
  protocol_version : string;
  jsonrpc : string;
  type : string;
  args : option (list string);
  module_path : string;
  package_name : string;
  function_name : string
}.

(** The attributes of [class McpCaller]; [server_info] is [JNull] for
    [None]. *)
Record t : Type := mk {
  config : McpCallerConfiguration;
  _request_message_id : Z;
  _is_connected : bool;
  server_info : json;
  _server : option SimpleThreadedMcpServer.t
}.

(** [McpCaller(config)] *)
Definition init (config : McpCallerConfiguration) : t :=
mk config 1 false JNull None.

Definition set_server (s : option SimpleThreadedMcpServer.t) (c : t) : t :=
mk (config c) (_request_message_id c) (_is_connected c) (server_info c) s.

Definition set_connected (b : bool) (info : json) (c : t) : t :=
mk (config c) (_request_message_id c) b info (_server c).

Definition bump_id (c : t) : t :=
mk (config c) (_request_message_id c + 1) (_is_connected c) (server_info c)
   (_server c).

(** The world seen from a method of the bridge. *)
Definition on_world {A : Type} (m : M World A) : M (t * World) A :=
zoom snd (fun w s => (fst s, w)) m.

Definition on_self (f : t -> t) : M (t * World) unit :=
modify (fun s => (f (fst s), snd s)).

Section WithRuntime.
Context {RT : PyRuntime}.

(** The [initialize] request of [connect]. *)
Definition init_request (c : t) : json :=
JObj [("jsonrpc", JStr (jsonrpc (config c)));
      ("id", JNum (_request_message_id c));
      ("method", JStr "initialize");
      ("params",
       JObj [("protocolVersion", JStr (protocol_version (config c)));
             ("capabilities", JObj []);
             ("clientInfo",
              JObj [("name", JStr "mcp-outlet-python");
                    ("version", JStr "1.0.0")])])].

Definition initialized_request (c : t) : json :=
JObj [("jsonrpc", JStr (jsonrpc (config c)));
      ("method", JStr "notifications/initialized");
      ("params", JObj [])].

(** [f"Initialize failed: {init_response['error']['message']}"] *)
Definition initialize_failed (init_response : json) : Res string :=
match py_index init_response "error" with
| Raise e => Raise e
| Ok err =>
    match py_index err "message" with
    | Raise e => Raise e
    | Ok m => Ok ("Initialize failed: " ++ py_str m)%string
    end
end.

(** The [try] block of [connect]. *)
Definition connect_body (E : Env) : M (t * World) json :=
c <- gets fst ;;
srv <- on_world (SimpleThreadedMcpServer.init (module_path (config c))
                   (function_name (config c))) ;;
on_self (set_server (Some srv)) ;;;
srv <- on_world (SimpleThreadedMcpServer.start srv) ;;
on_self (set_server (Some srv)) ;;;
let request := init_request c in
on_self bump_id ;;;
init_response <- on_world
  (SimpleThreadedMcpServer.send_request E srv request "30.0") ;;
failed <- of_res (py_in "error" init_response) ;;
(if failed : bool then
   msg <- of_res (initialize_failed init_response) ;;
   raise (ExcCustom (mkCustomError CustomErrorCode.INTERNAL_ERROR (JStr msg)
                       JNull))
 else ret tt) ;;;
info <- of_res (py_get init_response "result" (JObj [])) ;;
on_self (fun c => set_connected (_is_connected c) info c) ;;;
try_except
  (on_world (SimpleThreadedMcpServer.send_request E srv
               (initialized_request c) "1e-05") ;;; ret tt)
  (fun _ => ret tt) ;;;
on_self (set_connected true info) ;;;
ret info.

(** mcp_caller.py, [McpCaller.connect] *)
Definition connect (E : Env) : M (t * World) json :=
c <- gets fst ;;
if _is_connected c && truthy (server_info c) then ret (server_info c)
else
  try_except (connect_body E)
    (fun e =>
       c <- gets fst ;;
       match _server c with
       | Some srv =>
           on_world (SimpleThreadedMcpServer.stop srv) ;;;
           on_self (set_server None)
       | None => ret tt
       end ;;;
       raise (ExcCustom (format_error (AnyExc e)))).

(** mcp_caller.py, [McpCaller.close] *)
Definition close : M (t * World) unit :=
c <- gets fst ;;
match _server c with
| Some srv =>
    on_world (SimpleThreadedMcpServer.stop srv) ;;;
    on_self (set_server None)
| None => ret tt
end ;;;
on_self (set_connected false JNull).

(** The state of one [execute_mcp_call]: the bridge, the tracer argument
    and the world. *)
Record Call : Type := mkCall {
  self : t;
  tracer : option Tracer.Tracer;
  world : World
}.

Definition call_self {A : Type} (m : M (t * World) A) : M Call A :=
zoom (fun s => (self s, world s))
     (fun p s => mkCall (fst p) (tracer s) (snd p)) m.

(** [if tracer: tracer.m(...)] *)
Definition call_tracer (m : Tracer.TM unit) : M Call unit :=
fun s =>
  match tracer s with
  | Some tr =>
      let '(r, (tr', k)) := m (tr, ticks (world s)) in
      (r, mkCall (self s) (Some tr')
                 (mkWorld k (log (world s)) (launched (world s))))
  | None => (Ok tt, s)
  end.

(** [{"logs": captured_logs} if captured_logs else {}] *)
Definition logs_data (captured_logs : list string) : dict :=
match captured_logs with
| [] => []
| _ => [("logs", JArr (map JStr captured_logs))]
end.

(** The [except Exception as error] arm of [execute_mcp_call]. *)
Definition execute_failed (E : Env) (seen : list string) (error : py_exc)
  : M Call json :=
more <- gets (fun s => captured_logs E (log (world s))) ;;
call_tracer (Tracer.merge_child_trace E "mcpCall.server" "mcpCall" false
               (JArr []) (Some (logs_data (seen ++ more)))) ;;;
raise error.

(** What follows [send_request] in the [try] block. *)
Definition execute_reply (E : Env) (seen : list string) (response : json)
  : M Call json :=
failed <- of_res (py_in "error" response) ;;
(if failed : bool then
   error_data <- of_res (py_index response "error") ;;
   msg <- of_res (py_get error_data "message" (JStr "MCP server error")) ;;
   raise (ExcCustom (mkCustomError CustomErrorCode.INTERNAL_ERROR msg
                       error_data))
 else ret tt) ;;;
call_tracer (Tracer.merge_child_trace E "executeMcpCall" "executeMcpCall" true
               (JArr []) (Some (logs_data seen))) ;;;
result <- of_res (py_get response "result" JNull) ;;
ret (_convert_to_dict result).

(** [input_request.get("method") == name] *)
Definition is_method (name : string) (input_request : dict) : bool :=
match Dict.get "method" input_request with
| Some (JStr s) => String.eqb s name
| _ => false
end.

(** mcp_caller.py, [McpCaller.execute_mcp_call].  The two readings of the
    capture buffers (after the reply, and again in the handler) are the
    two uses of [captured_logs].  The caller's dictionary receives the
    assigned id in Python; the model sends the updated copy. *)
Definition execute_mcp_call (E : Env) (input_request : dict) : M Call json :=
c <- gets self ;;
match (if _is_connected c then _server c else None) with
| None =>
    raise (ExcCustom (mkCustomError CustomErrorCode.CONNECTION_CLOSED
                        (JStr "Not connected") JNull))
| Some srv =>
    if is_method "initialize" input_request then
      if truthy (server_info c) then ret (_convert_to_dict (server_info c))
      else raise (ExcCustom (mkCustomError CustomErrorCode.INVALID_REQUEST
                               (JStr "Please connect first") JNull))
    else
        sent <- attempt
          (request <-
             (if Dict.has "id" input_request then ret input_request
              else
                call_self (on_self bump_id) ;;;
                ret (Dict.set "id" (JNum (_request_message_id c))
                       input_request)) ;;
           call_self (on_world (SimpleThreadedMcpServer.send_request E srv
                                  (JObj request) "30.0"))) ;;
        match sent with
        | Raise error => execute_failed E [] error
        | Ok response =>
            seen <- gets (fun s => captured_logs E (log (world s))) ;;
            try_except (execute_reply E seen response)
                       (execute_failed E seen)
        end
end.

End WithRuntime.

End McpCaller.

(* ================================================================= *)
(** ** schema.py: the request metadata *)

Module Schema.

(** schema.py, [class McpServerConfiguration]; [stderr] keeps the string
    or the number it was given ([JNull] for [None]). *)
Record McpServerConfiguration : Type := mkServer {
  protocol_version : string;
  jsonrpc : string;
  type : string;
  command : string;
  args : option (list string);
  cwd : option string;
  stderr : json;
  env : option (list (string * string));
  version : option string
}.

(** The keys the model reads: the alias [protocolVersion], the field names
    ([populate_by_name=True]); anything else is an extra. *)
Definition server_keys : list string :=
["protocolVersion"; "protocol_version"; "jsonrpc"; "type"; "command";
 "args"; "cwd"; "stderr"; "env"; "version"].

Definition optional_str (o : option json) : option (option string) :=
match o with
| None => Some None
| Some JNull => Some None
| Some (JStr s) => Some (Some s)
| Some _ => None
end.

Fixpoint list_of_str (l : list json) : option (list string) :=
match l with
| [] => Some []
| JStr s :: r =>
    match list_of_str r with Some r' => Some (s :: r') | None => None end
| _ :: _ => None
end.

Fixpoint dict_of_str (d : dict) : option (list (string * string)) :=
match d with
| [] => Some []
| (k, JStr s) :: r =>
    match dict_of_str r with Some r' => Some ((k, s) :: r') | None => None end
| _ :: _ => None
end.

(** A field with a default that must equal one literal when given. *)
Definition literal (lit : string) (o : option json) : option string :=
match o with
| None => Some lit
| Some (JStr s) => if String.eqb s lit then Some lit else None
| Some _ => None
end.

Section WithRuntime.
Context {RT : PyRuntime}.

(** Validation of a [server] value: a dictionary whose keys are all
    fields ([extra="forbid"]; the field name next to its alias is an
    extra), with every field of its declared type. *)
Definition validate_server (v : json) : option McpServerConfiguration :=
match v with
| JObj d =>
    let extras :=
      existsb (fun k => negb (existsb (String.eqb k) server_keys))
              (Dict.keys d)
      || (Dict.has "protocolVersion" d && Dict.has "protocol_version" d) in
    let protocol_version :=
      match Dict.get "protocolVersion" d, Dict.get "protocol_version" d with
      | Some (JStr s), _ => Some s
      | Some _, _ => None
      | None, Some (JStr s) => Some s
      | None, Some _ => None
      | None, None => Some "2025-03-26"
      end in
    let command :=
      match Dict.get "command" d with Some (JStr s) => Some s | _ => None end in
    let args :=
      match Dict.get "args" d with
      | None => Some None
      | Some JNull => Some None
      | Some (JArr l) =>
          match list_of_str l with Some l' => Some (Some l') | None => None end
      | Some _ => None
      end in
    let stderr :=
      match Dict.get "stderr" d with
      | None => Some JNull
      | Some JNull => Some JNull
      | Some (JStr s) => Some (JStr s)
      | Some (JNum z) => Some (JNum z)
      | Some x => match coerce_int x with
                  | Some z => Some (JNum z)
                  | None => None
                  end
      end in
    let env :=
      match Dict.get "env" d with
      | None => Some None
      | Some JNull => Some None
      | Some (JObj e) =>
          match dict_of_str e with Some e' => Some (Some e') | None => None end
      | Some _ => None
      end in
    if extras then None
    else
      match protocol_version, literal "2.0" (Dict.get "jsonrpc" d),
            literal "stdio" (Dict.get "type" d), command, args,
            optional_str (Dict.get "cwd" d), stderr, env,
            optional_str (Dict.get "version" d) with
      | Some pv, Some j, Some t, Some c, Some a, Some w, Some se, Some e,
        Some ver => Some (mkServer pv j t c a w se e ver)
      | _, _, _, _, _, _, _, _, _ => None
      end
| _ => None
end.

(** [CustomRequestMeta] called on the unpacked [meta] (a double-star
    argument): a [TypeError] when [meta] is not a mapping, a [ValidationError] when [server] is missing or invalid
    (other keys are allowed). *)
Definition CustomRequestMeta (meta : json) : Res McpServerConfiguration :=
match meta with
| JObj d =>
    match Dict.get "server" d with
    | Some v =>
        match validate_server v with
        | Some cfg => Ok cfg
        | None => Raise (ExcOther ValidationError
                           (validation_message "CustomRequestMeta" meta))
        end
    | None => Raise (ExcOther ValidationError
                       (validation_message "CustomRequestMeta" meta))
    end
| _ => Raise (ExcOther TypeError (interp_message TypeError meta))
end.

End WithRuntime.

Definition opt_str (o : option string) : json :=
match o with Some s => JStr s | None => JNull end.

(** [McpServerConfiguration.model_dump()] (by alias) *)
Definition model_dump (c : McpServerConfiguration) : dict :=
[("protocolVersion", JStr (protocol_version c));
 ("jsonrpc", JStr (jsonrpc c));
 ("type", JStr (type c));
 ("command", JStr (command c));
 ("args", match args c with
          | Some l => JArr (map JStr l)
          | None => JNull
          end);
 ("cwd", opt_str (cwd c));
 ("stderr", stderr c);
 ("env", match env c with
         | Some e => JObj (map (fun kv => (fst kv, JStr (snd kv))) e)
         | None => JNull
         end);
 ("version", opt_str (version c))].

End Schema.

(* ================================================================= *)
(** ** handlers/helpers.py and handlers/rpc.py: the dispatcher *)

Module Rpc.

(** The objects of one [rpc_handler] call: its tracer, its bridge once
    built, and the world. *)
Record Frame : Type := mkFrame {
  tracer : Tracer.Tracer;
  mcp_caller : option McpCaller.t;
  world : World
}.

Definition on_world {A : Type} (m : M World A) : M Frame A :=
zoom world (fun w f => mkFrame (tracer f) (mcp_caller f) w) m.

(** [tracer.m(...)] *)
Definition on_tracer {A : Type} (m : Tracer.TM A) : M Frame A :=
zoom (fun f => (tracer f, ticks (world f)))
     (fun p f => mkFrame (fst p) (mcp_caller f)
                         (mkWorld (snd p) (log (world f)) (launched (world f))))
     m.

(** The value of a [handlers_map] entry: a function (the outlet's own
    methods), [True] (forwarded to the worker) or [False] (unsupported). *)
Inductive handler : Type :=
| Outlet (f : json -> Res dict)
| HTrue
| HFalse.

Section WithRuntime.
Context {RT : PyRuntime}.

(** [mcp_caller.m(...)] for a method of the bridge. *)
Definition on_caller {A : Type} (m : M (McpCaller.t * World) A) : M Frame A :=
fun f =>
  match mcp_caller f with
  | Some c =>
      let '(r, (c', w')) := m (c, world f) in
      (r, mkFrame (tracer f) (Some c') w')
  | None => (Raise (ExcOther AttributeError
                      (interp_message AttributeError JNull)), f)
  end.

(** [mcp_caller.execute_mcp_call(request_data, tracer)] *)
Definition on_call {A : Type} (m : M McpCaller.Call A) : M Frame A :=
fun f =>
  match mcp_caller f with
  | Some c =>
      let '(r, s) := m (McpCaller.mkCall c (Some (tracer f)) (world f)) in
      (r, mkFrame (match McpCaller.tracer s with
                   | Some t => t
                   | None => tracer f
                   end)
                  (Some (McpCaller.self s)) (McpCaller.world s))
  | None => (Raise (ExcOther AttributeError
                      (interp_message AttributeError JNull)), f)
  end.

(** handlers/helpers.py, [get_trace_id(args, "id")] *)
Definition get_trace_id (E : Env) (args : json) (w : World) : string :=
match args with
| JObj d =>
    match Dict.get "id" d with
    | Some JNull | None => uuid4 E (log w)
    | Some v => py_str v
    end
| _ => uuid4 E (log w)
end.

(** [data and data.get("params") and data["params"].get("_meta")]: the
    metadata when the three are truthy. *)
Definition request_meta (data : json) : Res (option json) :=
if truthy data then
  match py_get data "params" JNull with
  | Raise e => Raise e
  | Ok params =>
      if truthy params then
        match py_get params "_meta" JNull with
        | Raise e => Raise e
        | Ok meta => Ok (if truthy meta then Some meta else None)
        end
      else Ok None
  end
else Ok None.

(** The first [try] of [generate_jsonrpc_response]: the dumped server
    configuration, if the metadata parses; only [ValidationError],
    [TypeError] and [KeyError] are caught. *)
Definition response_server (data : json) : Res (option dict) :=
match request_meta data with
| Raise (ExcOther TypeError _) | Raise (ExcOther KeyError _)
| Raise (ExcOther ValidationError _) => Ok None
| Raise e => Raise e
| Ok None => Ok None
| Ok (Some meta) =>
    match Schema.CustomRequestMeta meta with
    | Ok cfg => Ok (Some (Schema.model_dump cfg))
    | Raise (ExcOther TypeError _) | Raise (ExcOther KeyError _)
    | Raise (ExcOther ValidationError _) => Ok None
    | Raise e => Raise e
    end
end.

(** ["jsonrpc": data.get("jsonrpc", "2.0") if data else "2.0"] *)
Definition response_version (data : json) : Res json :=
if truthy data then py_get data "jsonrpc" (JStr "2.0") else Ok (JStr "2.0").

(** [if data and "id" in data: response["id"] = data["id"]] *)
Definition echo_id (data : json) (response : dict) : Res dict :=
if truthy data then
  match py_in "id" data with
  | Raise e => Raise e
  | Ok true =>
      match py_index data "id" with
      | Raise e => Raise e
      | Ok v => Ok (Dict.set "id" v response)
      end
  | Ok false => Ok response
  end
else Ok response.

Definition dict_under (k : string) (d : dict) : dict :=
match Dict.get k d with
| Some (JObj x) => x
| _ => []
end.

(** The error branch of [generate_jsonrpc_response]. *)
Definition error_response (data : json) (custom_metadata error : dict)
  : Res dict :=
match response_version data with
| Raise e => Raise e
| Ok version =>
    let error_data := dict_under "data" error in
    let meta := Dict.update custom_metadata (dict_under "_meta" error_data) in
    echo_id data
      [("jsonrpc", version);
       ("error",
        JObj (Dict.set "data" (JObj (Dict.set "_meta" (JObj meta) error_data))
                error))]
end.

(** The success branch of [generate_jsonrpc_response]. *)
Definition success_response (data : json) (custom_metadata : dict)
  (result : json) : Res dict :=
match response_version data with
| Raise e => Raise e
| Ok version =>
    match py_splat [] (py_or result (JObj [])) with
    | Raise e => Raise e
    | Ok fields =>
        let meta := Dict.update (dict_under "_meta" fields) custom_metadata in
        echo_id data
          [("jsonrpc", version);
           ("result", JObj (Dict.set "_meta" (JObj meta) fields))]
    end
end.

(** rpc.py, [generate_jsonrpc_response(data, tracer, result, error)] with
    the tracer of the call. *)
Definition generate_jsonrpc_response (E : Env) (data : json) (result : json)
  (error : option dict) : M Frame dict :=
server_config <- of_res (response_server data) ;;
trace <- on_tracer (Tracer.get_trace E
                      (match error with None => true | Some _ => false end)) ;;
let custom_metadata :=
  match server_config with
  | Some (x :: c) => [("server", JObj (x :: c))]
  | _ => []
  end ++ [("trace", JObj trace)] in
match error with
| Some (x :: e) => of_res (error_response data custom_metadata (x :: e))
| _ => of_res (success_response data custom_metadata result)
end.

(** rpc.py, [handlers_map], in the order of the source. *)
Definition handlers_map : list (string * handler) :=
[("ping", Outlet (fun _ => Ok [("result", JNull)]));
 ("logging/setLevel",
  Outlet (fun params =>
            match py_get params "params" (JObj []) with
            | Raise e => Raise e
            | Ok p =>
                match py_get p "level" (JStr "info") with
                | Raise e => Raise e
                | Ok level =>
                    Ok [("result",
                         JObj [("_meta", JObj [("traceLevel", level)])])]
                end
            end));
 ("notifications/initialized", Outlet (fun _ => Ok [("result", JNull)]));
 ("initialize", HTrue);
 ("prompts/get", HTrue);
 ("prompts/list", HTrue);
 ("resources/list", HTrue);
 ("resources/templates/list", HTrue);
 ("resources/read", HTrue);
 ("tools/call", HTrue);
 ("tools/list", HTrue);
 ("completion/complete", HTrue);
 ("notifications/roots/list_changed", HFalse);
 ("resources/unsubscribe", HFalse);
 ("resources/subscribe", HFalse);
 ("sampling/createMessage", HFalse);
 ("roots/list", HFalse)].

Fixpoint assoc (k : string) (m : list (string * handler)) : option handler :=
match m with
| [] => None
| (k', h) :: r => if String.eqb k' k then Some h else assoc k r
end.

(** [handlers_map.get(method)]: a list or a dictionary is not hashable;
    no other value than a string equals a key. *)
Definition lookup_handler (method : json) : Res (option handler) :=
match method with
| JStr s => Ok (assoc s handlers_map)
| JArr _ | JObj _ =>
    Raise (ExcOther TypeError (interp_message TypeError method))
| _ => Ok None
end.

(** [[key for key, value in handlers_map.items() if value is not False]] *)
Definition supported_methods : list string :=
map fst (filter (fun kv => match snd kv with HFalse => false | _ => true end)
                handlers_map).

Definition method_not_found : py_exc :=
ExcCustom (mkCustomError CustomErrorCode.METHOD_NOT_FOUND
             (JStr ("Rpc supporting only " ++ PyStr.join ", " supported_methods
                    ++ " methods"))
             JNull).

Definition bad_meta (reason : string) : py_exc :=
ExcCustom (mkCustomError CustomErrorCode.INVALID_REQUEST
             (JStr "Request _meta must be including correct server configuration")
             (JObj [("reason", JStr reason)])).

(** The inner [try] of [rpc_handler]: the metadata of the request. *)
Definition validate_meta (request_data : json)
  : Res Schema.McpServerConfiguration :=
let checked :=
  match request_meta request_data with
  | Raise e => Raise e
  | Ok None => Raise (bad_meta "Missing _meta in params")
  | Ok (Some meta) => Schema.CustomRequestMeta meta
  end in
match checked with
| Raise (ExcOther ValidationError msg) => Raise (bad_meta msg)
| r => r
end.

(** The command check of the forwarded branch, and the call of the
    argument resolver it guards. *)
Definition resolve_command (E : Env) (server : Schema.McpServerConfiguration)
  : M Frame UvHandler.uv_params :=
if PyStr.startswith (Schema.command server) "uv"
then on_world (on_log (UvHandler.parse_mcp_server_params E
                         (Schema.args server)))
else raise (ExcCustom (mkCustomError CustomErrorCode.INVALID_REQUEST
                         (JStr "Only uv or uvx command is supported for now")
                         JNull)).

(** The configuration [rpc_handler] gives the bridge. *)
Definition caller_config (server : Schema.McpServerConfiguration)
  (uv_params : UvHandler.uv_params) : McpCaller.McpCallerConfiguration :=
McpCaller.mkConfig
  (Schema.protocol_version server)
  (Schema.jsonrpc server)
  (Schema.type server)
  (Schema.args server)
  (UvHandler.r_module_path uv_params)
  (UvHandler.r_package_name uv_params)
  (UvHandler.r_function_name uv_params).

(** The forwarded branch after the resolver: the bridge is built and
    connected, the request is executed, the response is built. *)
Definition forward_call (E : Env) (request_data method : json)
  (server : Schema.McpServerConfiguration) (uv_params : UvHandler.uv_params)
  : M Frame dict :=
on_tracer (Tracer.record_span E "connectToServer" None None) ;;;
modify (fun f =>
          mkFrame (tracer f)
            (Some (McpCaller.init (caller_config server uv_params)))
            (world f)) ;;;
on_caller (McpCaller.connect E) ;;;
on_tracer (Tracer.record_span E "executeMcpCall" None
             (Some [("method", method)])) ;;;
result <- on_call (McpCaller.execute_mcp_call E
                     (match request_data with JObj d => d | _ => [] end)) ;;
generate_jsonrpc_response E request_data result None.

(** The forwarded branch of [rpc_handler] ([handler is True]). *)
Definition forward (E : Env) (request_data method : json)
  (server : Schema.McpServerConfiguration) : M Frame dict :=
has_id <- of_res (py_in "id" request_data) ;;
(if has_id : bool then ret tt
 else raise (ExcCustom (mkCustomError CustomErrorCode.METHOD_NOT_FOUND
                          (JStr ("Method not found: " ++ py_str method))
                          JNull))) ;;;
on_tracer (Tracer.record_span E "extractingServerConfig" None None) ;;;
uv_params <- resolve_command E server ;;
forward_call E request_data method server uv_params.

(** The outer [try] block of [rpc_handler]. *)
Definition rpc_body (E : Env) (request_data : json) : M Frame dict :=
on_tracer (Tracer.record_span E "inputValidation" None None) ;;;
meta_params <- of_res (validate_meta request_data) ;;
method <- of_res (py_get request_data "method" (JStr "")) ;;
handler <- of_res (lookup_handler method) ;;
match handler with
| None => raise method_not_found
| Some (Outlet f) =>
    on_tracer (Tracer.record_span E "outletHandler" None None) ;;;
    result <- of_res (f request_data) ;;
    generate_jsonrpc_response E request_data (get_or_null "result" result) None
| Some HFalse => raise method_not_found
| Some HTrue => forward E request_data method meta_params
end.

(** The [finally] block of [rpc_handler]. *)
Definition rpc_finally : M Frame unit :=
f <- gets mcp_caller ;;
match f with
| Some _ => on_caller McpCaller.close
| None => ret tt
end ;;;
on_world (emit EvRelease).

(** The head of [rpc_handler]: the lock is taken, the tracer is made. *)
Definition enter (E : Env) (data : json) (w : World) : Frame :=
let w1 := mkWorld (ticks w) (EvAcquire :: log w) (launched w) in
let '(tr, k) := Tracer.init E (get_trace_id E data w1) None None (ticks w1) in
mkFrame tr None (mkWorld k (log w1) (launched w1)).

(** The two [except] arms of [rpc_handler]: [except CustomError] and
    [except Exception]. *)
Definition rpc_except (E : Env) (data : json) (e : py_exc) : M Frame dict :=
match e with
| ExcCustom c =>
    generate_jsonrpc_response E data JNull (Some (to_response c))
| ExcOther _ _ =>
    generate_jsonrpc_response E data JNull
      (Some (to_response (format_error (AnyExc e))))
end.

(** rpc.py, [rpc_handler] on [handler_input.data], with the frame it
    leaves.  The [context] argument is not modelled: the handlers ignore
    it.  [request_data] is bound by the first statement of the inner
    [try], so both [except] arms answer with it. *)
Definition rpc_handler_frame (E : Env) (data : json) (w : World)
  : Res dict * Frame :=
try_finally (try_except (rpc_body E data) (rpc_except E data)) rpc_finally
  (enter E data w).

(** rpc.py, [rpc_handler] *)
Definition rpc_handler (E : Env) (data : json) : M World dict :=
fun w => let '(r, f) := rpc_handler_frame E data w in (r, world f).

End WithRuntime.

End Rpc.

(* ================================================================= *)
(** ** A runtime and environments to run the model on *)

(** A runtime with no lax coercion and fixed texts. *)
Definition sample_runtime : PyRuntime := {|
  repr_container := fun _ => "<container>";
  interp_message := fun _ _ => "<interpreter>";
  coerce_int := fun _ => None;
  coerce_float := fun _ => None;
  validation_message := fun model _ => (model ++ " validation error")%string;
  isoformat := PyStr.of_Z
|}.

(** An environment in which every package is installed, [uv] prints
    nothing, and the worker is [wk]. *)
Definition sample_env (wk : list event -> nat -> string -> exchange) : Env := {|
  clock := fun n => 1000 + Z.of_nat n;
  uuid4 := fun _ => "00000000-0000-4000-8000-000000000000";
  setup_uv_environment := fun _ => Ok "/mnt/cache";
  is_package_installed := fun _ _ => Ok true;
  subprocess_run := fun _ _ => Exited 0 None "";
  importlib_metadata := fun _ _ => true;
  worker_exchange := wk;
  captured_logs := fun _ => []
|}.

(** A worker that never writes a line. *)
Definition silent_worker : list event -> nat -> string -> exchange :=
fun _ _ _ => NoReply.

(** A worker that answers every request that has an id with [result]. *)
Definition replying_worker (result : json)
  : list event -> nat -> string -> exchange :=
fun l _ _ =>
  match l with
  | EvWrite _ (JObj d) :: _ =>
      match Dict.get "id" d with
      | Some i => Reply (JObj [("jsonrpc", JStr "2.0"); ("id", i);
                               ("result", result)])
      | None => NoReply
      end
  | _ => NoReply
  end.

Definition empty_world : World := mkWorld 0 [] 0.

(** A request for [method] whose descriptor launches [command] with the
    arguments of the specification's example. *)
Definition sample_request (command method : string) : json :=
JObj [("jsonrpc", JStr "2.0");
      ("id", JNum 1);
      ("method", JStr method);
      ("params",
       JObj [("_meta",
              JObj [("server",
                     JObj [("command", JStr command);
                           ("args", JArr [JStr "--from";
                                          JStr "git+https://x";
                                          JStr "pkg:mod.sub:fn"])])])])].

(** The code of the error envelope of a response, and its message. *)
Definition response_error_code (response : dict) : option Z :=
match Dict.get "error" response with
| Some (JObj e) =>
    match Dict.get "code" e with Some (JNum z) => Some z | _ => None end
| _ => None
end.

Definition response_error_message (response : dict) : option json :=
match Dict.get "error" response with
| Some (JObj e) => Dict.get "message" e
| _ => None
end.

(* ================================================================= *)
(** ** Vocabulary of the properties *)

(** Whether the string [s] sits somewhere in the [data] of an error. *)
Definition string_form_in_data (s : string) (e : CustomError) : Prop :=
exists d k, data e = JObj d /\ Dict.get k d = Some (JStr s).

(** The argument list of the specification's example. *)
Definition example_args : list string :=
["--from"; "git+https://x"; "pkg:mod.sub:fn"].

(** What [record_span] does to the spans that are already there, from
    clock reading [k] on.  When there is no span, or the last one is not
    running, nothing changes and the clock is not read.  When the last
    one is running, it is closed (status success, duration = the clock
    reading minus its start time), the spans before it stay, and the
    clock has been read once. *)
Inductive closes_at_most_last (E : Env) (k : nat) (old : list Tracer.TraceSpan)
  : list Tracer.TraceSpan -> nat -> Prop :=
| closes_none :
    (forall init last,
       old = init ++ [last] -> Tracer.status last <> Tracer.st_running) ->
    closes_at_most_last E k old old k
| closes_last (init : list Tracer.TraceSpan) (last : Tracer.TraceSpan) :
    old = init ++ [last] ->
    Tracer.status last = Tracer.st_running ->
    closes_at_most_last E k old
      (init ++ [Tracer.mkSpan (Tracer.seq last) (Tracer.parent_seq last)
                  (Tracer.start_time last)
                  (Some (clock E k - Tracer.start_time last))
                  Tracer.st_success (Tracer.error last) (Tracer.data last)
                  (Tracer.is_valid last)])
      (S k).

(** The tracer state [s'] has the spans of [s] followed by spans that
    are flagged invalid. *)
Definition absorbs (s s' : Tracer.Tracer * nat) : Prop :=
exists added,
  Tracer.spans (fst s') = Tracer.spans (fst s) ++ added
  /\ Forall (fun sp => Tracer.is_valid sp = false) added.

(** A method of the tracer only absorbs, whatever its outcome; [post]
    holds of what it returns. *)
Definition absorbing {A : Type} (m : Tracer.TM A) (post : A -> Prop) : Prop :=
forall s, absorbs s (snd (m s))
          /\ forall a, fst (m s) = Ok a -> post a.

(** Sequences of calls on one tracer. *)
Module TracerRun.

Inductive op : Type :=
| OpRecord (name : string) (parent_seq : option string)
           (additional_data : option dict)
| OpMerge (base_seq parent_seq : string) (is_success : bool)
          (child_trace : json) (additional_data : option dict)
| OpGetTrace (last_span_success : bool).

(** Who put a span on the list. *)
Inductive origin : Type := Native | Absorbed.

Definition is_native (o : origin) : bool :=
match o with Native => true | Absorbed => false end.

Section WithRuntime.
Context {RT : PyRuntime}.

(** The state after one call; an exception is not possible for
    [record_span] and [get_trace] and is caught inside
    [merge_child_trace]. *)
Definition step (E : Env) (o : op) (s : Tracer.Tracer * nat)
  : Tracer.Tracer * nat :=
match o with
| OpRecord name parent_seq additional_data =>
    snd (Tracer.record_span E name parent_seq additional_data s)
| OpMerge base_seq parent_seq is_success child_trace additional_data =>
    snd (Tracer.merge_child_trace E base_seq parent_seq is_success
           child_trace additional_data s)
| OpGetTrace last_span_success =>
    snd (Tracer.get_trace E last_span_success s)
end.

Definition run (E : Env) (ops : list op) (s : Tracer.Tracer * nat)
  : Tracer.Tracer * nat :=
fold_left (fun s o => step E o s) ops s.

(** The origin of the spans a call puts on the list: as many as the list
    has grown by, native for [record_span], absorbed for
    [merge_child_trace]. *)
Definition appended_by (E : Env) (o : op) (s : Tracer.Tracer * nat)
  : list origin :=
repeat (match o with OpRecord _ _ _ => Native | _ => Absorbed end)
       (length (Tracer.spans (fst (step E o s)))
        - length (Tracer.spans (fst s))).

(** The origins of all the spans after a sequence of calls, given the
    origins [acc] of the spans of [s]. *)
Fixpoint origins (E : Env) (ops : list op) (s : Tracer.Tracer * nat)
  (acc : list origin) : list origin :=
match ops with
| [] => acc
| o :: r => origins E r (step E o s) (acc ++ appended_by E o s)
end.

End WithRuntime.

End TracerRun.

(** The configuration the dispatcher builds for the specification's
    example. *)
Definition sample_config : McpCaller.McpCallerConfiguration :=
McpCaller.mkConfig "2025-03-26" "2.0" "stdio" (Some example_args)
                   "mod.sub" "pkg" "fn".

(** A bridge has a worker and is marked connected. *)
Definition is_connected (c : McpCaller.t) : bool :=
McpCaller._is_connected c
&& match McpCaller._server c with Some _ => true | None => false end.

(** The events of a log that launch a worker. *)
Definition is_launch (e : event) : bool :=
match e with EvLaunch _ _ _ => true | _ => false end.

(** The events of a log that write the [initialize] request of the
    handshake. *)
Definition is_handshake (e : event) : bool :=
match e with
| EvWrite _ (JObj d) =>
    match Dict.get "method" d with
    | Some (JStr "initialize") => true
    | _ => false
    end
| _ => false
end.

(** A frame with another tracer and clock. *)
Definition retimed (f : Rpc.Frame) (t : Tracer.Tracer) (k : nat) : Rpc.Frame :=
Rpc.mkFrame t (Rpc.mcp_caller f)
  (mkWorld k (log (Rpc.world f)) (launched (Rpc.world f))).

(** The log a frame has after the [finally] block of [rpc_handler]: the
    worker the bridge still holds is stopped, then the lock is
    released. *)
Definition closed_log (f : Rpc.Frame) : list event :=
EvRelease ::
match Rpc.mcp_caller f with
| Some c =>
    match McpCaller._server c with
    | Some srv =>
        EvStop (SimpleThreadedMcpServer.worker srv) :: log (Rpc.world f)
    | None => log (Rpc.world f)
    end
| None => log (Rpc.world f)
end.

(** The names of the fixed method table, by kind. *)
Definition local_methods : list string :=
["ping"; "logging/setLevel"; "notifications/initialized"].



(** States that carry the log. *)
Class HasLog (S : Type) : Type := the_log : S -> list event.

#[export] Instance log_of_log : HasLog (list event) := fun l => l.
#[export] Instance log_of_world : HasLog World := log.
#[export] Instance log_of_bridge : HasLog (McpCaller.t * World) :=
  fun s => log (snd s).
#[export] Instance log_of_call : HasLog McpCaller.Call :=
  fun s => log (McpCaller.world s).
#[export] Instance log_of_frame : HasLog Rpc.Frame :=
  fun f => log (Rpc.world f).

(** [l'] is [l] with later events in front. *)
Definition extends (l l' : list event) : Prop := exists later, l' = later ++ l.

(** A computation that never drops an event from the log. *)
Definition growing {S A : Type} `{HasLog S} (m : M S A) : Prop :=
forall s, extends (the_log s) (the_log (snd (m s))).

(** What [format_error] makes of the [TimeoutError] of a 30-second
    [send_request]. *)
Definition timeout_error : CustomError :=
mkCustomError CustomErrorCode.INTERNAL_ERROR
  (JStr "Request timed out after 30.0 seconds") JNull.

(** The log once worker [n] has been launched for [cfg] and the
    [initialize] request has been written to it, after the events [l]. *)
Definition handshake_log {RT : PyRuntime} (cfg : McpCaller.McpCallerConfiguration)
  (n : nat) (l : list event) : list event :=
EvWrite n (McpCaller.init_request (McpCaller.init cfg))
:: EvLaunch n (McpCaller.module_path cfg) (McpCaller.function_name cfg) :: l.

(** The worker of a forwarded call never replies within the 30 seconds:
    either the handshake gets no reply, or the handshake is answered
    with a result and the forwarded request (of another method than
    [initialize], which is not sent) gets no reply. *)
Definition never_replies {RT : PyRuntime} (E : Env)
  (cfg : McpCaller.McpCallerConfiguration) (n : nat) (l : list event)
  (method : string) (request : json) : Prop :=
worker_exchange E (handshake_log cfg n l) n "30.0" = NoReply
\/ exists v,
     worker_exchange E (handshake_log cfg n l) n "30.0" = Reply (JObj v)
     /\ Dict.has "error" v = false
     /\ method <> "initialize"
     /\ worker_exchange E
          (EvWrite n request
           :: EvWrite n (McpCaller.initialized_request (McpCaller.init cfg))
           :: handshake_log cfg n l) n "30.0" = NoReply.

(** The handshake result [connect] caches from a reply without [error]:
    [init_response.get("result", {})]. *)
Definition handshake_result (v : dict) : json :=
match Dict.get "result" v with Some x => x | None => JObj [] end.

(* ================================================================= *)
(** ** Vocabulary of the further properties *)

Module Further.

(** The request [execute_mcp_call] sends: the caller's, with the id the
    bridge assigns when it has none. *)
Definition outgoing (c : McpCaller.t) (input_request : dict) : dict :=
if Dict.has "id" input_request then input_request
else Dict.set "id" (JNum (McpCaller._request_message_id c)) input_request.

(** The events that take or release the lock, start or stop a worker. *)
Definition is_lifecycle (e : event) : bool :=
match e with
| EvAcquire | EvRelease | EvLaunch _ _ _ | EvStop _ => true
| _ => false
end.

Definition lifecycle (l : list event) : list event := filter is_lifecycle l.

(** [l'] is [l] with later events in front, none of them a lifecycle
    event. *)
Definition calmly (l l' : list event) : Prop :=
exists later, l' = later ++ l /\ lifecycle later = [].

(** [l'] is [l] with lines written to workers in front. *)
Definition is_write (e : event) : bool :=
match e with EvWrite _ _ => true | _ => false end.

Definition written (l l' : list event) : Prop :=
exists later, l' = later ++ l /\ forallb is_write later = true.

(** A relation between the state before and the state after a step that
    holds of no step and of two steps in a row. *)
Class Composes {S : Type} (R : S -> S -> Prop) : Prop := {
  step_refl : forall s, R s s;
  step_trans : forall a b c, R a b -> R b c -> R a c
}.

(** Every run of [m], returning or raising, is a step of [R]. *)
Definition stable {S A : Type} (R : S -> S -> Prop) (m : M S A) : Prop :=
forall s, R s (snd (m s)).

(** What a method of the bridge may do during [execute_mcp_call]: move the
    id counter and write to a worker. *)
Definition bridge_step (s s' : McpCaller.t * World) : Prop :=
McpCaller.config (fst s') = McpCaller.config (fst s)
/\ McpCaller._is_connected (fst s') = McpCaller._is_connected (fst s)
/\ McpCaller.server_info (fst s') = McpCaller.server_info (fst s)
/\ McpCaller._server (fst s') = McpCaller._server (fst s)
/\ ticks (snd s') = ticks (snd s)
/\ launched (snd s') = launched (snd s)
/\ written (log (snd s)) (log (snd s')).

Definition call_step (s s' : McpCaller.Call) : Prop :=
bridge_step (McpCaller.self s, McpCaller.world s)
            (McpCaller.self s', McpCaller.world s')
/\ McpCaller.tracer s' = McpCaller.tracer s.

(** The worker the bridge of a frame holds. *)
Definition server_of (f : Rpc.Frame) : option SimpleThreadedMcpServer.t :=
match Rpc.mcp_caller f with
| Some c => McpCaller._server c
| None => None
end.

(** A step of the dispatcher that keeps the worker and adds no lifecycle
    event. *)
Definition frame_step (f f' : Rpc.Frame) : Prop :=
server_of f' = server_of f
/\ calmly (log (Rpc.world f)) (log (Rpc.world f')).

(** The frame holds [sv], and since the log was [l0] the lifecycle events
    have been [ws] (most recent first). *)
Definition worker_phase (l0 : list event) (sv : option SimpleThreadedMcpServer.t)
  (ws : list event) (f : Rpc.Frame) : Prop :=
server_of f = sv
/\ exists mid, log (Rpc.world f) = mid ++ l0 /\ lifecycle mid = ws.

(** No worker yet; a worker launched and held; a worker launched, stopped
    and forgotten. *)
Definition no_worker (l0 : list event) (f : Rpc.Frame) : Prop :=
worker_phase l0 None [] f.

Definition worker_held (l0 : list event) (f : Rpc.Frame) : Prop :=
exists srv m fn,
  worker_phase l0 (Some srv) [EvLaunch (SimpleThreadedMcpServer.worker srv) m fn] f.

Definition worker_stopped (l0 : list event) (f : Rpc.Frame) : Prop :=
exists n m fn, worker_phase l0 None [EvStop n; EvLaunch n m fn] f.

Definition worker_accounted (l0 : list event) (f : Rpc.Frame) : Prop :=
no_worker l0 f \/ worker_held l0 f \/ worker_stopped l0 f.

(** From a state in [P], [m] returns in [Q] or raises in [R]. *)
Definition hoare {S A : Type} (P : S -> Prop) (m : M S A)
  (Q : A -> S -> Prop) (R : S -> Prop) : Prop :=
forall s, P s ->
  match m s with
  | (Ok a, s') => Q a s'
  | (Raise _, s') => R s'
  end.

(** What [execute_mcp_call] does after the [send_request] whose outcome
    is [sent]. *)
Definition execute_tail_of {RT : PyRuntime} (E : Env) (sent : Res json)
  : M McpCaller.Call json :=
match sent with
| Raise error => McpCaller.execute_failed E [] error
| Ok response =>
    seen <- gets (fun s => captured_logs E (log (McpCaller.world s))) ;;
    try_except (McpCaller.execute_reply E seen response)
               (McpCaller.execute_failed E seen)
end.

(** A response to the request [d] carries the protocol version of the
    request, or "2.0", the id of the request if it has one, and either a
    result or an error. *)
Definition well_formed_response (d response : dict) : Prop :=
Dict.get "jsonrpc" response
= Some (match Dict.get "jsonrpc" d with Some v => v | None => JStr "2.0" end)
/\ Dict.get "id" response = Dict.get "id" d
/\ Dict.has "result" response = negb (Dict.has "error" response).

(** The fields of a result: [{**(result or {})}]. *)
Definition result_fields (result : json) : dict :=
Dict.update [] (match result with JObj r => r | _ => [] end).

(** Whether [result or {}] is a dictionary, so that its fields can be
    spread into the response: [result] is a dictionary, or it is falsy
    ([None], [False], [0], an empty string or an empty list). *)
Definition spreads (result : json) : bool :=
match result with
| JObj _ => true
| _ => negb (truthy result)
end.

(** No dictionary of [v] holds [None] as a value, at any depth. *)
Fixpoint no_null_values (v : json) : bool :=
match v with
| JArr l => forallb no_null_values l
| JObj d =>
    (fix go (d : list (string * json)) : bool :=
       match d with
       | [] => true
       | (_, value) :: r =>
           match value with
           | JNull => false
           | _ => no_null_values value
           end && go r
       end) d
| _ => true
end.

(** The spans of a list that are still running. *)
Definition running_spans (l : list Tracer.TraceSpan) : list Tracer.TraceSpan :=
filter (fun sp => Tracer.is_running (Tracer.status sp)) l.

(** The calls that the tracer's owner makes itself: [record_span] and
    [get_trace]. *)
Definition is_own_call (o : TracerRun.op) : bool :=
match o with
| TracerRun.OpMerge _ _ _ _ _ => false
| _ => true
end.

(** The clock never goes back. *)
Definition monotone_clock (E : Env) : Prop :=
forall i j : nat, (i <= j)%nat -> clock E i <= clock E j.

(** A span that started at a clock reading before the [k]-th and, if it
    has ended, did not end before it started. *)
Definition well_timed (E : Env) (k : nat) (sp : Tracer.TraceSpan) : Prop :=
(exists j, (j < k)%nat /\ Tracer.start_time sp = clock E j)
/\ forall d, Tracer.duration sp = Some d -> 0 <= d.

(** A child span that carries its name only. *)
Definition bare_span (name : string) : json := JObj [("seq", JStr name)].

(** What [_merge_spans_array] makes of the bare child spans [names] from
    clock reading [k] on. *)
Fixpoint merged_bare (E : Env) (base_seq parent_seq : string)
  (st : Tracer.span_status) (additional_data : dict) (k : nat)
  (names : list string) : list Tracer.TraceSpan :=
match names with
| [] => []
| name :: r =>
    Tracer.mkSpan (base_seq ++ "." ++ name)%string (Some parent_seq) (clock E k)
      None st None (Some additional_data) false
    :: merged_bare E base_seq parent_seq st additional_data (S k) r
end.

(** [additional_data or {}] *)
Definition or_empty (o : option dict) : dict :=
match o with Some d => d | None => [] end.

(** [child_trace] is neither a list nor a dictionary with a list under
    ["spans"]. *)
Definition no_span_list (child_trace : json) : bool :=
match child_trace with
| JArr _ => false
| JObj d => match Tracer.spans_of d with Some _ => false | None => true end
| _ => true
end.

(** The package name of a scan state holds no colon. *)
Definition colon_free (st : UvHandler.scan_state) : Prop :=
match UvHandler.package_name st with
| Some p => PyStr.has_char ":" p = false
| None => True
end.

(** A worker that answers the handshake with a result, unless
    [refuse_handshake], and every other request that has an id with an
    error. *)
Definition erring_worker (refuse_handshake : bool)
  : list event -> nat -> string -> exchange :=
fun l _ _ =>
  match l with
  | EvWrite _ (JObj d) :: _ =>
      match Dict.get "id" d with
      | Some i =>
          if McpCaller.is_method "initialize" d && negb refuse_handshake
          then Reply (JObj [("jsonrpc", JStr "2.0"); ("id", i);
                            ("result",
                             JObj [("protocolVersion", JStr "2025-03-26")])])
          else Reply (JObj [("jsonrpc", JStr "2.0"); ("id", i);
                            ("error",
                             JObj [("code", JNum (-32000));
                                   ("message", JStr "boom")])])
      | None => NoReply
      end
  | _ => NoReply
  end.

(** An environment in which no package is installed and every [uv]
    command fails. *)
Definition broken_index_env : Env := {|
  clock := fun n => 1000 + Z.of_nat n;
  uuid4 := fun _ => "00000000-0000-4000-8000-000000000000";
  setup_uv_environment := fun _ => Ok "/mnt/cache";
  is_package_installed := fun _ _ => Ok false;
  subprocess_run := fun _ _ => Exited 1 None "no such package";
  importlib_metadata := fun _ _ => false;
  worker_exchange := silent_worker;
  captured_logs := fun _ => []
|}.

(** The server descriptor of [sample_request] once validated, and what
    the resolver returns for it on [sample_env]. *)
Definition sample_server (command : string) : Schema.McpServerConfiguration :=
Schema.mkServer "2025-03-26" "2.0" "stdio" command (Some example_args) None
  JNull None None.

Definition sample_uv_params : UvHandler.uv_params :=
UvHandler.mkUvParams "pkg" "mod.sub" "fn" (Some "mod.sub:fn")
  (Some "git+https://x") [] (JObj []).

(** The fields of [sample_request]. *)
Definition sample_fields (command method : string) : dict :=
match sample_request command method with JObj d => d | _ => [] end.

(** A bridge that is connected to worker 0. *)
Definition connected_bridge : McpCaller.t :=
McpCaller.mk sample_config 2 true
  (JObj [("protocolVersion", JStr "2025-03-26")])
  (Some (SimpleThreadedMcpServer.mk "mod.sub" "fn" true false 0)).

End Further.

(* ================================================================= *)
(** * Properties *)

(* ================================================================= *)
(** ** Sequencing *)

Section BindFacts.
Context {S A B : Type}.

Lemma bind_returns (m : M S A) (k : A -> M S B) (s s1 : S) (a : A) :
  m s = (Ok a, s1) -> bind m k s = k a s1.
Proof. intros H. unfold bind. now rewrite H. Qed.

Lemma bind_raises (m : M S A) (k : A -> M S B) (s s1 : S) (e : py_exc) :
  m s = (Raise e, s1) -> bind m k s = (Raise e, s1).
Proof. intros H. unfold bind. now rewrite H. Qed.

Lemma bind_ok (m : M S A) (k : A -> M S B) (s s' : S) (b : B) :
  bind m k s = (Ok b, s') ->
  exists a s1, m s = (Ok a, s1) /\ k a s1 = (Ok b, s').
Proof.
unfold bind. destruct (m s) as [[a|e] s1]; [|discriminate].
intros H. now exists a, s1.
Qed.

End BindFacts.

(* ================================================================= *)
(** ** Strings *)

Lemma prefix_app (a b : string) : String.prefix a (a ++ b) = true.
Proof.
induction a as [|c a IH]; simpl.
- now destruct b.
- destruct (ascii_dec c c) as [_|n]; [exact IH | now elim n].
Qed.

(** Once an occurrence has been found, the scan drops the rest of it. *)
Lemma replace_go_skip (old new s rest : string) :
  PyStr.replace_go old new (String.length s) (s ++ rest)
  = PyStr.replace_go old new 0 rest.
Proof.
induction s as [|c s IH]; simpl; [reflexivity | exact IH].
Qed.

(** [replace] removes a leading occurrence and goes on after it. *)
Lemma replace_strips_prefix (old rest : string) :
  old <> EmptyString ->
  PyStr.replace (old ++ rest) old "" = PyStr.replace rest old "".
Proof.
intros Hne. destruct old as [|c old]; [now elim Hne|].
unfold PyStr.replace.
change (String c old ++ rest)%string with (String c (old ++ rest)).
cbn [PyStr.replace_go].
change (String c (old ++ rest)) with (String c old ++ rest)%string.
rewrite prefix_app.
cbn [String.length Nat.pred String.append].
apply replace_go_skip.
Qed.

(** A text without the first character of [old] is left alone. *)
Lemma replace_go_absent (old new s : string) (c : ascii) (old' : string) :
  old = String c old' ->
  PyStr.has_char c s = false ->
  PyStr.replace_go old new 0 s = s.
Proof.
intros -> . induction s as [|a s IH]; simpl; [reflexivity|].
destruct (Ascii.eqb a c) eqn:Hac; [discriminate|].
intros Hs. destruct (ascii_dec c a) as [->|_].
- now rewrite Ascii.eqb_refl in Hac.
- now rewrite IH.
Qed.

(* ================================================================= *)
(** ** The error model *)

Lemma CustomErrorResponse_shape {RT : PyRuntime} (d : dict) c m x :
  CustomErrorResponse d = Some (c, m, x) ->
  Dict.has "code" d && Dict.has "message" d = true.
Proof.
unfold CustomErrorResponse, Dict.has.
destruct (Dict.get "code" d); [|discriminate].
destruct (Dict.get "message" d); [reflexivity|].
intros H. exfalso. revert H.
destruct j; try destruct (coerce_int _); discriminate.
Qed.

(** C7, counterexample: an ordinary exception, here
    [RuntimeError("boom")], comes out of [format_error] as InternalError
    with its string form in [message]; [data] is [None], so the envelope
    built by [to_response] has no [data] field at all. *)
Lemma C7_counterexample :
  let e := @format_error sample_runtime (AnyExc (ExcOther RuntimeError "boom")) in
  code e = CustomErrorCode.INTERNAL_ERROR
  /\ message e = JStr "boom"
  /\ data e = JNull
  /\ Dict.get "data" (@to_response e) = None
  /\ ~ string_form_in_data "boom" e.
Proof.
cbn. repeat split; try reflexivity.
intros (d & k & H & _). discriminate H.
Qed.

(** C7, amended: [format_error] returns a [CustomError] unchanged; a
    dictionary that validates as [{code, message, data?}] keeps its code
    and data and loses every occurrence of ["MCP error {code}: "] in its
    message, a leading one in particular; any other exception becomes
    InternalError (-32603) with its string form as the message and no
    data; any other value becomes InternalError "Unknown error" with its
    string form under [data.error]. *)
Theorem C7_format_error_cases {RT : PyRuntime} (e : CustomError)
  (cls : exc_class) (msg : string) (d : dict) (c : Z) (m : string) (x v : json) :
  CustomErrorResponse d = Some (c, m, x) ->
  (forall d', v = JObj d' -> CustomErrorResponse d' = None) ->
  let prefix := ("MCP error " ++ PyStr.of_Z c ++ ": ")%string in
  format_error (AnyExc (ExcCustom e)) = e
  /\ format_error (AnyVal (JObj d))
     = mkCustomError c (JStr (PyStr.replace m prefix "")) x
  /\ (forall rest, m = (prefix ++ rest)%string ->
      message (format_error (AnyVal (JObj d)))
      = JStr (PyStr.replace rest prefix ""))
  /\ format_error (AnyExc (ExcOther cls msg))
     = mkCustomError CustomErrorCode.INTERNAL_ERROR (JStr msg) JNull
  /\ format_error (AnyVal v)
     = mkCustomError CustomErrorCode.INTERNAL_ERROR (JStr "Unknown error")
         (JObj [("error", match v with
                          | JNull => JNull
                          | _ => JStr (py_str v)
                          end)]).
Proof.
intros Hd Hv prefix.
assert (Hshaped : format_error (AnyVal (JObj d))
                  = mkCustomError c (JStr (PyStr.replace m prefix "")) x).
{ unfold format_error. rewrite (CustomErrorResponse_shape _ Hd), Hd.
  reflexivity. }
split; [reflexivity|]. split; [exact Hshaped|]. split.
- intros rest ->. rewrite Hshaped. cbn [message]. f_equal.
  apply replace_strips_prefix. discriminate.
- split; [reflexivity|].
  destruct v as [| | | |l|d']; try reflexivity.
  unfold format_error. rewrite (Hv d' eq_refl).
  now destruct (Dict.has "code" d' && Dict.has "message" d').
Qed.

(** The theorem at a concrete dictionary: ["MCP error -32001: Connection
    closed"] becomes ["Connection closed"]. *)
Lemma C7_format_error_cases_witness :
  message (@format_error sample_runtime
             (AnyVal (JObj [("code", JNum (-32001));
                            ("message",
                             JStr "MCP error -32001: Connection closed")])))
  = JStr "Connection closed".
Proof.
pose proof (@C7_format_error_cases sample_runtime
              (mkCustomError 0 JNull JNull) RuntimeError ""
              [("code", JNum (-32001));
               ("message", JStr "MCP error -32001: Connection closed")]
              (-32001) "MCP error -32001: Connection closed" JNull
              (JStr "oops") eq_refl) as H.
cbv zeta in H.
destruct H as (_ & _ & H & _).
- intros d' Hd'. discriminate Hd'.
- exact (H "Connection closed" eq_refl).
Defined.

(* ================================================================= *)
(** ** The argument resolver *)

Example scan_example :
  UvHandler.scan UvHandler.scan_init example_args
  = UvHandler.mkScan (Some "pkg") (Some "mod.sub:fn") (Some "git+https://x")
                     [] None [].
Proof. reflexivity. Qed.

(** An explicit entry decides the entry point before the console scripts
    are looked at. *)
Lemma resolve_explicit_entry {RT : PyRuntime} (entry_points : json) :
  UvHandler.resolve_entry_point "pkg" (Some "mod.sub:fn") entry_points
  = Ok ("mod.sub", "fn").
Proof. reflexivity. Qed.

(** The example runs on the sample environment. *)
Example parse_example_runs :
  fst (@UvHandler.parse_mcp_server_params sample_runtime
         (sample_env silent_worker) (Some example_args) [])
  = Ok (UvHandler.mkUvParams "pkg" "mod.sub" "fn" (Some "mod.sub:fn")
          (Some "git+https://x") [] (JObj [])).
Proof. reflexivity. Qed.

(** C8: the scan of ["--from"; "git+https://x"; "pkg:mod.sub:fn"] finds
    the package spec [pkg] with the explicit entry [mod.sub:fn] (and the
    install source); [resolve_entry_point] splits that entry on its last
    colon into module "mod.sub" and function "fn" whatever the console
    scripts are; and [parse_mcp_server_params] returns exactly these
    whenever the environment set-up and the installation phase before the
    resolution run through, which are the only places it can raise. *)
Theorem C8_parse_example {RT : PyRuntime} (E : Env) (l : list event) :
  let st := UvHandler.scan UvHandler.scan_init example_args in
  let l0 := EvResolve (Some example_args) :: l in
  UvHandler.package_name st = Some "pkg"
  /\ UvHandler.entry_point st = Some "mod.sub:fn"
  /\ UvHandler.source_path st = Some "git+https://x"
  /\ PyStr.has_char "." "mod.sub:fn" && PyStr.has_char ":" "mod.sub:fn" = true
  /\ PyStr.rsplit_last ":" "mod.sub:fn" = ("mod.sub", Some "fn")
  /\ (forall entry_points,
        UvHandler.resolve_entry_point "pkg" (Some "mod.sub:fn") entry_points
        = Ok ("mod.sub", "fn"))
  /\ match fst (UvHandler.parse_mcp_server_params E (Some example_args) l) with
     | Ok r =>
         UvHandler.r_package_name r = "pkg"
         /\ UvHandler.r_module_path r = "mod.sub"
         /\ UvHandler.r_function_name r = "fn"
         /\ UvHandler.r_entry_point r = Some "mod.sub:fn"
         /\ exists cache_dir l1,
              setup_uv_environment E l0 = Ok cache_dir
              /\ UvHandler.install_phase E cache_dir st "pkg" l0 = (Ok tt, l1)
     | Raise e =>
         setup_uv_environment E l0 = Raise e
         \/ exists cache_dir,
              setup_uv_environment E l0 = Ok cache_dir
              /\ fst (UvHandler.install_phase E cache_dir st "pkg" l0) = Raise e
     end.
Proof.
intros st l0.
do 6 (split; [reflexivity|]).
unfold UvHandler.parse_mcp_server_params, bind, record_event, modify.
cbn [fst snd]. fold l0.
destruct (setup_uv_environment E l0) as [cache_dir|e] eqn:Hsetup;
  [|left; reflexivity].
change (UvHandler.scan UvHandler.scan_init example_args) with st.
change (UvHandler.nonempty (UvHandler.package_name st)) with (Some "pkg").
cbv iota beta.
remember (UvHandler.install_phase E cache_dir st "pkg" l0) as phase eqn:Hphase.
destruct phase as [[[]|e] l1].
- unfold UvHandler.inspect_entry_points, bind, record_event, modify, gets, ret, of_res.
  cbn -[UvHandler.install_phase]. repeat split; try reflexivity.
  exists cache_dir, l1. split; [reflexivity | symmetry; exact Hphase].
- cbn -[UvHandler.install_phase]. right. exists cache_dir.
  split; [reflexivity|]. change (fst (UvHandler.install_phase E cache_dir st "pkg" l0) = Raise e).
  now rewrite <- Hphase.
Qed.

(* ================================================================= *)
(** ** The tracer *)

Section TracerFacts.
Context {RT : PyRuntime}.
Variable E : Env.

Import Tracer.

Lemma end_last_running_spec (t : Tracer) (k : nat) :
  exists closed k1,
    end_last_running E (t, k) = (Ok tt, (set_spans closed t, k1))
    /\ closes_at_most_last E k (spans t) closed k1.
Proof.
unfold end_last_running.
destruct (rev (spans t)) as [|last before] eqn:Hrev.
- exists (spans t), k. split; [now destruct t|]. apply closes_none.
  intros init l Hold. apply (f_equal (@rev _)) in Hold.
  rewrite Hrev, rev_app_distr in Hold. discriminate.
- assert (Hsp : spans t = rev before ++ [last]).
  { rewrite <- (rev_involutive (spans t)), Hrev. reflexivity. }
  destruct (is_running (status last)) eqn:Hrun.
  + exists (rev before ++ [_end_previous_span (clock E k) last false]), (S k).
    split; [reflexivity|].
    apply closes_last; [exact Hsp | now destruct (status last)].
  + exists (spans t), k. split; [now destruct t|]. apply closes_none.
    intros init l Hold. rewrite Hsp in Hold.
    apply app_inj_tail in Hold as [_ <-]. intros Hl. now rewrite Hl in Hrun.
Qed.

Lemma record_span_spec (name : string) (parent : option string)
  (additional_data : option dict) (t : Tracer) (k : nat) :
  exists closed k1,
    let new := mkSpan name (or_parent parent (current_parent t))
                      (clock E k1) None st_running None additional_data true in
    record_span E name parent additional_data (t, k)
    = (Ok new, (set_spans (closed ++ [new]) t, S k1))
    /\ closes_at_most_last E k (spans t) closed k1.
Proof.
destruct (end_last_running_spec t k) as (closed & k1 & Hend & Hcl).
exists closed, k1. split; [|exact Hcl].
unfold record_span, bind. rewrite Hend. reflexivity.
Qed.

(** The loop of [get_trace] leaves no running span, keeps the length of
    the list and changes only durations and statuses. *)
Lemma end_running_spec (is_error : bool) (l : list TraceSpan) (k : nat) :
  let l' := fst (end_running E is_error l k) in
  Forall (fun sp => status sp <> st_running) l'
  /\ map is_valid l' = map is_valid l
  /\ map seq l' = map seq l.
Proof.
revert k. induction l as [|sp r IH]; intros k; cbn.
- repeat split; constructor.
- destruct (is_running (status sp)) eqn:Hrun.
  + specialize (IH (S k)).
    destruct (end_running E is_error r (S k)) as [r' k'].
    cbn in *. destruct IH as (IH1 & IH2 & IH3).
    repeat split; [|now rewrite IH2|now rewrite IH3].
    constructor; [|exact IH1]. cbn. now destruct is_error.
  + specialize (IH k).
    destruct (end_running E is_error r k) as [r' k'].
    cbn in *. destruct IH as (IH1 & IH2 & IH3).
    repeat split; [|now rewrite IH2|now rewrite IH3].
    constructor; [|exact IH1]. now destruct (status sp).
Qed.

Lemma get_trace_spec (last_span_success : bool) (t : Tracer) (k : nat) :
  exists closed k' finish,
    get_trace E last_span_success (t, k)
    = (Ok [("traceId", JStr (trace_id t));
           ("startTime", JStr (isoformat (trace_start_time t)));
           ("endTime", JStr (isoformat finish));
           ("data", opt_dict (trace_additional_data t));
           ("spans", JArr (map output_span closed));
           ("isValid", JBool true)],
       (mkTracer closed (trace_id t) (trace_start_time t) (Some finish)
                 (current_parent t) (trace_additional_data t), k'))
    /\ closed = fst (end_running E (negb last_span_success) (spans t) k).
Proof.
unfold get_trace.
destruct (end_running E (negb last_span_success) (spans t) k) as [closed k1].
destruct (end_time t) as [e|].
- exists closed, k1, e. now split.
- exists closed, (S k1), (clock E k1). now split.
Qed.

(** The status an output span shows is the status of the span. *)
Lemma output_span_status (sp : TraceSpan) :
  exists d, output_span sp = JObj d
            /\ Dict.get "status" d = Some (JStr (status_str (status sp))).
Proof. eexists. split; reflexivity. Qed.

Lemma status_str_running (s : span_status) :
  status_str s = "running" -> s = st_running.
Proof. now destruct s. Qed.

End TracerFacts.

(** C9: on every tracer state (so after every sequence of operations),
    [record_span] returns, and what it leaves is the spans [closed]
    followed by the new running span.  [closed] is the list of the spans
    already recorded, with one change at most: when the last of them is
    running, that span, and no other, is closed before the new one is
    opened, with status success and duration = the clock reading minus
    its start time; when there is no span or the last one is not
    running, the spans are left as they are.  The snapshot [get_trace]
    returns lists no span whose status is "running", and the tracer holds
    none afterwards. *)
Theorem C9_record_span_get_trace {RT : PyRuntime} (E : Env)
  (t : Tracer.Tracer) (k : nat) (name : string) (parent : option string)
  (additional_data : option dict) (last_span_success : bool) :
  (exists closed k1,
     let new := Tracer.mkSpan name
                  (Tracer.or_parent parent (Tracer.current_parent t))
                  (clock E k1) None Tracer.st_running None additional_data
                  true in
     Tracer.record_span E name parent additional_data (t, k)
     = (Ok new, (Tracer.set_spans (closed ++ [new]) t, S k1))
     /\ closes_at_most_last E k (Tracer.spans t) closed k1
     /\ (forall init last,
           Tracer.spans t = init ++ [last] ->
           Tracer.status last = Tracer.st_running ->
           closed
           = init ++ [Tracer.mkSpan (Tracer.seq last) (Tracer.parent_seq last)
                        (Tracer.start_time last)
                        (Some (clock E k - Tracer.start_time last))
                        Tracer.st_success (Tracer.error last)
                        (Tracer.data last) (Tracer.is_valid last)]
           /\ k1 = S k)
     /\ ((forall init last,
            Tracer.spans t = init ++ [last] ->
            Tracer.status last <> Tracer.st_running) ->
         closed = Tracer.spans t /\ k1 = k))
  /\ (exists out t' k',
        Tracer.get_trace E last_span_success (t, k) = (Ok out, (t', k'))
        /\ Dict.get "spans" out
           = Some (JArr (map Tracer.output_span (Tracer.spans t')))
        /\ Forall (fun sp => Tracer.status sp <> Tracer.st_running)
                  (Tracer.spans t')
        /\ Forall (fun o => exists d,
                       o = JObj d
                       /\ Dict.get "status" d <> Some (JStr "running"))
                  (map Tracer.output_span (Tracer.spans t'))).
Proof.
split.
{ destruct (record_span_spec E name parent additional_data t k)
    as (closed & k1 & Hrec & Hcl).
  exists closed, k1. split; [exact Hrec|]. split; [exact Hcl|].
  split.
  - intros init last Hold Hrun.
    inversion Hcl as [Hidle Hc Hk|init' last' Hold' Hrun' Hc Hk]; subst.
    + now elim (Hidle init last Hold).
    + rewrite Hold in Hold'. apply app_inj_tail in Hold' as [<- <-].
      now split.
  - intros Hidle.
    inversion Hcl as [_ Hc Hk|init last Hold Hrun Hc Hk]; subst.
    + now split.
    + now elim (Hidle init last Hold). }
destruct (get_trace_spec E last_span_success t k)
  as (closed & k' & finish & Hget & Hclosed).
do 3 eexists. split; [exact Hget|]. cbn [Tracer.spans].
split; [reflexivity|].
destruct (end_running_spec E (negb last_span_success) (Tracer.spans t) k)
  as (Hrun & _). rewrite <- Hclosed in Hrun.
split; [exact Hrun|].
apply Forall_map. eapply Forall_impl; [|exact Hrun].
intros sp Hsp. destruct (output_span_status sp) as (d & Hd & Hst).
exists d. split; [exact Hd|]. rewrite Hst. intros H. injection H as H.
now apply status_str_running in H.
Qed.

(* ----------------------------------------------------------------- *)
(** *** Spans appended by [merge_child_trace] *)

Section MergeFacts.
Context {RT : PyRuntime}.
Variable E : Env.

Import Tracer.

Lemma absorbs_refl s : absorbs s s.
Proof. exists []. split; [now rewrite app_nil_r | constructor]. Qed.

Lemma absorbs_same_spans s s' :
  spans (fst s') = spans (fst s) -> absorbs s s'.
Proof. intros H. exists []. split; [now rewrite app_nil_r | constructor]. Qed.

Lemma absorbs_trans s1 s2 s3 : absorbs s1 s2 -> absorbs s2 s3 -> absorbs s1 s3.
Proof.
intros (a & Ha & Fa) (b & Hb & Fb). exists (a ++ b). split.
- now rewrite Hb, Ha, app_assoc.
- apply Forall_app. now split.
Qed.

Lemma absorbing_weaken {A : Type} (m : TM A) (P Q : A -> Prop) :
  absorbing m P -> (forall a, P a -> Q a) -> absorbing m Q.
Proof.
intros H HPQ s. destruct (H s) as [H1 H2]. split; [exact H1|].
intros a Ha. auto.
Qed.

Lemma absorbing_ret {A : Type} (a : A) (P : A -> Prop) :
  P a -> absorbing (ret a) P.
Proof.
intros Ha s. split; [apply absorbs_refl|].
cbn. intros b Hb. now injection Hb as <-.
Qed.

Lemma absorbing_raise {A : Type} (e : py_exc) (P : A -> Prop) :
  absorbing (raise e) P.
Proof. intros s. split; [apply absorbs_refl | discriminate]. Qed.

Lemma absorbing_of_res {A : Type} (r : Res A) :
  absorbing (of_res r) (fun a => r = Ok a).
Proof. intros s. split; [apply absorbs_refl | now cbn]. Qed.

Lemma absorbing_gets {A : Type} (f : Tracer * nat -> A) :
  absorbing (gets f) (fun _ => True).
Proof. intros s. split; [apply absorbs_refl | now cbn]. Qed.

Lemma absorbing_bind {A B : Type} (m : TM A) (k : A -> TM B)
  (P : A -> Prop) (Q : B -> Prop) :
  absorbing m P -> (forall a, P a -> absorbing (k a) Q) ->
  absorbing (bind m k) Q.
Proof.
intros Hm Hk s. unfold bind.
destruct (Hm s) as [H1 H2].
destruct (m s) as [[a|e] s1] eqn:Hms; cbn in *.
- destruct (Hk a (H2 a eq_refl) s1) as [H3 H4].
  split; [eapply absorbs_trans; eassumption | exact H4].
- split; [exact H1 | discriminate].
Qed.

Lemma absorbing_try_except {A : Type} (m : TM A) (h : py_exc -> TM A)
  (P : A -> Prop) :
  absorbing m P -> (forall e, absorbing (h e) P) ->
  absorbing (try_except m h) P.
Proof.
intros Hm Hh s. unfold try_except.
destruct (Hm s) as [H1 H2].
destruct (m s) as [[a|e] s1] eqn:Hms; cbn in *.
- split; [exact H1 | exact H2].
- destruct (Hh e s1) as [H3 H4].
  split; [eapply absorbs_trans; eassumption | exact H4].
Qed.

Lemma absorbing_time_ms : absorbing (time_ms E) (fun _ => True).
Proof. intros s. split; [now apply absorbs_same_spans | now cbn]. Qed.

Lemma absorbing_append (sp : TraceSpan) :
  is_valid sp = false -> absorbing (append_span sp) (fun _ => True).
Proof.
intros Hsp s. split; [|now cbn].
exists [sp]. split; [now destruct s as [[] ?] | now constructor].
Qed.

Lemma absorbing_trace_data (d : option dict) :
  absorbing (modify (fun s => (set_trace_data d (fst s), snd s)))
            (fun _ => True).
Proof. intros s. split; [now apply absorbs_same_spans | now cbn]. Qed.

Lemma merged_span_absorbing (span_data : dict) (base_seq parent_seq status : string)
  (additional_data : dict) :
  absorbing (merged_span E span_data base_seq parent_seq status additional_data)
            (fun sp => is_valid sp = false).
Proof.
unfold merged_span.
eapply absorbing_bind; [apply absorbing_time_ms|]. intros now _.
eapply absorbing_bind; [apply absorbing_of_res|]. intros d _.
destruct (as_optional_str _); [|apply absorbing_raise].
destruct (as_float _); [|apply absorbing_raise].
destruct (as_optional_float _); [|apply absorbing_raise].
destruct (as_status _); [|apply absorbing_raise].
destruct (as_optional_str _); [|apply absorbing_raise].
now apply absorbing_ret.
Qed.

Lemma _merge_spans_array_absorbing (l : list json)
  (base_seq parent_seq status : string) (additional_data : dict) :
  absorbing (_merge_spans_array E l base_seq parent_seq status additional_data)
            (fun _ => True).
Proof.
induction l as [|span_data rest IH]; cbn [_merge_spans_array].
- now apply absorbing_ret.
- eapply absorbing_bind with (P := fun _ => True); [|intros; exact IH].
  apply absorbing_try_except; [|intros; now apply absorbing_ret].
  destruct span_data; try now apply absorbing_ret.
  eapply absorbing_bind; [apply merged_span_absorbing|].
  intros sp Hsp. now apply absorbing_append.
Qed.

Lemma _merge_trace_data_absorbing (trace_data : json) (additional_data : dict) :
  absorbing (_merge_trace_data trace_data additional_data) (fun _ => True).
Proof.
unfold _merge_trace_data.
eapply absorbing_bind; [apply absorbing_gets|]. intros t _.
eapply absorbing_bind; [apply absorbing_trace_data|]. intros _ _.
eapply absorbing_bind; [apply absorbing_of_res|]. intros c _.
apply absorbing_trace_data.
Qed.

Lemma _create_fallback_span_absorbing (child_trace : json)
  (base_seq parent_seq : string) (status : span_status) (additional_data : dict) :
  absorbing (_create_fallback_span E child_trace base_seq parent_seq status
               additional_data) (fun _ => True).
Proof.
unfold _create_fallback_span.
eapply absorbing_bind; [apply absorbing_time_ms|]. intros now _.
now apply absorbing_append.
Qed.

Lemma _create_error_span_absorbing (child_trace : json)
  (base_seq parent_seq : string) (status : span_status)
  (additional_data : dict) (error_message : string) :
  absorbing (_create_error_span E child_trace base_seq parent_seq status
               additional_data error_message) (fun _ => True).
Proof.
unfold _create_error_span.
eapply absorbing_bind; [apply absorbing_time_ms|]. intros now _.
now apply absorbing_append.
Qed.

Lemma merge_child_trace_absorbing (base_seq parent_seq : string)
  (is_success : bool) (child_trace : json) (additional_data : option dict) :
  absorbing (merge_child_trace E base_seq parent_seq is_success child_trace
               additional_data) (fun _ => True).
Proof.
unfold merge_child_trace.
apply absorbing_try_except; [|intros; apply _create_error_span_absorbing].
destruct child_trace;
  try apply _create_fallback_span_absorbing;
  [apply _merge_spans_array_absorbing|].
eapply absorbing_bind with (P := fun _ => True).
- apply absorbing_try_except; [|intros; now apply absorbing_ret].
  destruct (spans_of d).
  + eapply absorbing_bind with (P := fun _ => True);
      [apply _merge_spans_array_absorbing|]. intros _ _.
    eapply absorbing_bind with (P := fun _ => True);
      [|intros; now apply absorbing_ret].
    destruct (Dict.get "data" d);
      [apply _merge_trace_data_absorbing | now apply absorbing_ret].
  + eapply absorbing_bind with (P := fun _ => True);
      [apply _create_fallback_span_absorbing | intros; now apply absorbing_ret].
- intros [] _; [now apply absorbing_ret | apply _create_fallback_span_absorbing].
Qed.

End MergeFacts.

(* ----------------------------------------------------------------- *)
(** *** The [is_valid] flag along a run *)

Section ValidityFacts.
Context {RT : PyRuntime}.
Variable E : Env.

Import Tracer TracerRun.

Lemma closes_keeps_validity k old closed k1 :
  closes_at_most_last E k old closed k1 ->
  map is_valid closed = map is_valid old /\ length closed = length old.
Proof.
intros [_|init last -> _]; [now split|].
rewrite !map_app, !length_app. now split.
Qed.

Lemma all_invalid (added : list TraceSpan) :
  Forall (fun sp => is_valid sp = false) added ->
  map is_valid added = repeat false (length added).
Proof.
induction 1 as [|sp r Hsp _ IH]; cbn; [reflexivity|].
now rewrite Hsp, IH.
Qed.

Lemma map_is_native_repeat (o : origin) (n : nat) :
  map is_native (repeat o n) = repeat (is_native o) n.
Proof. induction n; cbn; congruence. Qed.

(** One call: the flags already there stay, and each span the call
    appends is flagged by the kind of the call. *)
Lemma step_validity (o : op) (s : Tracer * nat) :
  map is_valid (spans (fst (step E o s)))
  = map is_valid (spans (fst s)) ++ map is_native (appended_by E o s).
Proof.
unfold appended_by. rewrite map_is_native_repeat.
destruct s as [t k]. destruct o as [name p d|b p ok child d|ok]; cbn [step].
- destruct (record_span_spec E name p d t k) as (closed & k1 & Hrec & Hcl).
  cbv zeta in Hrec. rewrite Hrec.
  destruct (closes_keeps_validity Hcl) as [Hv Hl].
  cbn [snd fst]. replace (spans (set_spans _ t)) with
    (closed ++ [mkSpan name (or_parent p (current_parent t)) (clock E k1) None
                       st_running None d true]) by reflexivity.
  rewrite map_app, length_app, Hv, Hl. cbn [length map is_valid].
  replace (length (spans t) + 1 - length (spans t))%nat with 1%nat by lia.
  reflexivity.
- destruct (merge_child_trace_absorbing E b p ok child d (t, k))
    as [(added & Hsp & Hinv) _].
  rewrite Hsp, map_app, length_app, (all_invalid Hinv). cbn [fst].
  replace (length (spans t) + length added - length (spans t))%nat
    with (length added) by lia.
  reflexivity.
- destruct (get_trace_spec E ok t k) as (closed & k' & finish & Hget & Hcl).
  rewrite Hget. cbn [snd fst spans].
  destruct (end_running_spec E (negb ok) (spans t) k) as (_ & Hv & _).
  rewrite <- Hcl in Hv.
  assert (Hl : length closed = length (spans t)).
  { rewrite <- (length_map is_valid closed), Hv. apply length_map. }
  rewrite Hv, Hl, Nat.sub_diag. cbn. now rewrite app_nil_r.
Qed.

Lemma run_validity (ops : list op) (s : Tracer * nat) (acc : list origin) :
  map is_valid (spans (fst s)) = map is_native acc ->
  map is_valid (spans (fst (run E ops s)))
  = map is_native (origins E ops s acc).
Proof.
revert s acc. induction ops as [|o r IH]; intros s acc Hacc; cbn.
- exact Hacc.
- apply IH. now rewrite step_validity, map_app, Hacc.
Qed.

End ValidityFacts.

(** C10: [record_span] appends one span with [is_valid = true] and does
    not touch the flag of the others; everything [merge_child_trace]
    appends (merged child spans, a fallback span, an error span) has
    [is_valid = false], and it removes or changes nothing.  So after any
    sequence of calls on a fresh tracer the flag of each span tells its
    origin: true exactly for the natively recorded ones. *)
Theorem C10_is_valid_marks_origin {RT : PyRuntime} (E : Env)
  (trace_id : string) (parent : option string) (trace_data : option dict)
  (k0 : nat) (ops : list TracerRun.op) :
  let s0 := Tracer.init E trace_id parent trace_data k0 in
  map Tracer.is_valid (Tracer.spans (fst (TracerRun.run E ops s0)))
  = map TracerRun.is_native (TracerRun.origins E ops s0 [])
  /\ (forall s name p d,
        exists sp s' closed,
          Tracer.record_span E name p d s = (Ok sp, s')
          /\ Tracer.is_valid sp = true
          /\ Tracer.spans (fst s') = closed ++ [sp]
          /\ map Tracer.is_valid closed
             = map Tracer.is_valid (Tracer.spans (fst s)))
  /\ (forall s base_seq parent_seq is_success child_trace d,
        exists added,
          Tracer.spans
            (fst (snd (Tracer.merge_child_trace E base_seq parent_seq
                         is_success child_trace d s)))
          = Tracer.spans (fst s) ++ added
          /\ Forall (fun sp => Tracer.is_valid sp = false) added).
Proof.
intros s0. split; [|split].
- now apply run_validity.
- intros [t k] name p d.
  destruct (record_span_spec E name p d t k) as (closed & k1 & Hrec & Hcl).
  cbv zeta in Hrec. do 3 eexists. split; [exact Hrec|].
  split; [reflexivity|]. split; [reflexivity|].
  now destruct (closes_keeps_validity Hcl).
- intros s b p ok child d.
  now destruct (merge_child_trace_absorbing E b p ok child d s).
Qed.

(* ================================================================= *)
(** ** The worker bridge *)

(** C3, counterexample: on a bridge that is not connected, [execute] of
    an [initialize] request fails with ConnectionClosed (-32001), not
    with InvalidRequest (-32600). *)
Lemma C3_counterexample :
  exists e,
    fst (@McpCaller.execute_mcp_call sample_runtime (sample_env silent_worker)
           [("jsonrpc", JStr "2.0"); ("id", JNum 1);
            ("method", JStr "initialize")]
           (McpCaller.mkCall (McpCaller.init sample_config) None empty_world))
    = Raise (ExcCustom e)
    /\ code e = CustomErrorCode.CONNECTION_CLOSED
    /\ code e <> CustomErrorCode.INVALID_REQUEST.
Proof. eexists. split; [reflexivity|]. split; [reflexivity | discriminate]. Qed.

(** C3, amended: [execute] of an [initialize] request never touches the
    worker or the state.  On a bridge that is not connected it fails with
    ConnectionClosed (-32001); on a connected bridge it returns the
    cached handshake result, normalised by [_convert_to_dict], when that
    result is not empty, and fails with InvalidRequest (-32600) when it
    is empty. *)
Theorem C3_execute_initialize {RT : PyRuntime} (E : Env) (c : McpCaller.t)
  (tr : option Tracer.Tracer) (w : World) (input_request : dict) :
  Dict.get "method" input_request = Some (JStr "initialize") ->
  McpCaller.execute_mcp_call E input_request (McpCaller.mkCall c tr w)
  = (if is_connected c then
       if truthy (McpCaller.server_info c)
       then Ok (_convert_to_dict (McpCaller.server_info c))
       else Raise (ExcCustom
                     (mkCustomError CustomErrorCode.INVALID_REQUEST
                        (JStr "Please connect first") JNull))
     else Raise (ExcCustom
                   (mkCustomError CustomErrorCode.CONNECTION_CLOSED
                      (JStr "Not connected") JNull)),
     McpCaller.mkCall c tr w).
Proof.
intros Hm. unfold McpCaller.execute_mcp_call, is_connected, bind, gets.
cbn [McpCaller.self]. unfold McpCaller.is_method. rewrite Hm.
destruct (McpCaller._is_connected c); [|reflexivity].
destruct (McpCaller._server c); [|reflexivity].
cbn [andb String.eqb]. now destruct (truthy (McpCaller.server_info c)).
Qed.

(** The theorem on a connected bridge whose cached handshake result has a
    null field. *)
Lemma C3_execute_initialize_witness :
  let info := JObj [("protocolVersion", JStr "2025-03-26");
                    ("instructions", JNull)] in
  let c := McpCaller.mk sample_config 2 true info
             (Some (SimpleThreadedMcpServer.mk "mod.sub" "fn" true false 0)) in
  let s := McpCaller.mkCall c None empty_world in
  @McpCaller.execute_mcp_call sample_runtime (sample_env silent_worker)
    [("id", JNum 7); ("method", JStr "initialize")] s
  = (Ok (JObj [("protocolVersion", JStr "2025-03-26")]), s).
Proof.
exact (@C3_execute_initialize sample_runtime (sample_env silent_worker)
         (McpCaller.mk sample_config 2 true
            (JObj [("protocolVersion", JStr "2025-03-26");
                   ("instructions", JNull)])
            (Some (SimpleThreadedMcpServer.mk "mod.sub" "fn" true false 0)))
         None empty_world [("id", JNum 7); ("method", JStr "initialize")]
         eq_refl).
Defined.

(** A [connect] that ran the handshake and returned has marked the bridge
    connected and cached what it returns. *)
Lemma connect_body_ok {RT : PyRuntime} (E : Env) (s s' : McpCaller.t * World)
  (info : json) :
  McpCaller.connect_body E s = (Ok info, s') ->
  McpCaller._is_connected (fst s') = true
  /\ McpCaller.server_info (fst s') = info.
Proof.
unfold McpCaller.connect_body. intros H.
repeat (apply bind_ok in H; destruct H as (? & ? & ? & H)).
cbn in H. injection H as <- <-.
match goal with
| Hset : McpCaller.on_self (McpCaller.set_connected true _) _ = _ |- _ =>
    cbn in Hset; injection Hset as _ <-
end.
now split.
Qed.

(** C6, counterexample: the worker answers the handshake with the empty
    result [{}].  The first [connect] succeeds and returns it; the second
    [connect] launches a second worker (number 1) and writes the
    [initialize] request again. *)
Lemma C6_counterexample :
  let E := sample_env (replying_worker (JObj [])) in
  exists s1 s2,
    @McpCaller.connect sample_runtime E
      (McpCaller.init sample_config, empty_world) = (Ok (JObj []), s1)
    /\ @McpCaller.connect sample_runtime E s1 = (Ok (JObj []), s2)
    /\ filter is_launch (log (snd s1)) = [EvLaunch 0 "mod.sub" "fn"]
    /\ filter is_launch (log (snd s2))
       = [EvLaunch 1 "mod.sub" "fn"; EvLaunch 0 "mod.sub" "fn"]
    /\ length (filter is_handshake (log (snd s1))) = 1%nat
    /\ length (filter is_handshake (log (snd s2))) = 2%nat.
Proof.
cbv zeta. do 2 eexists.
split; [vm_compute; reflexivity|].
split; [vm_compute; reflexivity|].
repeat split.
Qed.

(** C6, amended: when a [connect] has returned a handshake result that is
    not empty, the next [connect] returns the same result and changes
    nothing: neither the bridge nor the world, so no worker is launched
    and nothing is written. *)
Theorem C6_connect_cached {RT : PyRuntime} (E : Env)
  (s s' : McpCaller.t * World) (info : json) :
  McpCaller.connect E s = (Ok info, s') ->
  truthy info = true ->
  McpCaller.connect E s' = (Ok info, s').
Proof.
intros Hfirst Hinfo.
assert (Hcached : McpCaller._is_connected (fst s') = true
                  /\ McpCaller.server_info (fst s') = info).
{ unfold McpCaller.connect in Hfirst.
  apply bind_ok in Hfirst. destruct Hfirst as (c & s0 & Hc & H).
  cbn in Hc. injection Hc as <- <-.
  destruct (McpCaller._is_connected (fst s) && truthy (McpCaller.server_info (fst s)))
    eqn:Hcond.
  - cbn in H. injection H as <- <-.
    apply andb_prop in Hcond. now split.
  - unfold try_except in H.
    destruct (McpCaller.connect_body E s) as [[i|e] s1] eqn:Hbody.
    + injection H as <- <-. now apply connect_body_ok in Hbody.
    + repeat (apply bind_ok in H; destruct H as (? & ? & _ & H)).
      discriminate H. }
destruct Hcached as [Hc Hi].
unfold McpCaller.connect, bind, gets. rewrite Hc, Hi, Hinfo. reflexivity.
Qed.

(** The theorem on the sample environment, with a worker whose handshake
    result is not empty. *)
Lemma C6_connect_cached_witness :
  let E := sample_env (replying_worker
                         (JObj [("protocolVersion", JStr "2025-03-26")])) in
  let s1 := snd (@McpCaller.connect sample_runtime E
                   (McpCaller.init sample_config, empty_world)) in
  @McpCaller.connect sample_runtime E s1
  = (Ok (JObj [("protocolVersion", JStr "2025-03-26")]), s1).
Proof.
cbv zeta.
apply (@C6_connect_cached sample_runtime
         (sample_env (replying_worker
                        (JObj [("protocolVersion", JStr "2025-03-26")])))
         (McpCaller.init sample_config, empty_world)).
- vm_compute. reflexivity.
- reflexivity.
Defined.

(* ================================================================= *)
(** ** The dispatcher *)

Section DispatcherFacts.
Context {RT : PyRuntime}.
Variable E : Env.

Import Rpc.

(** [record_span] from the dispatcher always returns and changes only
    the tracer and the clock. *)
Lemma on_tracer_record_span (name : string) (parent : option string)
  (additional_data : option dict) (f : Frame) :
  exists sp t k,
    on_tracer (Tracer.record_span E name parent additional_data) f
    = (Ok sp, retimed f t k).
Proof.
destruct (record_span_spec E name parent additional_data (tracer f)
            (ticks (world f))) as (closed & k1 & Hrec & _).
cbv zeta in Hrec. unfold on_tracer, zoom. cbn [fst snd].
rewrite Hrec. do 3 eexists. reflexivity.
Qed.

Lemma on_tracer_get_trace (ok : bool) (f : Frame) :
  exists trace t k,
    on_tracer (Tracer.get_trace E ok) f = (Ok trace, retimed f t k).
Proof.
destruct (get_trace_spec E ok (tracer f) (ticks (world f)))
  as (closed & k' & finish & Hget & _).
unfold on_tracer, zoom. cbn [fst snd]. rewrite Hget.
do 3 eexists. reflexivity.
Qed.

(** When the first step of [generate_jsonrpc_response] does not raise,
    the request is a dictionary or falsy. *)
Lemma response_server_shape (data : json) (sc : option dict) :
  response_server data = Ok sc ->
  truthy data = false \/ exists d, data = JObj d.
Proof.
unfold response_server, request_meta.
destruct (truthy data) eqn:Ht; [|now left].
destruct data; try discriminate; intros _; right; eauto.
Qed.

Lemma to_response_code (c : CustomError) (x : json) :
  Dict.get "code" (Dict.set "data" x (to_response c)) = Some (JNum (code c))
  /\ Dict.get "message" (Dict.set "data" x (to_response c)) = Some (message c)
  /\ exists kv r, to_response c = kv :: r.
Proof.
unfold to_response. destruct (truthy (data c)); cbn; eauto.
Qed.

Lemma error_response_ok (data : json) (custom_metadata : dict)
  (c : CustomError) :
  truthy data = false \/ (exists d, data = JObj d) ->
  exists response,
    error_response data custom_metadata (to_response c) = Ok response
    /\ response_error_code response = Some (code c)
    /\ response_error_message response = Some (message c).
Proof.
intros Hshape. unfold error_response.
set (body := JObj (Dict.set "data" _ (to_response c))).
assert (Hbody : forall r, Dict.get "error" r = Some body ->
          response_error_code r = Some (code c)
          /\ response_error_message r = Some (message c)).
{ intros r Hr. unfold response_error_code, response_error_message.
  rewrite Hr. unfold body.
  destruct (to_response_code c
              (JObj (Dict.set "_meta"
                       (JObj (Dict.update custom_metadata
                                (dict_under "_meta"
                                   (dict_under "data" (to_response c)))))
                       (dict_under "data" (to_response c)))))
    as (Hc & Hm & _).
  now rewrite Hc, Hm. }
destruct Hshape as [Hfalse | [d ->]].
- unfold response_version, echo_id. rewrite Hfalse.
  eexists. split; [reflexivity|]. now apply Hbody.
- unfold response_version, echo_id.
  destruct (truthy (JObj d)); [|eexists; split; [reflexivity | now apply Hbody]].
  cbn [py_get py_in py_index]. unfold Dict.has.
  destruct (Dict.get "jsonrpc" d), (Dict.get "id" d);
    (eexists; split; [reflexivity | now apply Hbody]).
Qed.

(** An error envelope comes out with the code and the message of the
    error it is built from; only the tracer and the clock change. *)
Lemma generate_error (data result : json) (c : CustomError) (f : Frame)
  (sc : option dict) :
  response_server data = Ok sc ->
  exists response t k,
    generate_jsonrpc_response E data result (Some (to_response c)) f
    = (Ok response, retimed f t k)
    /\ response_error_code response = Some (code c)
    /\ response_error_message response = Some (message c).
Proof.
intros Hsc. unfold generate_jsonrpc_response.
assert (Hfirst : of_res (response_server data) f = (Ok sc, f))
  by (unfold of_res; now rewrite Hsc).
rewrite (bind_returns _ _ _ Hfirst).
destruct (on_tracer_get_trace false f) as (trace & t & k & Htrace).
rewrite (bind_returns _ _ _ Htrace).
destruct (to_response_code c JNull) as (_ & _ & kv & r & Hne).
set (cm := _ ++ [("trace", JObj trace)]).
destruct (error_response_ok cm c (response_server_shape _ Hsc))
  as (response & Hresp & Hcode & Hmsg).
exists response, t, k. rewrite Hne in *. cbn [of_res]. rewrite Hresp.
now repeat split.
Qed.

(** The [finally] block: the bridge, if there is one, is closed (its
    worker, if it still has one, is stopped), then the lock is
    released. *)
Lemma rpc_finally_spec (f : Frame) :
  exists c',
    rpc_finally f
    = (Ok tt,
       mkFrame (tracer f) c'
         (mkWorld (ticks (world f))
            (EvRelease ::
             match mcp_caller f with
             | Some c =>
                 match McpCaller._server c with
                 | Some srv =>
                     EvStop (SimpleThreadedMcpServer.worker srv)
                     :: log (world f)
                 | None => log (world f)
                 end
             | None => log (world f)
             end)
            (launched (world f)))).
Proof.
unfold rpc_finally.
destruct f as [t [[cfg id conn info [srv|]]|] w]; cbn; eexists; reflexivity.
Qed.

End DispatcherFacts.

Section HandlerFacts.
Context {RT : PyRuntime}.
Variable E : Env.

Import Rpc.

Lemma enter_spec (data : json) (w : World) :
  exists t k,
    enter E data w
    = mkFrame t None (mkWorld k (EvAcquire :: log w) (launched w)).
Proof. unfold enter. cbn. do 2 eexists. reflexivity. Qed.

Lemma of_res_returns {S A : Type} (r : Res A) (a : A) (s : S) :
  r = Ok a -> of_res r s = (Ok a, s).
Proof. now intros ->. Qed.

Lemma request_meta_shape (data meta : json) :
  request_meta data = Ok (Some meta) -> exists d, data = JObj d.
Proof.
unfold request_meta. destruct (truthy data); [|discriminate].
destruct data; try discriminate. eauto.
Qed.

(** A request that passes the validation of its metadata is a dictionary,
    and the response builder finds the same server configuration. *)
Lemma validate_meta_shape (data : json) (server : Schema.McpServerConfiguration) :
  validate_meta data = Ok server ->
  (exists d, data = JObj d)
  /\ response_server data = Ok (Some (Schema.model_dump server)).
Proof.
unfold validate_meta, response_server.
destruct (request_meta data) as [[meta|]|[c|cls msg]] eqn:Hmeta;
  try discriminate.
- destruct (Schema.CustomRequestMeta meta) as [cfg|[c|cls msg]] eqn:Hcfg.
  + intros H. injection H as <-. split; [|reflexivity].
    eapply request_meta_shape; eassumption.
  + discriminate.
  + destruct cls; discriminate.
- destruct cls; discriminate.
Qed.

(** The two [except] arms of [rpc_handler] answer alike: with the
    envelope of the formatted error. *)
Lemma handler_arm (data : json) (e : py_exc) (f : Frame) (sc : option dict) :
  response_server data = Ok sc ->
  exists response t k,
    rpc_except E data e f = (Ok response, retimed f t k)
    /\ response_error_code response = Some (code (format_error (AnyExc e)))
    /\ response_error_message response
       = Some (message (format_error (AnyExc e))).
Proof.
intros Hsc. destruct e as [c|cls msg].
- apply generate_error with (sc := sc). exact Hsc.
- apply generate_error with (sc := sc). exact Hsc.
Qed.

(** When the body of [rpc_handler] raises, the handler returns the error
    envelope of the formatted exception, after closing the bridge and
    releasing the lock. *)
Lemma rpc_handler_of_raise (data : json) (w : World) (e : py_exc) (f1 : Frame)
  (sc : option dict) :
  rpc_body E data (enter E data w) = (Raise e, f1) ->
  response_server data = Ok sc ->
  exists response w',
    rpc_handler E data w = (Ok response, w')
    /\ response_error_code response = Some (code (format_error (AnyExc e)))
    /\ response_error_message response
       = Some (message (format_error (AnyExc e)))
    /\ log w' = closed_log f1
    /\ launched w' = launched (world f1).
Proof.
intros Hbody Hsc.
destruct (handler_arm data e f1 Hsc) as (response & t & k & Harm & Hc & Hm).
destruct (rpc_finally_spec (retimed f1 t k)) as (c' & Hfin).
unfold rpc_handler, rpc_handler_frame, try_finally, try_except.
rewrite Hbody, Harm, Hfin.
do 2 eexists. split; [reflexivity|]. now repeat split.
Qed.

(** When the body returns, so does the handler, after the same
    [finally]. *)
Lemma rpc_handler_of_return (data : json) (w : World) (response : dict)
  (f1 : Frame) :
  rpc_body E data (enter E data w) = (Ok response, f1) ->
  exists w',
    rpc_handler E data w = (Ok response, w')
    /\ log w' = closed_log f1
    /\ launched w' = launched (world f1).
Proof.
intros Hbody.
destruct (rpc_finally_spec f1) as (c' & Hfin).
unfold rpc_handler, rpc_handler_frame, try_finally, try_except.
rewrite Hbody, Hfin. eexists. now repeat split.
Qed.

(** The body up to the method table, for a request whose metadata is
    valid. *)
Lemma rpc_body_validated (data method : json) (f : Frame)
  (server : Schema.McpServerConfiguration) :
  validate_meta data = Ok server ->
  py_get data "method" (JStr "") = Ok method ->
  exists t k,
    rpc_body E data f
    = (handler <- of_res (lookup_handler method) ;;
       match handler with
       | None => raise method_not_found
       | Some (Outlet g) =>
           on_tracer (Tracer.record_span E "outletHandler" None None) ;;;
           result <- of_res (g data) ;;
           generate_jsonrpc_response E data (get_or_null "result" result) None
       | Some HFalse => raise method_not_found
       | Some HTrue => forward E data method server
       end)%py (retimed f t k).
Proof.
intros Hmeta Hmethod. unfold rpc_body.
destruct (on_tracer_record_span E "inputValidation" None None f)
  as (sp & t & k & Hrec).
exists t, k.
rewrite (bind_returns _ _ _ Hrec).
rewrite (bind_returns _ _ _ (of_res_returns _ Hmeta)).
rewrite (bind_returns _ _ _ (of_res_returns _ Hmethod)).
reflexivity.
Qed.

End HandlerFacts.

(* ----------------------------------------------------------------- *)
(** *** The method table *)







(** A request that passes the validation of its metadata has a [method]:
    the value under that key, or the empty string. *)
Lemma valid_request_method {RT : PyRuntime} (data : json)
  (server : Schema.McpServerConfiguration) :
  Rpc.validate_meta data = Ok server ->
  exists method, py_get data "method" (JStr "") = Ok method.
Proof.
intros Hmeta. destruct (validate_meta_shape _ Hmeta) as [[d ->] _].
cbn. destruct (Dict.get "method" d); eauto.
Qed.



(** The same request with a list as its method: the lookup raises, and
    the answer is InternalError. *)
Lemma unhashable_method_internal_error :
  let data := JObj [("jsonrpc", JStr "2.0"); ("id", JNum 1);
                    ("method", JArr []);
                    ("params",
                     JObj [("_meta",
                            JObj [("server",
                                   JObj [("command", JStr "uvx")])])])] in
  exists response w',
    @Rpc.rpc_handler sample_runtime (sample_env silent_worker) data empty_world
    = (Ok response, w')
    /\ response_error_code response = Some (-32603)
    /\ log w' = [EvRelease; EvAcquire].
Proof.
cbv zeta. do 2 eexists. split; [vm_compute; reflexivity|]. now split.
Qed.

(* ----------------------------------------------------------------- *)
(** *** Requests without valid metadata *)

Section MetaFacts.
Context {RT : PyRuntime}.
Variable E : Env.

Import Rpc.

(** Building a response changes the tracer and the clock only, whether
    it returns or raises. *)
Lemma generate_keeps (data result : json) (error : option dict) (f : Frame) :
  exists r t k,
    generate_jsonrpc_response E data result error f = (r, retimed f t k).
Proof.
unfold generate_jsonrpc_response, bind, of_res.
destruct (response_server data) as [sc|e].
- destruct (on_tracer_get_trace E
              (match error with None => true | Some _ => false end) f)
    as (trace & t & k & Htrace).
  rewrite Htrace. exists
    (match error with
     | Some (x :: e) =>
         error_response data
           (match sc with Some (y :: c) => [("server", JObj (y :: c))] | _ => [] end
            ++ [("trace", JObj trace)]) (x :: e)
     | _ => success_response data
              (match sc with Some (y :: c) => [("server", JObj (y :: c))] | _ => [] end
               ++ [("trace", JObj trace)]) result
     end), t, k.
  destruct error as [[|x e]|]; reflexivity.
- exists (Raise e), (tracer f), (ticks (world f)).
  now destruct f as [t c [k l n]].
Qed.

(** A request whose metadata does not validate never gets past the
    validation: whatever the answer, the log gains the two lock events
    and nothing else, so nothing is resolved and no worker is launched. *)
Lemma invalid_meta_launches_nothing (data : json) (w : World) (e : py_exc) :
  validate_meta data = Raise e ->
  log (snd (rpc_handler E data w)) = EvRelease :: EvAcquire :: log w
  /\ launched (snd (rpc_handler E data w)) = launched w.
Proof.
intros Hmeta.
destruct (enter_spec E data w) as (t0 & k0 & Henter).
destruct (on_tracer_record_span E "inputValidation" None None (enter E data w))
  as (sp & t & k & Hrec).
assert (Hbody : rpc_body E data (enter E data w)
                = (Raise e, retimed (enter E data w) t k)).
{ unfold rpc_body. rewrite (bind_returns _ _ _ Hrec).
  apply bind_raises. unfold of_res. now rewrite Hmeta. }
unfold rpc_handler, rpc_handler_frame, try_finally, try_except.
rewrite Hbody.
assert (Harm : exists r t1 k1,
          rpc_except E data e (retimed (enter E data w) t k)
          = (r, retimed (retimed (enter E data w) t k) t1 k1))
  by (destruct e; apply generate_keeps).
destruct Harm as (r & t1 & k1 & Harm). rewrite Harm.
destruct (rpc_finally_spec (retimed (retimed (enter E data w) t k) t1 k1))
  as (c' & Hfin).
rewrite Hfin. rewrite Henter. cbn. now split.
Qed.

(** What the validation makes of a request whose [params] or [_meta] is
    absent or empty, or whose [_meta] is a dictionary without a valid
    [server]: InvalidRequest. *)
Lemma invalid_meta_is_invalid_request (data : json) (w : World) :
  request_meta data = Ok None
  \/ (exists m, request_meta data = Ok (Some (JObj m))
                /\ match Dict.get "server" m with
                   | Some v => Schema.validate_server v = None
                   | None => True
                   end) ->
  exists response w',
    rpc_handler E data w = (Ok response, w')
    /\ response_error_code response = Some CustomErrorCode.INVALID_REQUEST
    /\ log w' = EvRelease :: EvAcquire :: log w.
Proof.
intros Hbad.
assert (H : exists reason,
          validate_meta data = Raise (bad_meta reason)
          /\ response_server data = Ok None).
{ unfold validate_meta, response_server.
  destruct Hbad as [-> | (m & -> & Hserver)]; [eexists; now split|].
  cbn [Schema.CustomRequestMeta].
  destruct (Dict.get "server" m) as [v|]; [rewrite Hserver|];
    eexists; now split. }
destruct H as (reason & Hmeta & Hsc).
destruct (enter_spec E data w) as (t0 & k0 & Henter).
destruct (on_tracer_record_span E "inputValidation" None None (enter E data w))
  as (sp & t & k & Hrec).
assert (Hbody : rpc_body E data (enter E data w)
                = (Raise (bad_meta reason), retimed (enter E data w) t k)).
{ unfold rpc_body. rewrite (bind_returns _ _ _ Hrec).
  apply bind_raises. unfold of_res. now rewrite Hmeta. }
destruct (@rpc_handler_of_raise RT E data w _ _ _ Hbody Hsc)
  as (response & w' & Hrun & Hcode & _ & Hlog & _).
exists response, w'. split; [exact Hrun|]. split; [exact Hcode|].
rewrite Hlog. unfold closed_log, retimed. rewrite Henter. reflexivity.
Qed.

End MetaFacts.

(** C4 at the failing input: [_meta] is the string "oops".  The
    double-star call of [CustomRequestMeta] raises [TypeError], which the
    inner handler ([except ValidationError]) lets through; the answer is
    the InternalError (-32603) envelope, not InvalidRequest (-32600).  No
    worker is launched. *)
Lemma C4_failing_input :
  let data := JObj [("jsonrpc", JStr "2.0"); ("id", JNum 1);
                    ("method", JStr "tools/list");
                    ("params", JObj [("_meta", JStr "oops")])] in
  exists response w',
    @Rpc.rpc_handler sample_runtime (sample_env silent_worker) data empty_world
    = (Ok response, w')
    /\ @Rpc.validate_meta sample_runtime data
       = Raise (ExcOther TypeError "<interpreter>")
    /\ response_error_code response = Some CustomErrorCode.INTERNAL_ERROR
    /\ response_error_code response <> Some CustomErrorCode.INVALID_REQUEST
    /\ log w' = [EvRelease; EvAcquire].
Proof.
cbv zeta. do 2 eexists. split; [vm_compute; reflexivity|].
repeat split. discriminate.
Qed.

(** A [params] that is a non-empty list: [request_data["params"].get]
    raises [AttributeError] in the validation and again in the response
    builder of the [except] arm, so [rpc_handler] itself raises. *)
Example params_list_escapes :
  fst (@Rpc.rpc_handler sample_runtime (sample_env silent_worker)
         (JObj [("jsonrpc", JStr "2.0"); ("id", JNum 1);
                ("method", JStr "tools/list"); ("params", JArr [JNum 1])])
         empty_world)
  = Raise (ExcOther AttributeError "<interpreter>").
Proof. reflexivity. Qed.

(* ----------------------------------------------------------------- *)
(** *** The log only grows *)

Lemma extends_refl (l : list event) : extends l l.
Proof. now exists []. Qed.

Lemma extends_trans (a b c : list event) :
  extends a b -> extends b c -> extends a c.
Proof.
intros (x & ->) (y & ->). exists (y ++ x). now rewrite app_assoc.
Qed.

Lemma extends_cons (e : event) (l l' : list event) :
  extends (e :: l) l' -> extends l l'.
Proof. intros (x & ->). exists (x ++ [e]). now rewrite <- app_assoc. Qed.

Lemma extends_In (e : event) (l l' : list event) :
  extends (e :: l) l' -> In e l'.
Proof. intros (x & ->). apply in_or_app. right. now left. Qed.

Section GrowingFacts.
Context {S : Type} `{HasLog S}.

Lemma growing_ret {A : Type} (a : A) : growing (ret a : M S A).
Proof. intros s. apply extends_refl. Qed.

Lemma growing_raise {A : Type} (e : py_exc) : growing (raise e : M S A).
Proof. intros s. apply extends_refl. Qed.

Lemma growing_of_res {A : Type} (r : Res A) : growing (of_res r : M S A).
Proof. intros s. apply extends_refl. Qed.

Lemma growing_gets {A : Type} (f : S -> A) : growing (gets f).
Proof. intros s. apply extends_refl. Qed.

Lemma growing_bind {A B : Type} (m : M S A) (k : A -> M S B) :
  growing m -> (forall a, growing (k a)) -> growing (bind m k).
Proof.
intros Hm Hk s. unfold bind. specialize (Hm s).
destruct (m s) as [[a|e] s1]; [|exact Hm].
eapply extends_trans; [exact Hm | apply Hk].
Qed.

Lemma growing_try_except {A : Type} (m : M S A) (h : py_exc -> M S A) :
  growing m -> (forall e, growing (h e)) -> growing (try_except m h).
Proof.
intros Hm Hh s. unfold try_except. specialize (Hm s).
destruct (m s) as [[a|e] s1]; [exact Hm|].
eapply extends_trans; [exact Hm | apply Hh].
Qed.

Lemma growing_attempt {A : Type} (m : M S A) : growing m -> growing (attempt m).
Proof.
intros Hm s. unfold attempt. specialize (Hm s). now destruct (m s).
Qed.

Lemma growing_modify (f : S -> S) :
  (forall s, the_log (f s) = the_log s) -> growing (modify f).
Proof. intros Hf s. cbn. rewrite Hf. apply extends_refl. Qed.

(** A computation on a part of the state that holds the log. *)
Lemma growing_zoom {T A : Type} `{HasLog T} (proj : S -> T)
  (inj : T -> S -> S) (m : M T A) :
  (forall s, the_log (proj s) = the_log s) ->
  (forall t s, the_log (inj t s) = the_log t) ->
  growing m -> growing (zoom proj inj m).
Proof.
intros Hproj Hinj Hm s. unfold zoom. specialize (Hm (proj s)).
destruct (m (proj s)) as [r t]. cbn in *. now rewrite Hinj, <- Hproj.
Qed.

End GrowingFacts.

Create HintDb growing.

Ltac grow :=
  repeat first
    [ solve [auto 3 with growing nocore]
    | apply growing_ret | apply growing_raise | apply growing_of_res
    | apply growing_gets
    | apply growing_bind; [|intros ?]
    | apply growing_try_except; [|intros ?]
    | apply growing_attempt
    | match goal with
      | |- growing (if ?b then _ else _) => destruct b
      | |- growing (match ?x with _ => _ end) => destruct x
      end ].

Section LogFacts.
Context {RT : PyRuntime}.
Variable E : Env.

Lemma record_event_growing (e : event) : growing (record_event e).
Proof. intros l. now exists [e]. Qed.

Lemma on_log_growing {A : Type} (m : M (list event) A) :
  growing m -> growing (on_log m).
Proof. apply growing_zoom; reflexivity. Qed.

Lemma emit_growing (e : event) : growing (emit e).
Proof. apply on_log_growing, record_event_growing. Qed.

Lemma install_deps_growing (cache_dir : string) (deps : list string) :
  growing (UvHandler.install_deps E cache_dir deps).
Proof.
induction deps as [|dep r IH]; cbn [UvHandler.install_deps]; [grow|].
apply growing_bind; [intros l; apply extends_refl|]. intros installed.
apply growing_bind; [|intros _; exact IH].
destruct installed; [grow|].
unfold UvHandler.run_checked. grow. apply record_event_growing.
Qed.

(** The resolver logs its call first and drops nothing afterwards. *)
Lemma parse_logs_call (args : option (list string)) (l : list event) :
  extends (EvResolve args :: l)
          (snd (UvHandler.parse_mcp_server_params E args l)).
Proof.
unfold UvHandler.parse_mcp_server_params.
assert (Hfirst : record_event (EvResolve args) l
                 = (Ok tt, EvResolve args :: l)) by reflexivity.
rewrite (bind_returns _ _ _ Hfirst).
set (l0 := EvResolve args :: l).
match goal with
| |- extends l0 (snd (?m l0)) => enough (Hm : growing m) by exact (Hm l0)
end.
apply growing_bind; [intros l'; apply extends_refl|]. intros cache_dir.
destruct args as [args|]; [|grow].
destruct (UvHandler.nonempty _) as [pkg|]; [|grow].
apply growing_bind.
- unfold UvHandler.install_phase.
  apply growing_bind; [intros l'; apply extends_refl|]. intros installed.
  apply growing_bind.
  + destruct installed; [grow|].
    unfold UvHandler.install_package. grow. apply record_event_growing.
  + intros _. apply growing_bind; [apply install_deps_growing|]. intros _.
    unfold UvHandler.retrieve_metadata. grow. apply record_event_growing.
- intros _. apply growing_bind.
  + unfold UvHandler.inspect_entry_points. grow. apply record_event_growing.
  + intros entry_points. grow.
Qed.

Lemma parse_growing (args : option (list string)) :
  growing (UvHandler.parse_mcp_server_params E args).
Proof. intros l. eapply extends_cons, parse_logs_call. Qed.

End LogFacts.

#[local] Hint Resolve record_event_growing on_log_growing emit_growing
  parse_growing : growing.

Section BridgeLogFacts.
Context {RT : PyRuntime}.
Variable E : Env.

Lemma server_init_growing (m f : string) :
  growing (SimpleThreadedMcpServer.init m f).
Proof. intros w. apply extends_refl. Qed.

Lemma server_start_growing (srv : SimpleThreadedMcpServer.t) :
  growing (SimpleThreadedMcpServer.start srv).
Proof. unfold SimpleThreadedMcpServer.start. grow. Qed.

Lemma server_stop_growing (srv : SimpleThreadedMcpServer.t) :
  growing (SimpleThreadedMcpServer.stop srv).
Proof. unfold SimpleThreadedMcpServer.stop. grow. Qed.

Lemma send_request_growing (srv : SimpleThreadedMcpServer.t) (request : json)
  (timeout : string) :
  growing (SimpleThreadedMcpServer.send_request E srv request timeout).
Proof. unfold SimpleThreadedMcpServer.send_request. grow. Qed.

Lemma bridge_on_world_growing {A : Type} (m : M World A) :
  growing m -> growing (McpCaller.on_world m).
Proof. apply growing_zoom; reflexivity. Qed.

Lemma bridge_on_self_growing (f : McpCaller.t -> McpCaller.t) :
  growing (McpCaller.on_self f).
Proof. now apply growing_modify. Qed.

Hint Resolve server_init_growing server_start_growing server_stop_growing
  send_request_growing bridge_on_world_growing bridge_on_self_growing
  : growing.

Lemma connect_body_growing : growing (McpCaller.connect_body E).
Proof. unfold McpCaller.connect_body. grow. Qed.

Hint Resolve connect_body_growing : growing.

Lemma connect_growing : growing (McpCaller.connect E).
Proof. unfold McpCaller.connect. grow. Qed.

Lemma close_growing : growing McpCaller.close.
Proof. unfold McpCaller.close. grow. Qed.

Lemma call_self_growing {A : Type} (m : M (McpCaller.t * World) A) :
  growing m -> growing (McpCaller.call_self m).
Proof. apply growing_zoom; reflexivity. Qed.

Lemma call_tracer_growing (m : Tracer.TM unit) :
  growing (McpCaller.call_tracer m).
Proof.
intros s. unfold McpCaller.call_tracer.
destruct (McpCaller.tracer s) as [tr|]; [|apply extends_refl].
destruct (m (tr, ticks (McpCaller.world s))) as [r [tr' k]].
apply extends_refl.
Qed.

Hint Resolve call_self_growing call_tracer_growing : growing.

Lemma execute_failed_growing (seen : list string) (error : py_exc) :
  growing (McpCaller.execute_failed E seen error).
Proof. unfold McpCaller.execute_failed. grow. Qed.

Lemma execute_reply_growing (seen : list string) (response : json) :
  growing (McpCaller.execute_reply E seen response).
Proof. unfold McpCaller.execute_reply. grow. Qed.

Hint Resolve execute_failed_growing execute_reply_growing : growing.

Lemma execute_growing (input_request : dict) :
  growing (McpCaller.execute_mcp_call E input_request).
Proof. unfold McpCaller.execute_mcp_call. grow. Qed.

End BridgeLogFacts.

Section DispatcherLogFacts.
Context {RT : PyRuntime}.
Variable E : Env.

Import Rpc.

Lemma rpc_on_world_growing {A : Type} (m : M World A) :
  growing m -> growing (on_world m).
Proof. apply growing_zoom; reflexivity. Qed.

Lemma on_tracer_growing {A : Type} (m : Tracer.TM A) : growing (on_tracer m).
Proof.
intros f. unfold on_tracer, zoom.
destruct (m (tracer f, ticks (world f))) as [r [t k]]. apply extends_refl.
Qed.

Lemma on_caller_growing {A : Type} (m : M (McpCaller.t * World) A) :
  growing m -> growing (on_caller m).
Proof.
intros Hm f. unfold on_caller.
destruct (mcp_caller f) as [c|]; [|apply extends_refl].
specialize (Hm (c, world f)).
destruct (m (c, world f)) as [r [c' w']]. exact Hm.
Qed.

Lemma on_call_growing {A : Type} (m : M McpCaller.Call A) :
  growing m -> growing (on_call m).
Proof.
intros Hm f. unfold on_call.
destruct (mcp_caller f) as [c|]; [|apply extends_refl].
specialize (Hm (McpCaller.mkCall c (Some (tracer f)) (world f))).
destruct (m _) as [r s]. exact Hm.
Qed.

Lemma generate_growing (data result : json) (error : option dict) :
  growing (generate_jsonrpc_response E data result error).
Proof.
intros f. destruct (generate_keeps E data result error f)
  as (r & t & k & ->). apply extends_refl.
Qed.

Hint Resolve rpc_on_world_growing on_tracer_growing on_caller_growing
  on_call_growing generate_growing connect_growing close_growing
  execute_growing : growing.

Lemma forward_call_growing (data method : json)
  (server : Schema.McpServerConfiguration) (uv_params : UvHandler.uv_params) :
  growing (forward_call E data method server uv_params).
Proof.
unfold forward_call. grow. now apply growing_modify.
Qed.

(** When the command starts with "uv", the resolver is called, and its
    call stays in the log. *)
Lemma forward_resolves (data method : json)
  (server : Schema.McpServerConfiguration) (f : Frame) :
  py_in "id" data = Ok true ->
  PyStr.startswith (Schema.command server) "uv" = true ->
  extends (EvResolve (Schema.args server) :: log (world f))
          (log (world (snd (forward E data method server f)))).
Proof.
intros Hid Huv. unfold forward.
rewrite (bind_returns _ _ _ (of_res_returns _ Hid)).
cbv beta iota. rewrite (bind_returns _ _ _ (eq_refl : ret tt f = (Ok tt, f))).
destruct (on_tracer_record_span E "extractingServerConfig" None None f)
  as (sp & t & k & Hrec).
rewrite (bind_returns _ _ _ Hrec).
unfold resolve_command. rewrite Huv.
unfold bind, on_world, on_log, zoom. cbn [world retimed log launched ticks].
pose proof (parse_logs_call E (Schema.args server) (log (world f))) as Hparse.
destruct (UvHandler.parse_mcp_server_params E (Schema.args server)
            (log (world f))) as [[uv_params|e] l1]; cbn [snd] in Hparse.
- eapply extends_trans; [exact Hparse|].
  apply (forward_call_growing data method server uv_params
           (mkFrame t (mcp_caller f) (mkWorld k l1 (launched (world f))))).
- exact Hparse.
Qed.

(** When the command does not start with "uv", the forwarded branch
    stops with InvalidRequest before the resolver. *)
Lemma forward_rejects (data method : json)
  (server : Schema.McpServerConfiguration) (f : Frame) :
  py_in "id" data = Ok true ->
  PyStr.startswith (Schema.command server) "uv" = false ->
  exists t k,
    forward E data method server f
    = (Raise (ExcCustom
                (mkCustomError CustomErrorCode.INVALID_REQUEST
                   (JStr "Only uv or uvx command is supported for now")
                   JNull)),
       retimed f t k).
Proof.
intros Hid Huv. unfold forward.
rewrite (bind_returns _ _ _ (of_res_returns _ Hid)).
cbv beta iota. rewrite (bind_returns _ _ _ (eq_refl : ret tt f = (Ok tt, f))).
destruct (on_tracer_record_span E "extractingServerConfig" None None f)
  as (sp & t & k & Hrec).
rewrite (bind_returns _ _ _ Hrec).
unfold resolve_command. rewrite Huv.
exists t, k. reflexivity.
Qed.

Lemma closed_log_extends (f : Frame) : extends (log (world f)) (closed_log f).
Proof.
unfold closed_log. destruct (mcp_caller f) as [c|].
- destruct (McpCaller._server c) as [srv|].
  + now exists [EvRelease; EvStop (SimpleThreadedMcpServer.worker srv)].
  + now exists [EvRelease].
- now exists [EvRelease].
Qed.

(** A request with valid metadata is always answered, and the log of the
    body is kept. *)
Lemma rpc_handler_answers (data : json) (w : World) (sc : option dict) :
  response_server data = Ok sc ->
  exists response w',
    rpc_handler E data w = (Ok response, w')
    /\ extends (log (world (snd (rpc_body E data (enter E data w))))) (log w').
Proof.
intros Hsc.
destruct (rpc_body E data (enter E data w)) as [[response|e] f1] eqn:Hbody.
- destruct (@rpc_handler_of_return RT E data w response f1 Hbody)
    as (w' & Hrun & Hlog & _).
  exists response, w'. split; [exact Hrun|].
  rewrite Hlog. apply closed_log_extends.
- destruct (@rpc_handler_of_raise RT E data w e f1 sc Hbody Hsc)
    as (response & w' & Hrun & _ & _ & Hlog & _).
  exists response, w'. split; [exact Hrun|].
  rewrite Hlog. apply closed_log_extends.
Qed.

End DispatcherLogFacts.

(** C2, counterexample: the command is "uvicorn", which is neither "uv"
    nor "uvx".  The dispatcher does not reject it: the argument resolver
    is called, a worker is launched, and the answer is a result. *)
Lemma C2_counterexample :
  let E := sample_env (replying_worker (JObj [("ok", JBool true)])) in
  exists response w',
    @Rpc.rpc_handler sample_runtime E (sample_request "uvicorn" "tools/call")
      empty_world = (Ok response, w')
    /\ response_error_code response = None
    /\ Dict.has "result" response = true
    /\ In (EvResolve (Some example_args)) (log w')
    /\ In (EvLaunch 0 "mod.sub" "fn") (log w').
Proof.
cbv zeta. do 2 eexists. split; [vm_compute; reflexivity|].
cbn. intuition.
Qed.

(** C2, amended: for a request with valid metadata and an id whose
    method is forwarded, the launch command is tested by its first two
    characters.  A command that does not start with "uv" is answered
    with InvalidRequest (-32600) and nothing is resolved or launched (the
    log gains the lock events only); a command that starts with "uv",
    such as "uv" and "uvx", is not rejected: the argument resolver is
    called with the descriptor's arguments. *)
Theorem C2_launch_command {RT : PyRuntime} (E : Env) (data : json)
  (method : string) (w : World) (server : Schema.McpServerConfiguration) :
  Rpc.validate_meta data = Ok server ->
  py_get data "method" (JStr "") = Ok (JStr method) ->
  Rpc.assoc method Rpc.handlers_map = Some Rpc.HTrue ->
  py_in "id" data = Ok true ->
  PyStr.startswith "uv" "uv" = true
  /\ PyStr.startswith "uvx" "uv" = true
  /\ exists response w',
       Rpc.rpc_handler E data w = (Ok response, w')
       /\ if PyStr.startswith (Schema.command server) "uv"
          then In (EvResolve (Schema.args server)) (log w')
          else response_error_code response
               = Some CustomErrorCode.INVALID_REQUEST
               /\ response_error_message response
                  = Some (JStr "Only uv or uvx command is supported for now")
               /\ log w' = EvRelease :: EvAcquire :: log w.
Proof.
intros Hmeta Hmethod Hassoc Hid.
split; [reflexivity|]. split; [reflexivity|].
destruct (validate_meta_shape _ Hmeta) as [_ Hsc].
destruct (@rpc_body_validated RT E data (JStr method) (Rpc.enter E data w)
            server Hmeta Hmethod) as (t & k & Hbody).
assert (Hfwd : Rpc.rpc_body E data (Rpc.enter E data w)
               = Rpc.forward E data (JStr method) server
                   (retimed (Rpc.enter E data w) t k)).
{ rewrite Hbody. cbn [Rpc.lookup_handler of_res]. unfold bind.
  now rewrite Hassoc. }
destruct (PyStr.startswith (Schema.command server) "uv") eqn:Huv.
- destruct (@rpc_handler_answers RT E data w _ Hsc)
    as (response & w' & Hrun & Hlog).
  exists response, w'. split; [exact Hrun|].
  rewrite Hfwd in Hlog.
  eapply extends_In, extends_trans; [|exact Hlog].
  now apply forward_resolves.
- destruct (@forward_rejects RT E data (JStr method) server
              (retimed (Rpc.enter E data w) t k) Hid Huv)
    as (t1 & k1 & Hrej).
  rewrite Hrej in Hfwd.
  destruct (@rpc_handler_of_raise RT E data w _ _ _ Hfwd Hsc)
    as (response & w' & Hrun & Hcode & Hmsg & Hlog & _).
  exists response, w'. split; [exact Hrun|].
  split; [exact Hcode|]. split; [exact Hmsg|].
  rewrite Hlog. destruct (enter_spec E data w) as (t0 & k0 & Henter).
  unfold closed_log, retimed. rewrite Henter. reflexivity.
Qed.

(** The theorem on the sample request with the command "python". *)
Lemma C2_launch_command_witness :
  exists response w',
    @Rpc.rpc_handler sample_runtime (sample_env silent_worker)
      (sample_request "python" "tools/call") empty_world = (Ok response, w')
    /\ response_error_code response = Some (-32600)
    /\ log w' = [EvRelease; EvAcquire].
Proof.
destruct (@C2_launch_command sample_runtime (sample_env silent_worker)
            (sample_request "python" "tools/call") "tools/call" empty_world
            (Schema.mkServer "2025-03-26" "2.0" "stdio" "python"
               (Some example_args) None JNull None None)
            eq_refl eq_refl eq_refl eq_refl)
  as (_ & _ & response & w' & Hrun & Hcode & _ & Hlog).
exists response, w'. now repeat split.
Defined.

(* ----------------------------------------------------------------- *)
(** *** A worker that does not reply *)

Ltac unfold_bridge :=
  unfold McpCaller.connect, McpCaller.connect_body,
    McpCaller.execute_mcp_call, McpCaller.execute_failed,
    McpCaller.execute_reply, McpCaller.call_self, McpCaller.call_tracer,
    McpCaller.on_world, McpCaller.on_self,
    SimpleThreadedMcpServer.init, SimpleThreadedMcpServer.start,
    SimpleThreadedMcpServer.stop, SimpleThreadedMcpServer.send_request,
    emit, on_log, record_event,
    bind, try_except, attempt, gets, modify, ret, raise, of_res, zoom.

Section TimeoutFacts.
Context {RT : PyRuntime}.
Variable E : Env.

(** The handshake gets no reply: [connect] stops the worker it has
    launched, forgets it, and raises the formatted [TimeoutError]. *)
Lemma connect_times_out (cfg : McpCaller.McpCallerConfiguration) (k : nat)
  (l : list event) (n : nat) :
  worker_exchange E (handshake_log cfg n l) n "30.0" = NoReply ->
  McpCaller.connect E (McpCaller.init cfg, mkWorld k l n)
  = (Raise (ExcCustom timeout_error),
     (McpCaller.mk cfg 2 false JNull None,
      mkWorld k (EvStop n :: handshake_log cfg n l) (S n))).
Proof.
intros H. unfold handshake_log in *. unfold_bridge. cbn in *.
rewrite H. reflexivity.
Qed.

(** The handshake is answered with a result: [connect] returns it, with
    the worker running and the notification written, whatever becomes of
    the notification. *)
Lemma connect_succeeds (cfg : McpCaller.McpCallerConfiguration) (k : nat)
  (l : list event) (n : nat) (v : dict) :
  worker_exchange E (handshake_log cfg n l) n "30.0" = Reply (JObj v) ->
  Dict.has "error" v = false ->
  McpCaller.connect E (McpCaller.init cfg, mkWorld k l n)
  = (Ok (handshake_result v),
     (McpCaller.mk cfg 2 true (handshake_result v)
        (Some (SimpleThreadedMcpServer.mk (McpCaller.module_path cfg)
                 (McpCaller.function_name cfg) true false n)),
      mkWorld k
        (EvWrite n (McpCaller.initialized_request (McpCaller.init cfg))
         :: handshake_log cfg n l) (S n))).
Proof.
intros H Herr. unfold handshake_log, handshake_result in *.
unfold_bridge. cbn in *. rewrite H. cbn. unfold Dict.has in *.
destruct (Dict.get "error" v); [discriminate|]. cbn.
destruct (Dict.get "result" v); cbn;
  destruct (worker_exchange E _ n "1e-05"); reflexivity.
Qed.

(** The forwarded request gets no reply: [execute_mcp_call] raises the
    [TimeoutError] of [send_request] and leaves the bridge as it is. *)
Lemma execute_times_out (c : McpCaller.t) (srv : SimpleThreadedMcpServer.t)
  (tr : Tracer.Tracer) (w : World) (d : dict) :
  McpCaller._is_connected c = true ->
  McpCaller._server c = Some srv ->
  SimpleThreadedMcpServer.is_running srv = true ->
  McpCaller.is_method "initialize" d = false ->
  Dict.has "id" d = true ->
  worker_exchange E
    (EvWrite (SimpleThreadedMcpServer.worker srv) (JObj d) :: log w)
    (SimpleThreadedMcpServer.worker srv) "30.0" = NoReply ->
  McpCaller.execute_mcp_call E d (McpCaller.mkCall c (Some tr) w)
  = (Raise (ExcOther TimeoutError "Request timed out after 30.0 seconds"),
     McpCaller.mkCall c (Some tr)
       (mkWorld (ticks w)
          (EvWrite (SimpleThreadedMcpServer.worker srv) (JObj d) :: log w)
          (launched w))).
Proof.
intros Hc Hs Hr Hm Hid H.
unfold_bridge. cbn [McpCaller.self fst snd McpCaller.world McpCaller.tracer].
rewrite Hc, Hs, Hm, Hid, Hr. cbn in *. rewrite H. cbn. reflexivity.
Qed.

End TimeoutFacts.

Section ForwardFacts.
Context {RT : PyRuntime}.
Variable E : Env.

Import Rpc.

Lemma modify_returns {S : Type} (g : S -> S) (s : S) :
  modify g s = (Ok tt, g s).
Proof. reflexivity. Qed.

Lemma forward_call_handshake_timeout (d : dict) (method : json)
  (server : Schema.McpServerConfiguration) (uv : UvHandler.uv_params)
  (t : Tracer.Tracer) (c0 : option McpCaller.t) (k : nat) (l : list event)
  (n : nat) :
  let cfg := caller_config server uv in
  worker_exchange E (handshake_log cfg n l) n "30.0" = NoReply ->
  exists t' k',
    forward_call E (JObj d) method server uv (mkFrame t c0 (mkWorld k l n))
    = (Raise (ExcCustom timeout_error),
       mkFrame t' (Some (McpCaller.mk cfg 2 false JNull None))
         (mkWorld k' (EvStop n :: handshake_log cfg n l) (S n))).
Proof.
intros cfg H. unfold forward_call.
destruct (on_tracer_record_span E "connectToServer" None None
            (mkFrame t c0 (mkWorld k l n))) as (sp & t1 & k1 & Hrec).
rewrite (bind_returns _ _ _ Hrec).
rewrite (bind_returns _ _ _ (modify_returns _ _)).
exists t1, k1. apply bind_raises.
unfold on_caller, retimed. cbn [mcp_caller world tracer log launched].
fold cfg. now rewrite (connect_times_out E cfg k1 l n H).
Qed.

Lemma forward_call_request_timeout (d : dict) (method : string)
  (server : Schema.McpServerConfiguration) (uv : UvHandler.uv_params)
  (t : Tracer.Tracer) (c0 : option McpCaller.t) (k : nat) (l : list event)
  (n : nat) (v : dict) :
  let cfg := caller_config server uv in
  let notified :=
    EvWrite n (McpCaller.initialized_request (McpCaller.init cfg))
    :: handshake_log cfg n l in
  worker_exchange E (handshake_log cfg n l) n "30.0" = Reply (JObj v) ->
  Dict.has "error" v = false ->
  McpCaller.is_method "initialize" d = false ->
  Dict.has "id" d = true ->
  worker_exchange E (EvWrite n (JObj d) :: notified) n "30.0" = NoReply ->
  exists t' k' c',
    forward_call E (JObj d) (JStr method) server uv (mkFrame t c0 (mkWorld k l n))
    = (Raise (ExcOther TimeoutError "Request timed out after 30.0 seconds"),
       mkFrame t' (Some c') (mkWorld k' (EvWrite n (JObj d) :: notified) (S n)))
    /\ McpCaller._server c'
       = Some (SimpleThreadedMcpServer.mk (McpCaller.module_path cfg)
                 (McpCaller.function_name cfg) true false n).
Proof.
intros cfg notified Hinit Herr Hm Hid Hcall. unfold forward_call.
destruct (on_tracer_record_span E "connectToServer" None None
            (mkFrame t c0 (mkWorld k l n))) as (sp & t1 & k1 & Hrec).
rewrite (bind_returns _ _ _ Hrec).
rewrite (bind_returns _ _ _ (modify_returns _ _)).
match goal with
| |- context [bind (on_caller (McpCaller.connect E)) ?kk ?f] =>
    assert (Hconn : on_caller (McpCaller.connect E) f
                    = (Ok (handshake_result v),
                       mkFrame t1
                         (Some (McpCaller.mk cfg 2 true (handshake_result v)
                                  (Some (SimpleThreadedMcpServer.mk
                                           (McpCaller.module_path cfg)
                                           (McpCaller.function_name cfg)
                                           true false n))))
                         (mkWorld k1 notified (S n))))
end.
{ unfold on_caller, retimed. cbn [mcp_caller world tracer log launched].
  fold cfg. now rewrite (connect_succeeds E cfg k1 l n Hinit Herr). }
rewrite (bind_returns _ _ _ Hconn).
match goal with
| |- context [bind (on_tracer ?m) ?kk ?f] =>
    destruct (on_tracer_record_span E "executeMcpCall" None
                (Some [("method", JStr method)]) f) as (sp2 & t2 & k2 & Hrec2)
end.
rewrite (bind_returns _ _ _ Hrec2).
do 3 eexists. split.
- apply bind_raises. unfold on_call, retimed.
  cbn [mcp_caller world tracer log launched].
  rewrite (@execute_times_out RT E
             (McpCaller.mk cfg 2 true (handshake_result v)
                (Some (SimpleThreadedMcpServer.mk (McpCaller.module_path cfg)
                         (McpCaller.function_name cfg) true false n)))
             (SimpleThreadedMcpServer.mk (McpCaller.module_path cfg)
                (McpCaller.function_name cfg) true false n)
             t2 (mkWorld k2 notified (S n)) d
             eq_refl eq_refl eq_refl Hm Hid Hcall).
  reflexivity.
- reflexivity.
Qed.

Lemma resolve_command_returns (server : Schema.McpServerConfiguration)
  (uv : UvHandler.uv_params) (t : Tracer.Tracer) (c0 : option McpCaller.t)
  (k : nat) (l l1 : list event) (n : nat) :
  PyStr.startswith (Schema.command server) "uv" = true ->
  UvHandler.parse_mcp_server_params E (Schema.args server) l = (Ok uv, l1) ->
  resolve_command E server (mkFrame t c0 (mkWorld k l n))
  = (Ok uv, mkFrame t c0 (mkWorld k l1 n)).
Proof.
intros Huv Hparse. unfold resolve_command. rewrite Huv.
unfold on_world, on_log, zoom. cbn [world log]. now rewrite Hparse.
Qed.

Lemma forward_to_call (d : dict) (method : json)
  (server : Schema.McpServerConfiguration) (uv : UvHandler.uv_params)
  (t : Tracer.Tracer) (c0 : option McpCaller.t) (k : nat) (l l1 : list event)
  (n : nat) :
  Dict.has "id" d = true ->
  PyStr.startswith (Schema.command server) "uv" = true ->
  UvHandler.parse_mcp_server_params E (Schema.args server) l = (Ok uv, l1) ->
  exists t' k',
    forward E (JObj d) method server (mkFrame t c0 (mkWorld k l n))
    = forward_call E (JObj d) method server uv
        (mkFrame t' c0 (mkWorld k' l1 n)).
Proof.
intros Hid Huv Hparse. unfold forward.
assert (Hin : py_in "id" (JObj d) = Ok true) by (cbn; now rewrite Hid).
rewrite (bind_returns _ _ _ (of_res_returns _ Hin)).
cbv beta iota.
rewrite (bind_returns _ _ _ (eq_refl : ret tt _ = (Ok tt, _))).
destruct (on_tracer_record_span E "extractingServerConfig" None None
            (mkFrame t c0 (mkWorld k l n))) as (sp & t1 & k1 & Hrec).
rewrite (bind_returns _ _ _ Hrec).
exists t1, k1. unfold retimed. cbn [mcp_caller world tracer log launched].
now rewrite (bind_returns _ _ _
               (@resolve_command_returns server uv t1 c0 k1 l l1 n Huv Hparse)).
Qed.

End ForwardFacts.

(** C1, counterexample: the worker of the sample request never writes a
    line.  The answer is the InternalError (-32603) envelope with the
    text of the [TimeoutError]; no path of the code produces
    RequestTimeout (-32002).  The worker is stopped before the lock is
    released. *)
Lemma C1_counterexample :
  exists response w' l,
    @Rpc.rpc_handler sample_runtime (sample_env silent_worker)
      (sample_request "uvx" "tools/call") empty_world = (Ok response, w')
    /\ response_error_code response = Some (-32603)
    /\ response_error_code response <> Some CustomErrorCode.REQUEST_TIMEOUT
    /\ response_error_message response
       = Some (JStr "Request timed out after 30.0 seconds")
    /\ log w' = EvRelease :: EvStop 0 :: l
    /\ filter is_launch l = [EvLaunch 0 "mod.sub" "fn"].
Proof.
do 3 eexists. split; [vm_compute; reflexivity|].
repeat split. discriminate.
Qed.

(** C1, amended: a forwarded call (valid metadata, a forwarded method, an
    id, a command starting with "uv", arguments the resolver accepts)
    whose worker never replies within the 30 seconds, to the handshake or
    to the forwarded request, is answered with the InternalError
    (-32603) envelope whose message is the text of the [TimeoutError],
    "Request timed out after 30.0 seconds".  The one worker that was
    launched is stopped, and only then is the lock released and the
    response returned. *)
Theorem C1_timeout {RT : PyRuntime} (E : Env) (d : dict) (method : string)
  (w : World) (server : Schema.McpServerConfiguration)
  (uv : UvHandler.uv_params) (l1 : list event) :
  Rpc.validate_meta (JObj d) = Ok server ->
  Dict.get "method" d = Some (JStr method) ->
  Rpc.assoc method Rpc.handlers_map = Some Rpc.HTrue ->
  Dict.has "id" d = true ->
  PyStr.startswith (Schema.command server) "uv" = true ->
  UvHandler.parse_mcp_server_params E (Schema.args server)
    (EvAcquire :: log w) = (Ok uv, l1) ->
  let n := launched w in
  let cfg := Rpc.caller_config server uv in
  never_replies E cfg n l1 method (JObj d) ->
  exists response w' sent,
    Rpc.rpc_handler E (JObj d) w = (Ok response, w')
    /\ response_error_code response = Some CustomErrorCode.INTERNAL_ERROR
    /\ response_error_code response <> Some CustomErrorCode.REQUEST_TIMEOUT
    /\ response_error_message response
       = Some (JStr "Request timed out after 30.0 seconds")
    /\ log w' = EvRelease :: EvStop n :: sent ++ handshake_log cfg n l1
    /\ (sent = []
        \/ sent = [EvWrite n (JObj d);
                   EvWrite n (McpCaller.initialized_request
                                (McpCaller.init cfg))]).
Proof.
intros Hmeta Hget Hassoc Hid Huv Hparse n cfg Hsilent.
destruct (validate_meta_shape _ Hmeta) as [_ Hsc].
destruct (enter_spec E (JObj d) w) as (t0 & k0 & Henter).
assert (Hmethod : py_get (JObj d) "method" (JStr "") = Ok (JStr method))
  by (cbn; now rewrite Hget).
destruct (@rpc_body_validated RT E (JObj d) (JStr method)
            (Rpc.enter E (JObj d) w) server Hmeta Hmethod) as (t & k & Hbody).
rewrite Henter in Hbody. unfold retimed in Hbody.
cbn [Rpc.mcp_caller Rpc.world Rpc.tracer log launched] in Hbody.
cbn [Rpc.lookup_handler of_res] in Hbody. unfold bind at 1 in Hbody.
rewrite Hassoc in Hbody. cbv beta iota delta [of_res] in Hbody.
destruct (@forward_to_call RT E d (JStr method) server uv t None k
            (EvAcquire :: log w) l1 (launched w) Hid Huv Hparse)
  as (t1 & k1 & Hfwd).
rewrite Hfwd in Hbody. rewrite <- Henter in Hbody.
assert (Hcodes : forall e f1 sent,
          Rpc.forward_call E (JObj d) (JStr method) server uv
            (Rpc.mkFrame t1 None (mkWorld k1 l1 (launched w))) = (Raise e, f1) ->
          format_error (AnyExc e) = timeout_error ->
          closed_log f1 = EvRelease :: EvStop n :: sent ++ handshake_log cfg n l1 ->
          exists response w',
            Rpc.rpc_handler E (JObj d) w = (Ok response, w')
            /\ response_error_code response = Some CustomErrorCode.INTERNAL_ERROR
            /\ response_error_code response <> Some CustomErrorCode.REQUEST_TIMEOUT
            /\ response_error_message response
               = Some (JStr "Request timed out after 30.0 seconds")
            /\ log w' = EvRelease :: EvStop n :: sent ++ handshake_log cfg n l1).
{ intros e f1 sent Hcall Hfmt Hclosed. rewrite Hcall in Hbody.
  destruct (@rpc_handler_of_raise RT E (JObj d) w e f1 _ Hbody Hsc)
    as (response & w' & Hrun & Hcode & Hmsg & Hlog & _).
  rewrite Hfmt in Hcode, Hmsg.
  exists response, w'. split; [exact Hrun|]. split; [exact Hcode|].
  split; [rewrite Hcode; discriminate|]. split; [exact Hmsg|].
  now rewrite Hlog. }
destruct Hsilent as [Hinit | (v & Hinit & Herr & Hne & Hcall)].
- destruct (@forward_call_handshake_timeout RT E d (JStr method) server uv t1 None
              k1 l1 (launched w) Hinit) as (t2 & k2 & Hcall).
  destruct (Hcodes _ _ [] Hcall eq_refl eq_refl)
    as (response & w' & H).
  exists response, w', []. intuition.
- assert (Hm : McpCaller.is_method "initialize" d = false).
  { unfold McpCaller.is_method. rewrite Hget.
    now apply String.eqb_neq. }
  destruct (@forward_call_request_timeout RT E d method server uv t1 None k1 l1
              (launched w) v Hinit Herr Hm Hid Hcall)
    as (t2 & k2 & c' & Hfc & Hsrv).
  destruct (Hcodes _ _ [EvWrite n (JObj d);
                        EvWrite n (McpCaller.initialized_request
                                     (McpCaller.init cfg))] Hfc eq_refl)
    as (response & w' & H).
  { unfold closed_log. cbn [Rpc.mcp_caller Rpc.world log]. rewrite Hsrv. reflexivity. }
  exists response, w', [EvWrite n (JObj d);
                        EvWrite n (McpCaller.initialized_request
                                     (McpCaller.init cfg))].
  intuition.
Qed.

(** The theorem on the sample request, with the worker that never writes
    a line. *)
Lemma C1_timeout_witness :
  exists response w',
    @Rpc.rpc_handler sample_runtime (sample_env silent_worker)
      (sample_request "uvx" "tools/call") empty_world = (Ok response, w')
    /\ response_error_code response = Some (-32603)
    /\ exists l, log w' = EvRelease :: EvStop 0 :: l.
Proof.
destruct (@C1_timeout sample_runtime (sample_env silent_worker)
            [("jsonrpc", JStr "2.0"); ("id", JNum 1);
             ("method", JStr "tools/call");
             ("params",
              JObj [("_meta",
                     JObj [("server",
                            JObj [("command", JStr "uvx");
                                  ("args", JArr [JStr "--from";
                                                 JStr "git+https://x";
                                                 JStr "pkg:mod.sub:fn"])])])])]
            "tools/call" empty_world
            (Schema.mkServer "2025-03-26" "2.0" "stdio" "uvx"
               (Some example_args) None JNull None None)
            (UvHandler.mkUvParams "pkg" "mod.sub" "fn" (Some "mod.sub:fn")
               (Some "git+https://x") [] (JObj []))
            [EvRun ["uv"; "pip"; "inspect"; "pkg"];
             EvResolve (Some example_args); EvAcquire]
            eq_refl eq_refl eq_refl eq_refl eq_refl eq_refl
            (or_introl eq_refl))
  as (response & w' & sent & Hrun & Hcode & _ & _ & Hlog & _).
exists response, w'. split; [exact Hrun|]. split; [exact Hcode|].
eexists. exact Hlog.
Defined.

(* ================================================================= *)
(** * Further properties *)

Import Further.

(* ================================================================= *)
(** ** The bridge: [connect] on a bridge that has just been built *)

Section BridgeMore.
Context {RT : PyRuntime}.
Variable E : Env.

Lemma connect_fresh (cfg : McpCaller.McpCallerConfiguration) (w : World) :
  let n := launched w in
  let srv := SimpleThreadedMcpServer.mk (McpCaller.module_path cfg)
               (McpCaller.function_name cfg) true false n in
  match McpCaller.connect E (McpCaller.init cfg, w) with
  | (Ok info, (c, w')) =>
      c = McpCaller.mk cfg 2 true info (Some srv)
      /\ log w' = EvWrite n (McpCaller.initialized_request (McpCaller.init cfg))
                  :: handshake_log cfg n (log w)
      /\ launched w' = S n
  | (Raise e, (c, w')) =>
      (exists ce, e = ExcCustom ce)
      /\ c = McpCaller.mk cfg 2 false JNull None
      /\ log w' = EvStop n :: handshake_log cfg n (log w)
      /\ launched w' = S n
  end.
Proof.
destruct w as [k l n]. cbn zeta. unfold handshake_log.
unfold_bridge. cbn.
destruct (worker_exchange E _ n "30.0") as [msg| | |msg|v]; cbn; eauto 6.
destruct (py_in "error" v) as [[|]|e]; cbn; eauto 6.
- destruct (McpCaller.initialize_failed v); cbn; eauto 6.
- destruct (py_get v "result" (JObj [])) as [info|e]; cbn; eauto 6.
  destruct (worker_exchange E _ n "1e-05"); cbn; auto.
Qed.
End BridgeMore.


(* ----------------------------------------------------------------- *)
(** *** Steps that compose *)

Section StableFacts.
Context {S : Type} (R : S -> S -> Prop) `{!Composes R}.

Lemma stable_ret {A : Type} (a : A) : stable R (ret a : M S A).
Proof. intros s. apply step_refl. Qed.

Lemma stable_raise {A : Type} (e : py_exc) : stable R (raise e : M S A).
Proof. intros s. apply step_refl. Qed.

Lemma stable_of_res {A : Type} (r : Res A) : stable R (of_res r : M S A).
Proof. intros s. apply step_refl. Qed.

Lemma stable_gets {A : Type} (f : S -> A) : stable R (gets f).
Proof. intros s. apply step_refl. Qed.

Lemma stable_oracle {A : Type} (f : S -> Res A) :
  stable R (fun s => (f s, s)).
Proof. intros s. apply step_refl. Qed.

Lemma stable_bind {A B : Type} (m : M S A) (k : A -> M S B) :
  stable R m -> (forall a, stable R (k a)) -> stable R (bind m k).
Proof.
intros Hm Hk s. unfold bind. specialize (Hm s).
destruct (m s) as [[a|e] s1]; [|exact Hm].
eapply step_trans; [exact Hm | apply Hk].
Qed.

Lemma stable_try_except {A : Type} (m : M S A) (h : py_exc -> M S A) :
  stable R m -> (forall e, stable R (h e)) -> stable R (try_except m h).
Proof.
intros Hm Hh s. unfold try_except. specialize (Hm s).
destruct (m s) as [[a|e] s1]; [exact Hm|].
eapply step_trans; [exact Hm | apply Hh].
Qed.

Lemma stable_attempt {A : Type} (m : M S A) :
  stable R m -> stable R (attempt m).
Proof. intros Hm s. unfold attempt. specialize (Hm s). now destruct (m s). Qed.

End StableFacts.

Lemma stable_zoom {S T A : Type} (RS : S -> S -> Prop) (RT : T -> T -> Prop)
  (proj : S -> T) (inj : T -> S -> S) (m : M T A) :
  (forall s t', RT (proj s) t' -> RS s (inj t' s)) ->
  stable RT m -> stable RS (zoom proj inj m).
Proof.
intros Hinj Hm s. unfold zoom. specialize (Hm (proj s)).
destruct (m (proj s)) as [r t']. apply Hinj, Hm.
Qed.

Create HintDb steady.

Ltac steady :=
  repeat first
    [ solve [auto 3 with steady nocore]
    | match goal with |- Composes _ => exact _ end
    | apply stable_ret | apply stable_raise | apply stable_of_res
    | apply stable_gets | apply stable_oracle
    | apply stable_bind; [| |intros ?]
    | apply stable_try_except; [| |intros ?]
    | apply stable_attempt
    | match goal with
      | |- stable _ (if ?b then _ else _) => destruct b
      | |- stable _ (match ?x with _ => _ end) => destruct x
      end ].

Lemma lifecycle_app (a b : list event) :
  lifecycle (a ++ b) = lifecycle a ++ lifecycle b.
Proof. apply filter_app. Qed.

#[export] Instance calmly_composes : Composes calmly.
Proof.
split.
- intros l. now exists [].
- intros a b c (x & -> & Hx) (y & -> & Hy). exists (y ++ x).
  rewrite app_assoc, lifecycle_app, Hx, Hy. now split.
Qed.

#[export] Instance written_composes : Composes written.
Proof.
split.
- intros l. now exists [].
- intros a b c (x & -> & Hx) (y & -> & Hy). exists (y ++ x).
  rewrite app_assoc, forallb_app, Hx, Hy. now split.
Qed.

Lemma written_calmly (l l' : list event) : written l l' -> calmly l l'.
Proof.
intros (x & -> & Hx). exists x. split; [reflexivity|].
induction x as [|e x IH]; [reflexivity|].
cbn in Hx. apply andb_prop in Hx as [He Hx].
destruct e; try discriminate. cbn. now apply IH.
Qed.

#[export] Instance bridge_step_composes : Composes bridge_step.
Proof.
split.
- intros s. repeat split. apply step_refl.
- intros a b c (H1 & H2 & H3 & H4 & H5 & H6 & H7)
    (K1 & K2 & K3 & K4 & K5 & K6 & K7).
  repeat split; try congruence. eapply step_trans; eassumption.
Qed.

#[export] Instance call_step_composes : Composes call_step.
Proof.
split.
- intros s. split; [apply step_refl | reflexivity].
- intros a b c [H1 H2] [K1 K2].
  split; [eapply step_trans; eassumption | congruence].
Qed.

#[export] Instance frame_step_composes : Composes frame_step.
Proof.
split.
- intros s. split; [reflexivity | apply step_refl].
- intros a b c [H1 H2] [K1 K2].
  split; [congruence | eapply step_trans; eassumption].
Qed.

(* ----------------------------------------------------------------- *)
(** *** What [execute_mcp_call] leaves alone *)

Section ExecuteFacts.
Context {RT : PyRuntime}.
Variable E : Env.

(** The child trace [execute_mcp_call] merges is the empty list: nothing
    is merged and the clock is not read. *)
Lemma merge_empty_list (base_seq parent_seq : string) (is_success : bool)
  (additional_data : option dict) (s : Tracer.Tracer * nat) :
  Tracer.merge_child_trace E base_seq parent_seq is_success (JArr [])
    additional_data s = (Ok tt, s).
Proof. reflexivity. Qed.

Lemma call_tracer_merge_empty (base_seq parent_seq : string) (is_success : bool)
  (additional_data : option dict) :
  stable call_step
    (McpCaller.call_tracer
       (Tracer.merge_child_trace E base_seq parent_seq is_success (JArr [])
          additional_data)).
Proof.
intros [c [tr|] [k l n]]; unfold McpCaller.call_tracer; cbn;
  (split; [repeat split; apply step_refl | reflexivity]).
Qed.

Lemma call_self_stable {A : Type} (m : M (McpCaller.t * World) A) :
  stable bridge_step m -> stable call_step (McpCaller.call_self m).
Proof.
intros Hm. unfold McpCaller.call_self. apply stable_zoom with (RT := bridge_step);
  [|exact Hm].
intros s [c w] H. split; [exact H | reflexivity].
Qed.

Lemma bump_id_stable : stable bridge_step (McpCaller.on_self McpCaller.bump_id).
Proof. intros [c w]. cbn. repeat split. apply step_refl. Qed.

Lemma send_request_stable (srv : SimpleThreadedMcpServer.t) (request : json)
  (timeout : string) :
  stable bridge_step
    (McpCaller.on_world
       (SimpleThreadedMcpServer.send_request E srv request timeout)).
Proof.
intros [c [k l n]]. unfold_bridge. cbn.
destruct (SimpleThreadedMcpServer.is_running srv); cbn.
- assert (H : written l (EvWrite (SimpleThreadedMcpServer.worker srv) request :: l))
    by (exists [EvWrite (SimpleThreadedMcpServer.worker srv) request]; now split).
  destruct (worker_exchange E _ _ timeout); cbn; now repeat split.
- repeat split. apply step_refl.
Qed.

#[local] Hint Resolve call_tracer_merge_empty call_self_stable bump_id_stable
  send_request_stable : steady.

Lemma execute_failed_stable (seen : list string) (error : py_exc) :
  stable call_step (McpCaller.execute_failed E seen error).
Proof. unfold McpCaller.execute_failed. steady. Qed.

Lemma execute_reply_stable (seen : list string) (response : json) :
  stable call_step (McpCaller.execute_reply E seen response).
Proof. unfold McpCaller.execute_reply. steady. Qed.

#[local] Hint Resolve execute_failed_stable execute_reply_stable : steady.

Lemma execute_stable (input_request : dict) :
  stable call_step (McpCaller.execute_mcp_call E input_request).
Proof. unfold McpCaller.execute_mcp_call. steady. Qed.

(** X15: what [execute_mcp_call] leaves alone, on every bridge and
    whatever its outcome.  The tracer it is given is not touched and the
    clock is not read (the child trace it merges is the empty list, so
    the captured output is dropped); the configuration, the connection
    flag, the cached handshake result and the worker of the bridge stay
    as they are; no worker is launched; and the log only gains lines
    written to a worker. *)
Theorem X15_execute_step (input_request : dict) (s : McpCaller.Call) :
  let s' := snd (McpCaller.execute_mcp_call E input_request s) in
  McpCaller.tracer s' = McpCaller.tracer s
  /\ ticks (McpCaller.world s') = ticks (McpCaller.world s)
  /\ launched (McpCaller.world s') = launched (McpCaller.world s)
  /\ McpCaller.config (McpCaller.self s') = McpCaller.config (McpCaller.self s)
  /\ McpCaller._is_connected (McpCaller.self s')
     = McpCaller._is_connected (McpCaller.self s)
  /\ McpCaller.server_info (McpCaller.self s')
     = McpCaller.server_info (McpCaller.self s)
  /\ McpCaller._server (McpCaller.self s') = McpCaller._server (McpCaller.self s)
  /\ written (log (McpCaller.world s)) (log (McpCaller.world s')).
Proof.
cbv zeta.
destruct (execute_stable input_request s)
  as [(H1 & H2 & H3 & H4 & H5 & H6 & H7) H8].
cbn [fst snd] in *. now repeat split.
Qed.

End ExecuteFacts.

(* ----------------------------------------------------------------- *)
(** *** The resolver adds no lifecycle event *)

Section ResolverSteps.
Context {RT : PyRuntime}.
Variable E : Env.

Lemma record_event_calm (e : event) :
  is_lifecycle e = false -> stable calmly (record_event e).
Proof.
intros He l. exists [e]. split; [reflexivity|]. cbn. now rewrite He.
Qed.

Lemma run_checked_calm (cmd : list string) :
  stable calmly (UvHandler.run_checked E cmd).
Proof.
unfold UvHandler.run_checked. steady. now apply record_event_calm.
Qed.

Lemma install_package_calm (cmd : list string) :
  stable calmly (UvHandler.install_package E cmd).
Proof.
unfold UvHandler.install_package. steady. now apply record_event_calm.
Qed.

#[local] Hint Resolve run_checked_calm install_package_calm : steady.

Lemma install_deps_calm (cache_dir : string) (deps : list string) :
  stable calmly (UvHandler.install_deps E cache_dir deps).
Proof.
induction deps as [|dep r IH]; cbn [UvHandler.install_deps]; steady.
Qed.

Lemma retrieve_metadata_calm (pkg : string) :
  stable calmly (UvHandler.retrieve_metadata E pkg).
Proof.
unfold UvHandler.retrieve_metadata. steady. now apply record_event_calm.
Qed.

Lemma inspect_entry_points_calm (pkg : string) :
  stable calmly (UvHandler.inspect_entry_points E pkg).
Proof.
unfold UvHandler.inspect_entry_points. steady. now apply record_event_calm.
Qed.

#[local] Hint Resolve install_deps_calm retrieve_metadata_calm
  inspect_entry_points_calm : steady.

Lemma install_phase_calm (cache_dir : string) (st : UvHandler.scan_state)
  (pkg : string) :
  stable calmly (UvHandler.install_phase E cache_dir st pkg).
Proof. unfold UvHandler.install_phase. steady. Qed.

#[local] Hint Resolve install_phase_calm : steady.

Lemma parse_calm (args : option (list string)) :
  stable calmly (UvHandler.parse_mcp_server_params E args).
Proof.
unfold UvHandler.parse_mcp_server_params. steady.
now apply record_event_calm.
Qed.

End ResolverSteps.

(* ----------------------------------------------------------------- *)
(** *** Preconditions and postconditions *)

Section HoareFacts.
Context {S : Type}.

Lemma hoare_bind {A B : Type} (P : S -> Prop) (m : M S A) (Q : A -> S -> Prop)
  (k : A -> M S B) (Q' : B -> S -> Prop) (R : S -> Prop) :
  hoare P m Q R -> (forall a, hoare (Q a) (k a) Q' R) ->
  hoare P (bind m k) Q' R.
Proof.
intros Hm Hk s Hs. unfold bind. specialize (Hm s Hs).
destruct (m s) as [[a|e] s1]; [|exact Hm]. now apply Hk.
Qed.

Lemma hoare_ret {A : Type} (P : S -> Prop) (a : A) (R : S -> Prop) :
  hoare P (ret a) (fun _ => P) R.
Proof. now intros s Hs. Qed.

Lemma hoare_raise {A : Type} (P : S -> Prop) (e : py_exc)
  (Q : A -> S -> Prop) (R : S -> Prop) :
  (forall s, P s -> R s) -> hoare P (raise e) Q R.
Proof. intros H s Hs. now apply H. Qed.

Lemma hoare_of_res {A : Type} (P : S -> Prop) (r : Res A) (R : S -> Prop) :
  (forall s, P s -> R s) -> hoare P (of_res r) (fun _ => P) R.
Proof. intros H s Hs. destruct r; cbn; auto. Qed.

(** A computation that only takes steps of [step] keeps what the steps
    keep. *)
Lemma hoare_stable {A : Type} (step : S -> S -> Prop) (P : S -> Prop)
  (m : M S A) (R : S -> Prop) :
  stable step m ->
  (forall s s', P s -> step s s' -> P s') ->
  (forall s, P s -> R s) ->
  hoare P m (fun _ => P) R.
Proof.
intros Hm Hkeep HR s Hs. specialize (Hm s).
destruct (m s) as [[a|e] s1]; cbn in Hm; eauto.
Qed.

Lemma hoare_weaken {A : Type} (P : S -> Prop) (m : M S A)
  (Q Q' : A -> S -> Prop) (R R' : S -> Prop) :
  hoare P m Q R ->
  (forall a s, Q a s -> Q' a s) -> (forall s, R s -> R' s) ->
  hoare P m Q' R'.
Proof.
intros Hm HQ HR s Hs. specialize (Hm s Hs).
destruct (m s) as [[a|e] s1]; auto.
Qed.

End HoareFacts.

(* ================================================================= *)
(** ** The dispatcher: the lock and the worker on every path *)

Section TeardownFacts.
Context {RT : PyRuntime}.
Variable E : Env.

Import Rpc.

Lemma on_tracer_step {A : Type} (m : Tracer.TM A) :
  stable frame_step (on_tracer m).
Proof.
intros f. unfold on_tracer, zoom. destruct (m _) as [r [t k]]. cbn.
split; [reflexivity | apply step_refl].
Qed.

Lemma resolver_step {A : Type} (m : M (list event) A) :
  stable calmly m -> stable frame_step (on_world (on_log m)).
Proof.
intros Hm f. unfold on_world, on_log, zoom. specialize (Hm (log (world f))).
destruct (m _) as [r l]. cbn in *. now split.
Qed.

Lemma on_call_step {A : Type} (m : M McpCaller.Call A) :
  stable call_step m -> stable frame_step (on_call m).
Proof.
intros Hm f. unfold on_call. destruct (mcp_caller f) as [c|] eqn:Hc.
- specialize (Hm (McpCaller.mkCall c (Some (tracer f)) (world f))).
  destruct (m _) as [r s]. cbn in *.
  destruct Hm as [(_ & _ & _ & Hsrv & _ & _ & Hw) _].
  split.
  + unfold server_of. cbn. now rewrite Hc.
  + now apply written_calmly.
- apply step_refl.
Qed.

#[local] Hint Resolve on_tracer_step : steady.

Lemma generate_step (data result : json) (error : option dict) :
  stable frame_step (generate_jsonrpc_response E data result error).
Proof.
unfold generate_jsonrpc_response. steady.
Qed.

Lemma rpc_except_step (data : json) (e : py_exc) :
  stable frame_step (rpc_except E data e).
Proof. destruct e; apply generate_step. Qed.

Lemma resolve_command_step (server : Schema.McpServerConfiguration) :
  stable frame_step (resolve_command E server).
Proof.
unfold resolve_command. steady. apply resolver_step, parse_calm.
Qed.

Lemma worker_phase_step (l0 : list event) (sv : option SimpleThreadedMcpServer.t)
  (ws : list event) (f f' : Frame) :
  worker_phase l0 sv ws f -> frame_step f f' -> worker_phase l0 sv ws f'.
Proof.
intros (Hsv & mid & Hlog & Hws) (Hsame & later & Hlater & Hcalm).
split; [congruence|].
exists (later ++ mid). rewrite Hlater, Hlog, app_assoc. split; [reflexivity|].
now rewrite lifecycle_app, Hcalm.
Qed.

Lemma no_worker_step (l0 : list event) (f f' : Frame) :
  no_worker l0 f -> frame_step f f' -> no_worker l0 f'.
Proof. apply worker_phase_step. Qed.

Lemma worker_held_step (l0 : list event) (f f' : Frame) :
  worker_held l0 f -> frame_step f f' -> worker_held l0 f'.
Proof.
intros (srv & m & fn & H) Hstep. exists srv, m, fn.
eapply worker_phase_step; eassumption.
Qed.

Lemma worker_accounted_step (l0 : list event) (f f' : Frame) :
  worker_accounted l0 f -> frame_step f f' -> worker_accounted l0 f'.
Proof.
intros [H|[H|(n & m & fn & H)]] Hstep.
- left. eapply no_worker_step; eassumption.
- right. left. eapply worker_held_step; eassumption.
- right. right. exists n, m, fn. eapply worker_phase_step; eassumption.
Qed.

(** [connect] on the bridge the dispatcher has just built: it returns
    with the worker held, or raises with the worker stopped. *)
Lemma connect_phase (l0 : list event) (cfg : McpCaller.McpCallerConfiguration) :
  hoare (fun f => no_worker l0 f /\ mcp_caller f = Some (McpCaller.init cfg))
        (on_caller (McpCaller.connect E))
        (fun _ => worker_held l0) (worker_accounted l0).
Proof.
intros f [(_ & mid & Hlog & Hmid) Hc]. unfold on_caller. rewrite Hc.
pose proof (connect_fresh E cfg (world f)) as H. cbv zeta in H.
destruct (McpCaller.connect E _) as [[info|e] [c w']].
- destruct H as (-> & Hlog' & _).
  eexists _, _, _. split; [reflexivity|]. cbn.
  eexists (_ :: _ :: _ :: mid). unfold handshake_log in Hlog'.
  rewrite Hlog', Hlog. split; [reflexivity|].
  unfold lifecycle in *. cbn. now rewrite Hmid.
- destruct H as (_ & -> & Hlog' & _). right. right.
  eexists _, _, _. split; [reflexivity|]. cbn.
  eexists (_ :: _ :: _ :: mid). unfold handshake_log in Hlog'.
  rewrite Hlog', Hlog. split; [reflexivity|].
  unfold lifecycle in *. cbn. now rewrite Hmid.
Qed.

Lemma forward_call_accounted (l0 : list event) (data method : json)
  (server : Schema.McpServerConfiguration) (uv : UvHandler.uv_params) :
  hoare (no_worker l0) (forward_call E data method server uv)
        (fun _ => worker_accounted l0) (worker_accounted l0).
Proof.
unfold forward_call.
eapply hoare_bind.
{ apply hoare_stable with (step := frame_step);
    [steady | apply no_worker_step | now left]. }
intros ?. cbv beta. eapply hoare_bind with
  (Q := fun _ f => no_worker l0 f
                   /\ mcp_caller f
                      = Some (McpCaller.init (caller_config server uv))).
{ intros f (Hsv & Hlog). cbn. split; [|reflexivity]. split; [reflexivity|].
  exact Hlog. }
intros ?. cbv beta. eapply hoare_bind; [apply connect_phase|].
intros ?. cbv beta. eapply hoare_bind.
{ apply hoare_stable with (step := frame_step);
    [steady | apply worker_held_step | now right; left]. }
intros ?. cbv beta. eapply hoare_bind.
{ apply hoare_stable with (step := frame_step);
    [apply on_call_step, execute_stable | apply worker_held_step
    | now right; left]. }
intros result. eapply hoare_weaken.
{ apply hoare_stable with (step := frame_step) (R := worker_accounted l0);
    [apply generate_step | apply worker_held_step | now right; left]. }
- intros ? f H. now right; left.
- auto.
Qed.

Lemma forward_accounted (l0 : list event) (data method : json)
  (server : Schema.McpServerConfiguration) :
  hoare (no_worker l0) (forward E data method server)
        (fun _ => worker_accounted l0) (worker_accounted l0).
Proof.
unfold forward.
eapply hoare_bind; [apply hoare_of_res; now left|].
intros has_id. eapply hoare_bind with (Q := fun _ => no_worker l0).
{ destruct has_id; [apply hoare_ret | apply hoare_raise; now left]. }
intros ?. cbv beta. eapply hoare_bind.
{ apply hoare_stable with (step := frame_step);
    [steady | apply no_worker_step | now left]. }
intros ?. cbv beta. eapply hoare_bind.
{ apply hoare_stable with (step := frame_step);
    [apply resolve_command_step | apply no_worker_step | now left]. }
intros uv. apply forward_call_accounted.
Qed.

Lemma rpc_body_accounted (l0 : list event) (data : json) :
  hoare (no_worker l0) (rpc_body E data) (fun _ => worker_accounted l0) (worker_accounted l0).
Proof.
unfold rpc_body.
eapply hoare_bind.
{ apply hoare_stable with (step := frame_step);
    [steady | apply no_worker_step | now left]. }
intros ?. cbv beta. eapply hoare_bind; [apply hoare_of_res; now left|].
intros server. eapply hoare_bind; [apply hoare_of_res; now left|].
intros method. eapply hoare_bind; [apply hoare_of_res; now left|].
intros [[g| |]|].
- eapply hoare_bind.
  { apply hoare_stable with (step := frame_step);
      [steady | apply no_worker_step | now left]. }
  intros ?. cbv beta. eapply hoare_bind; [apply hoare_of_res; now left|].
  intros result. eapply hoare_weaken.
  { apply hoare_stable with (step := frame_step) (R := worker_accounted l0);
      [apply generate_step | apply no_worker_step | now left]. }
  + intros ? f H. now left.
  + auto.
- apply forward_accounted.
- apply hoare_raise. now left.
- apply hoare_raise. now left.
Qed.

End TeardownFacts.

(** X1: whatever the request and whatever the environment does,
    [rpc_handler] takes the lock first and releases it last, and between
    the two it launches at most one worker; a worker it has launched is
    stopped before the lock is released, on every path: a result, an
    error envelope or an exception that escapes. *)
Theorem X1_rpc_handler_teardown {RT : PyRuntime} (E : Env) (data : json)
  (w : World) :
  exists mid,
    log (snd (Rpc.rpc_handler E data w))
    = EvRelease :: mid ++ EvAcquire :: log w
    /\ (lifecycle mid = []
        \/ exists n m fn, lifecycle mid = [EvStop n; EvLaunch n m fn]).
Proof.
destruct (enter_spec E data w) as (t0 & k0 & Henter).
set (l0 := EvAcquire :: log w).
assert (H0 : no_worker l0 (Rpc.enter E data w)).
{ rewrite Henter. split; [reflexivity|]. now exists []. }
assert (H1 : worker_accounted l0 (snd (try_except (Rpc.rpc_body E data)
                              (Rpc.rpc_except E data) (Rpc.enter E data w)))).
{ unfold try_except. pose proof (@rpc_body_accounted RT E l0 data _ H0) as Hb.
  destruct (Rpc.rpc_body E data _) as [[response|e] f1]; [exact Hb|].
  eapply worker_accounted_step; [exact Hb | apply rpc_except_step]. }
unfold Rpc.rpc_handler, Rpc.rpc_handler_frame, try_finally.
destruct (try_except _ _ _) as [r f1]. cbn [snd] in H1.
destruct (rpc_finally_spec f1) as (c' & ->).
destruct r as [response|e]; cbn [snd Rpc.world log];
  (destruct H1 as [(Hsv & mid & Hlog & Hmid)
                  |[(srv & m & fn & Hsv & mid & Hlog & Hmid)
                   |(n & m & fn & Hsv & mid & Hlog & Hmid)]];
   unfold server_of in Hsv;
   [ exists mid | exists (EvStop (SimpleThreadedMcpServer.worker srv) :: mid)
   | exists mid ];
   (split;
    [ destruct (Rpc.mcp_caller f1) as [c|];
      [rewrite Hsv|]; rewrite Hlog; reflexivity || discriminate
    | unfold lifecycle in *; cbn; rewrite ?Hmid; eauto 6 ])).
Qed.

(* ================================================================= *)
(** ** The bridge: the outcomes of [execute_mcp_call] *)

Lemma dict_get_set_same (k : string) (v : json) (d : dict) :
  Dict.get k (Dict.set k v d) = Some v.
Proof.
induction d as [|[k' v'] r IH]; cbn.
- now rewrite String.eqb_refl.
- destruct (String.eqb k' k) eqn:Hk; cbn; now rewrite Hk.
Qed.

Lemma dict_get_set_other (k k' : string) (v : json) (d : dict) :
  k' <> k -> Dict.get k' (Dict.set k v d) = Dict.get k' d.
Proof.
intros Hne. induction d as [|[k0 v0] r IH]; cbn.
- destruct (String.eqb k k') eqn:Hk; [|reflexivity].
  apply String.eqb_eq in Hk. congruence.
- destruct (String.eqb k0 k) eqn:Hk; cbn.
  + apply String.eqb_eq in Hk. subst k0.
    destruct (String.eqb k k') eqn:Hk'; [|reflexivity].
    apply String.eqb_eq in Hk'. congruence.
  + destruct (String.eqb k0 k'); [reflexivity | exact IH].
Qed.

Lemma outgoing_has_id (c : McpCaller.t) (d : dict) :
  Dict.has "id" (outgoing c d) = true.
Proof.
unfold outgoing. destruct (Dict.has "id" d) eqn:H; [exact H|].
unfold Dict.has. now rewrite dict_get_set_same.
Qed.

Section ExecuteOutcomes.
Context {RT : PyRuntime}.
Variable E : Env.

Lemma call_tracer_merge_empty_eq (base_seq parent_seq : string)
  (is_success : bool) (additional_data : option dict) (s : McpCaller.Call) :
  McpCaller.call_tracer
    (Tracer.merge_child_trace E base_seq parent_seq is_success (JArr [])
       additional_data) s = (Ok tt, s).
Proof. now destruct s as [c [tr|] [k l n]]. Qed.

Lemma execute_failed_eq (seen : list string) (error : py_exc)
  (s : McpCaller.Call) :
  McpCaller.execute_failed E seen error s = (Raise error, s).
Proof.
unfold McpCaller.execute_failed, bind, gets.
now rewrite call_tracer_merge_empty_eq.
Qed.

Lemma execute_reply_keeps (seen : list string) (response : json)
  (s : McpCaller.Call) :
  snd (McpCaller.execute_reply E seen response s) = s.
Proof.
unfold McpCaller.execute_reply, bind, of_res, raise, ret.
destruct (py_in "error" response) as [[|]|e]; [| |reflexivity].
- destruct (py_index response "error") as [err|e]; [|reflexivity].
  now destruct (py_get err "message" (JStr "MCP server error")).
- rewrite call_tracer_merge_empty_eq.
  now destruct (py_get response "result" JNull).
Qed.

Lemma execute_tail_keeps (sent : Res json) (s : McpCaller.Call) :
  snd (execute_tail_of E sent s) = s.
Proof.
destruct sent as [response|error]; cbn [execute_tail_of].
- unfold bind, gets, try_except.
  pose proof (execute_reply_keeps (captured_logs E (log (McpCaller.world s)))
                response s) as H.
  destruct (McpCaller.execute_reply E _ response s) as [[a|e] s1];
    cbn in H; subst s1; [reflexivity|].
  now rewrite execute_failed_eq.
- now rewrite execute_failed_eq.
Qed.

Lemma send_block (c : McpCaller.t) (srv : SimpleThreadedMcpServer.t)
  (tr : option Tracer.Tracer) (w : World) (d : dict) :
  SimpleThreadedMcpServer.is_running srv = true ->
  let n := SimpleThreadedMcpServer.worker srv in
  let l1 := EvWrite n (JObj (outgoing c d)) :: log w in
  exists sent,
    attempt
      (request <-
         (if Dict.has "id" d then ret d
          else
            McpCaller.call_self (McpCaller.on_self McpCaller.bump_id) ;;;
            ret (Dict.set "id" (JNum (McpCaller._request_message_id c)) d)) ;;
       McpCaller.call_self
         (McpCaller.on_world
            (SimpleThreadedMcpServer.send_request E srv (JObj request) "30.0")))
      (McpCaller.mkCall c tr w)
    = (Ok sent,
       McpCaller.mkCall (if Dict.has "id" d then c else McpCaller.bump_id c) tr
         (mkWorld (ticks w) l1 (launched w)))
    /\ forall v, worker_exchange E l1 n "30.0" = Reply v -> sent = Ok v.
Proof.
intros Hr. cbv zeta. unfold outgoing.
destruct (Dict.has "id" d); unfold_bridge; rewrite Hr; cbn;
  destruct (worker_exchange E _ _ "30.0") eqn:Hx; cbn;
  eexists; (split; [reflexivity|]); intros v' Hv; congruence.
Qed.

Lemma execute_send (c : McpCaller.t) (srv : SimpleThreadedMcpServer.t)
  (tr : option Tracer.Tracer) (w : World) (d : dict) :
  McpCaller._is_connected c = true ->
  McpCaller._server c = Some srv ->
  SimpleThreadedMcpServer.is_running srv = true ->
  McpCaller.is_method "initialize" d = false ->
  let n := SimpleThreadedMcpServer.worker srv in
  let l1 := EvWrite n (JObj (outgoing c d)) :: log w in
  exists sent,
    McpCaller.execute_mcp_call E d (McpCaller.mkCall c tr w)
    = execute_tail_of E sent
        (McpCaller.mkCall
           (if Dict.has "id" d then c else McpCaller.bump_id c) tr
           (mkWorld (ticks w) l1 (launched w)))
    /\ forall v, worker_exchange E l1 n "30.0" = Reply v -> sent = Ok v.
Proof.
intros Hc Hs Hr Hm. cbv zeta.
destruct (@send_block c srv tr w d Hr) as (sent & Hsend & Hreply).
exists sent. split; [|exact Hreply].
unfold McpCaller.execute_mcp_call.
unfold bind at 1. unfold gets at 1. cbn [McpCaller.self].
rewrite Hc, Hs, Hm.
rewrite (bind_returns _ _ _ Hsend). now destruct sent.
Qed.

Lemma execute_replied (c : McpCaller.t) (srv : SimpleThreadedMcpServer.t)
  (tr : option Tracer.Tracer) (w : World) (d : dict) (v : json) :
  McpCaller._is_connected c = true ->
  McpCaller._server c = Some srv ->
  SimpleThreadedMcpServer.is_running srv = true ->
  McpCaller.is_method "initialize" d = false ->
  let n := SimpleThreadedMcpServer.worker srv in
  let l1 := EvWrite n (JObj (outgoing c d)) :: log w in
  let s1 := McpCaller.mkCall
              (if Dict.has "id" d then c else McpCaller.bump_id c) tr
              (mkWorld (ticks w) l1 (launched w)) in
  worker_exchange E l1 n "30.0" = Reply v ->
  McpCaller.execute_mcp_call E d (McpCaller.mkCall c tr w)
  = (fst (execute_tail_of E (Ok v) s1), s1).
Proof.
intros Hc Hs Hr Hm n l1 s1 Hx.
destruct (@execute_send c srv tr w d Hc Hs Hr Hm) as (sent & -> & Hsent).
rewrite (Hsent _ Hx). fold n l1 s1.
rewrite <- (execute_tail_keeps (Ok v) s1) at 3.
now destruct (execute_tail_of E (Ok v) s1).
Qed.

Lemma tail_error_reply (r err : dict) (s : McpCaller.Call) :
  Dict.get "error" r = Some (JObj err) ->
  fst (execute_tail_of E (Ok (JObj r)) s)
  = Raise (ExcCustom
             (mkCustomError CustomErrorCode.INTERNAL_ERROR
                (match Dict.get "message" err with
                 | Some m => m
                 | None => JStr "MCP server error"
                 end)
                (JObj err))).
Proof.
intros Herr. cbn [execute_tail_of].
unfold bind at 1. unfold gets at 1. unfold try_except.
unfold McpCaller.execute_reply. unfold bind at 1. unfold of_res at 1.
cbn [py_in]. unfold Dict.has. rewrite Herr.
unfold bind at 1. unfold bind at 1. unfold of_res at 1. cbn [py_index].
rewrite Herr. unfold bind at 1. unfold of_res at 1. cbn [py_get].
destruct (Dict.get "message" err); cbn [raise];
  now rewrite execute_failed_eq.
Qed.

Lemma tail_result_reply (r : dict) (s : McpCaller.Call) :
  Dict.has "error" r = false ->
  fst (execute_tail_of E (Ok (JObj r)) s)
  = Ok (_convert_to_dict (get_or_null "result" r)).
Proof.
intros Herr. cbn [execute_tail_of].
unfold bind at 1. unfold gets at 1. unfold try_except.
unfold McpCaller.execute_reply. unfold bind at 1. unfold of_res at 1.
cbn [py_in]. rewrite Herr.
unfold bind at 1. unfold bind at 1. unfold ret at 1.
rewrite call_tracer_merge_empty_eq.
unfold bind at 1. unfold of_res at 1. cbn [py_get]. unfold get_or_null.
now destruct (Dict.get "result" r).
Qed.

(** X12: on a connected bridge, [execute_mcp_call] of a request whose
    method is not [initialize] writes exactly one line to the worker,
    whatever the worker then does.  The line always carries an id: the
    request's own, or else the bridge's counter, which is then
    incremented. *)
Theorem X12_execute_sends_with_id (c : McpCaller.t)
  (srv : SimpleThreadedMcpServer.t) (tr : option Tracer.Tracer) (w : World)
  (d : dict) :
  McpCaller._is_connected c = true ->
  McpCaller._server c = Some srv ->
  SimpleThreadedMcpServer.is_running srv = true ->
  McpCaller.is_method "initialize" d = false ->
  let s' := snd (McpCaller.execute_mcp_call E d (McpCaller.mkCall c tr w)) in
  log (McpCaller.world s')
  = EvWrite (SimpleThreadedMcpServer.worker srv) (JObj (outgoing c d)) :: log w
  /\ Dict.has "id" (outgoing c d) = true
  /\ McpCaller._request_message_id (McpCaller.self s')
     = (if Dict.has "id" d then McpCaller._request_message_id c
        else McpCaller._request_message_id c + 1).
Proof.
intros Hc Hs Hr Hm. cbv zeta.
destruct (@execute_send c srv tr w d Hc Hs Hr Hm) as (sent & -> & _).
rewrite execute_tail_keeps. cbn.
split; [reflexivity|]. split; [apply outgoing_has_id|].
now destruct (Dict.has "id" d).
Qed.

(** X13: when the worker's reply carries a dictionary under [error],
    [execute_mcp_call] raises a [CustomError] with code InternalError
    (-32603), the worker's [message] (or "MCP server error" when there is
    none) and the whole error dictionary as [data]. *)
Theorem X13_execute_error_reply (c : McpCaller.t)
  (srv : SimpleThreadedMcpServer.t) (tr : option Tracer.Tracer) (w : World)
  (d r err : dict) :
  McpCaller._is_connected c = true ->
  McpCaller._server c = Some srv ->
  SimpleThreadedMcpServer.is_running srv = true ->
  McpCaller.is_method "initialize" d = false ->
  worker_exchange E
    (EvWrite (SimpleThreadedMcpServer.worker srv) (JObj (outgoing c d)) :: log w)
    (SimpleThreadedMcpServer.worker srv) "30.0" = Reply (JObj r) ->
  Dict.get "error" r = Some (JObj err) ->
  fst (McpCaller.execute_mcp_call E d (McpCaller.mkCall c tr w))
  = Raise (ExcCustom
             (mkCustomError CustomErrorCode.INTERNAL_ERROR
                (match Dict.get "message" err with
                 | Some m => m
                 | None => JStr "MCP server error"
                 end)
                (JObj err))).
Proof.
intros Hc Hs Hr Hm Hx Herr.
rewrite (@execute_replied c srv tr w d _ Hc Hs Hr Hm Hx). cbn [fst].
now apply tail_error_reply.
Qed.

(** X14: when the worker's reply carries no [error],
    [execute_mcp_call] returns what is under [result] ([None] when there
    is nothing), normalised by [_convert_to_dict]. *)
Theorem X14_execute_result_reply (c : McpCaller.t)
  (srv : SimpleThreadedMcpServer.t) (tr : option Tracer.Tracer) (w : World)
  (d r : dict) :
  McpCaller._is_connected c = true ->
  McpCaller._server c = Some srv ->
  SimpleThreadedMcpServer.is_running srv = true ->
  McpCaller.is_method "initialize" d = false ->
  worker_exchange E
    (EvWrite (SimpleThreadedMcpServer.worker srv) (JObj (outgoing c d)) :: log w)
    (SimpleThreadedMcpServer.worker srv) "30.0" = Reply (JObj r) ->
  Dict.has "error" r = false ->
  fst (McpCaller.execute_mcp_call E d (McpCaller.mkCall c tr w))
  = Ok (_convert_to_dict (get_or_null "result" r)).
Proof.
intros Hc Hs Hr Hm Hx Herr.
rewrite (@execute_replied c srv tr w d _ Hc Hs Hr Hm Hx). cbn [fst].
now apply tail_result_reply.
Qed.

End ExecuteOutcomes.

(* ================================================================= *)
(** ** The bridge: [connect] and [close] *)

Section BridgeOutcomes.
Context {RT : PyRuntime}.
Variable E : Env.

(** X9: [connect] on a bridge that has just been built, whatever the
    worker does: either it returns the handshake result, and then the
    bridge is connected, caches that result and holds the running worker,
    to which the [initialize] request and the [initialized] notification
    have been written; or it raises, and then what it raises is a
    [CustomError], the worker it launched has been stopped and forgotten,
    and the bridge is not connected. *)
Theorem X9_connect_outcome (cfg : McpCaller.McpCallerConfiguration) (w : World) :
  let n := launched w in
  let srv := SimpleThreadedMcpServer.mk (McpCaller.module_path cfg)
               (McpCaller.function_name cfg) true false n in
  match McpCaller.connect E (McpCaller.init cfg, w) with
  | (Ok info, (c, w')) =>
      c = McpCaller.mk cfg 2 true info (Some srv)
      /\ log w' = EvWrite n (McpCaller.initialized_request (McpCaller.init cfg))
                  :: handshake_log cfg n (log w)
      /\ launched w' = S n
  | (Raise e, (c, w')) =>
      (exists ce, e = ExcCustom ce)
      /\ c = McpCaller.mk cfg 2 false JNull None
      /\ log w' = EvStop n :: handshake_log cfg n (log w)
      /\ launched w' = S n
  end.
Proof. apply connect_fresh. Qed.

(** X10: when the worker answers the handshake with an error that has
    a message, [connect] raises InternalError (-32603) with the text
    "Initialize failed: " followed by that message. *)
Theorem X10_connect_initialize_failed (cfg : McpCaller.McpCallerConfiguration)
  (w : World) (v err : dict) (m : json) :
  worker_exchange E (handshake_log cfg (launched w) (log w)) (launched w) "30.0"
  = Reply (JObj v) ->
  Dict.get "error" v = Some (JObj err) ->
  Dict.get "message" err = Some m ->
  fst (McpCaller.connect E (McpCaller.init cfg, w))
  = Raise (ExcCustom
             (mkCustomError CustomErrorCode.INTERNAL_ERROR
                (JStr ("Initialize failed: " ++ py_str m)) JNull)).
Proof.
intros Hx Herr Hm. destruct w as [k l n]. unfold handshake_log in Hx.
cbn [launched log] in Hx.
unfold_bridge. cbn. rewrite Hx. cbn. unfold Dict.has. rewrite Herr. cbn.
unfold McpCaller.initialize_failed. cbn. rewrite Herr. cbn. rewrite Hm.
reflexivity.
Qed.

(** X11: [close] never raises; it stops the worker if the bridge holds
    one, and only then; a second [close] does nothing at all; and after a
    [close] every [execute_mcp_call] fails with ConnectionClosed
    (-32001) without touching the bridge or the world. *)
Theorem X11_close_idempotent (s : McpCaller.t * World) (d : dict)
  (tr : option Tracer.Tracer) :
  let s1 := snd (McpCaller.close s) in
  fst (McpCaller.close s) = Ok tt
  /\ log (snd s1)
     = match McpCaller._server (fst s) with
       | Some srv => EvStop (SimpleThreadedMcpServer.worker srv) :: log (snd s)
       | None => log (snd s)
       end
  /\ McpCaller.close s1 = (Ok tt, s1)
  /\ McpCaller.execute_mcp_call E d (McpCaller.mkCall (fst s1) tr (snd s1))
     = (Raise (ExcCustom
                 (mkCustomError CustomErrorCode.CONNECTION_CLOSED
                    (JStr "Not connected") JNull)),
        McpCaller.mkCall (fst s1) tr (snd s1)).
Proof.
destruct s as [[cfg id conn info [srv|]] [k l n]]; cbn; repeat split.
Qed.

End BridgeOutcomes.

(* ================================================================= *)
(** ** The dispatcher: notifications, and what escapes *)

Section DispatcherMore.
Context {RT : PyRuntime}.
Variable E : Env.

Import Rpc.

(** The body of [rpc_handler] for a forwarded method. *)
Lemma rpc_body_forwarded (data : json) (method : string) (f : Frame)
  (server : Schema.McpServerConfiguration) :
  validate_meta data = Ok server ->
  py_get data "method" (JStr "") = Ok (JStr method) ->
  assoc method handlers_map = Some HTrue ->
  exists t k,
    rpc_body E data f = forward E data (JStr method) server (retimed f t k).
Proof.
intros Hmeta Hmethod Hassoc.
destruct (@rpc_body_validated RT E data (JStr method) f server Hmeta Hmethod)
  as (t & k & Hbody).
exists t, k. rewrite Hbody. cbn [lookup_handler of_res]. unfold bind.
now rewrite Hassoc.
Qed.

Lemma enter_closed_log (data : json) (w : World) (t : Tracer.Tracer) (k : nat) :
  closed_log (retimed (enter E data w) t k) = EvRelease :: EvAcquire :: log w.
Proof.
destruct (enter_spec E data w) as (t0 & k0 & Henter).
unfold closed_log, retimed. now rewrite Henter.
Qed.

(** X5: a request that has passed the validation of its metadata, whose
    method is one of those forwarded to the worker and which carries no
    id, is answered with MethodNotFound (-32601) and the message "Method
    not found: " followed by the method; nothing is resolved, installed
    or launched: the log gains the two lock events only.  (The metadata
    is checked before the id: without valid metadata the answer is
    InvalidRequest, whatever the method.) *)
Theorem X5_notification_not_forwarded (data : json) (method : string)
  (w : World) (server : Schema.McpServerConfiguration) :
  validate_meta data = Ok server ->
  py_get data "method" (JStr "") = Ok (JStr method) ->
  assoc method handlers_map = Some HTrue ->
  py_in "id" data = Ok false ->
  exists response w',
    rpc_handler E data w = (Ok response, w')
    /\ response_error_code response = Some CustomErrorCode.METHOD_NOT_FOUND
    /\ response_error_message response
       = Some (JStr ("Method not found: " ++ method))
    /\ log w' = EvRelease :: EvAcquire :: log w.
Proof.
intros Hmeta Hmethod Hassoc Hid.
destruct (validate_meta_shape _ Hmeta) as [_ Hsc].
destruct (@rpc_body_forwarded data method (enter E data w) server
            Hmeta Hmethod Hassoc) as (t & k & Hbody).
unfold forward in Hbody.
rewrite (bind_returns _ _ _ (of_res_returns _ Hid)) in Hbody.
cbv beta iota in Hbody.
rewrite (bind_raises _ _ _ (eq_refl : raise _ _ = (Raise _, _))) in Hbody.
destruct (@rpc_handler_of_raise RT E data w _ _ _ Hbody Hsc)
  as (response & w' & Hrun & Hcode & Hmsg & Hlog & _).
exists response, w'. split; [exact Hrun|]. split; [exact Hcode|].
split; [exact Hmsg|]. rewrite Hlog. apply enter_closed_log.
Qed.

Lemma request_meta_raises (data : json) (e : py_exc) :
  request_meta data = Raise e ->
  validate_meta data = Raise e /\ response_server data = Raise e.
Proof.
intros H. unfold validate_meta, response_server. rewrite H.
assert (He : exists v, e = ExcOther AttributeError
                           (interp_message AttributeError v)).
{ unfold request_meta in H. destruct (truthy data); [|discriminate].
  destruct data; try (injection H as <-; eauto); try discriminate.
  cbn in H. destruct (Dict.get "params" d) as [params|]; cbn in H.
  - destruct (truthy params); [|discriminate].
    destruct params; try (injection H as <-; eauto); try discriminate.
    cbn in H. destruct (Dict.get "_meta" d0); discriminate.
  - discriminate. }
destruct He as (v & ->). now split.
Qed.

Lemma request_meta_returns (data : json) (m : option json) :
  request_meta data = Ok m -> exists sc, response_server data = Ok sc.
Proof.
intros H. unfold response_server. rewrite H.
destruct m as [meta|]; [|eauto].
unfold Schema.CustomRequestMeta.
destruct meta; eauto.
destruct (Dict.get "server" d); eauto.
destruct (Schema.validate_server j); eauto.
Qed.

(** X2: the only exception that escapes [rpc_handler] is the one the
    reading of [params._meta] raises, the [AttributeError] of a request
    or of [params] that is truthy but not a dictionary (a list of
    positional parameters, for instance): then both [except] arms fail
    on the same reading while they build the error response.  Every
    other request gets a response. *)
Theorem X2_rpc_handler_escapes (data : json) (w : World) :
  match request_meta data with
  | Raise e => fst (rpc_handler E data w) = Raise e
  | Ok _ => exists response, fst (rpc_handler E data w) = Ok response
  end.
Proof.
destruct (request_meta data) as [m|e] eqn:Hmeta.
- destruct (request_meta_returns _ Hmeta) as (sc & Hsc).
  destruct (@rpc_handler_answers RT E data w sc Hsc)
    as (response & w' & Hrun & _).
  exists response. now rewrite Hrun.
- destruct (request_meta_raises _ Hmeta) as [Hv Hsc].
  destruct (on_tracer_record_span E "inputValidation" None None
              (enter E data w)) as (sp & t & k & Hrec).
  assert (Hbody : rpc_body E data (enter E data w)
                  = (Raise e, retimed (enter E data w) t k)).
  { unfold rpc_body. rewrite (bind_returns _ _ _ Hrec).
    apply bind_raises. unfold of_res. now rewrite Hv. }
  assert (Harm : rpc_except E data e (retimed (enter E data w) t k)
                 = (Raise e, retimed (enter E data w) t k)).
  { assert (Hgen : forall c,
              generate_jsonrpc_response E data JNull (Some (to_response c))
                (retimed (enter E data w) t k)
              = (Raise e, retimed (enter E data w) t k)).
    { intros c. unfold generate_jsonrpc_response. apply bind_raises.
      unfold of_res. now rewrite Hsc. }
    destruct e; apply Hgen. }
  destruct (rpc_finally_spec (retimed (enter E data w) t k)) as (c' & Hfin).
  unfold rpc_handler, rpc_handler_frame, try_finally, try_except.
  now rewrite Hbody, Harm, Hfin.
Qed.

End DispatcherMore.

(* ================================================================= *)
(** ** The dispatcher: the shape of a response *)

Section ResponseFacts.
Context {RT : PyRuntime}.
Variable E : Env.

Import Rpc.

Lemma echo_id_eq (d base : dict) :
  echo_id (JObj d) base
  = Ok (match Dict.get "id" d with
        | Some i => Dict.set "id" i base
        | None => base
        end).
Proof.
unfold echo_id. destruct d as [|kv d]; [reflexivity|].
cbn [truthy py_in py_index]. unfold Dict.has.
now destruct (Dict.get "id" (kv :: d)).
Qed.

Lemma response_version_eq (d : dict) :
  response_version (JObj d)
  = Ok (match Dict.get "jsonrpc" d with
        | Some v => v
        | None => JStr "2.0"
        end).
Proof.
unfold response_version. destruct d as [|kv d]; [reflexivity|].
cbn [truthy py_get]. now destruct (Dict.get "jsonrpc" (kv :: d)).
Qed.

Lemma error_response_well_formed (d custom_metadata error response : dict) :
  error_response (JObj d) custom_metadata error = Ok response ->
  well_formed_response d response
  /\ Dict.has "error" response = true.
Proof.
unfold error_response. rewrite response_version_eq, echo_id_eq.
intros H. injection H as <-. unfold well_formed_response, Dict.has.
destruct (Dict.get "id" d); cbn; now repeat split.
Qed.

Lemma success_response_eq (d custom_metadata : dict) (result : json) :
  result = JNull \/ (exists r, result = JObj r) ->
  let fields := result_fields result in
  let body :=
    JObj (Dict.set "_meta"
            (JObj (Dict.update (dict_under "_meta" fields) custom_metadata))
            fields) in
  success_response (JObj d) custom_metadata result
  = Ok (match Dict.get "id" d with
        | Some i => [("jsonrpc", match Dict.get "jsonrpc" d with
                                 | Some v => v
                                 | None => JStr "2.0"
                                 end);
                     ("result", body); ("id", i)]
        | None => [("jsonrpc", match Dict.get "jsonrpc" d with
                               | Some v => v
                               | None => JStr "2.0"
                               end);
                   ("result", body)]
        end).
Proof.
intros Hres. cbv zeta. unfold success_response, result_fields.
rewrite response_version_eq.
assert (Hsplat : py_splat [] (py_or result (JObj []))
                 = Ok (Dict.update [] (match result with
                                       | JObj r => r
                                       | _ => []
                                       end))).
{ destruct Hres as [->|[r ->]]; [reflexivity|].
  unfold py_or. destruct (truthy (JObj r)) eqn:Ht; [reflexivity|].
  destruct r; [reflexivity | discriminate]. }
rewrite Hsplat, echo_id_eq. now destruct (Dict.get "id" d).
Qed.

Lemma success_response_well_formed (d custom_metadata : dict) (result : json)
  (response : dict) :
  success_response (JObj d) custom_metadata result = Ok response ->
  well_formed_response d response
  /\ Dict.has "error" response = false.
Proof.
unfold success_response. rewrite response_version_eq.
destruct (py_splat [] (py_or result (JObj []))) as [fields|e]; [|discriminate].
rewrite echo_id_eq. intros H. injection H as <-.
unfold well_formed_response, Dict.has.
destruct (Dict.get "id" d); cbn; now repeat split.
Qed.

Lemma generate_well_formed (d : dict) (result : json) (error : option dict)
  (f f' : Frame) (response : dict) :
  generate_jsonrpc_response E (JObj d) result error f = (Ok response, f') ->
  well_formed_response d response.
Proof.
unfold generate_jsonrpc_response. intros H.
apply bind_ok in H as (sc & f1 & _ & H).
apply bind_ok in H as (trace & f2 & _ & H).
destruct error as [[|x e]|]; unfold of_res in H;
  match type of H with
  | (?r, _) = _ => destruct r as [resp|err] eqn:Hr; [|discriminate]
  end; injection H as <- _;
  first [ now apply success_response_well_formed in Hr
        | now apply error_response_well_formed in Hr ].
Qed.

Lemma hoare_last {S A B : Type} (m : M S A) (k : A -> M S B)
  (Q : B -> S -> Prop) :
  (forall a, hoare (fun _ => True) (k a) Q (fun _ => True)) ->
  hoare (fun _ => True) (bind m k) Q (fun _ => True).
Proof.
intros Hk s _. unfold bind. destruct (m s) as [[a|e] s1]; [|exact I].
now apply Hk.
Qed.

Lemma generate_hoare (d : dict) (result : json) (error : option dict) :
  hoare (fun _ => True) (generate_jsonrpc_response E (JObj d) result error)
        (fun response _ => well_formed_response d response) (fun _ => True).
Proof.
intros f _.
destruct (generate_jsonrpc_response E (JObj d) result error f)
  as [[response|e] f'] eqn:H; [|exact I].
eapply generate_well_formed. exact H.
Qed.

Lemma rpc_body_well_formed (d : dict) :
  hoare (fun _ => True) (rpc_body E (JObj d))
        (fun response _ => well_formed_response d response) (fun _ => True).
Proof.
unfold rpc_body. do 4 (apply hoare_last; intros ?).
destruct a2 as [[g| |]|]; try (now intros f _).
- do 2 (apply hoare_last; intros ?). apply generate_hoare.
- unfold forward. do 4 (apply hoare_last; intros ?).
  unfold forward_call. do 5 (apply hoare_last; intros ?).
  apply generate_hoare.
Qed.

(** X3: every response [rpc_handler] returns for a dictionary request
    carries the request's [jsonrpc] version ("2.0" when the request has
    none), the request's id exactly when the request has one, and
    either a [result] or an [error], never both and never neither. *)
Theorem X3_response_well_formed (d : dict) (w : World) (response : dict) :
  fst (rpc_handler E (JObj d) w) = Ok response ->
  well_formed_response d response.
Proof.
unfold rpc_handler, rpc_handler_frame, try_finally, try_except.
pose proof (@rpc_body_well_formed d (enter E (JObj d) w) I) as Hbody.
destruct (rpc_body E (JObj d) (enter E (JObj d) w)) as [[r|e] f1].
- destruct (rpc_finally_spec f1) as (c' & ->). cbn. intros H.
  injection H as <-. exact Hbody.
- destruct (rpc_except E (JObj d) e f1) as [[r|e'] f2] eqn:Harm.
  + destruct (rpc_finally_spec f2) as (c' & ->). cbn. intros H.
    injection H as <-.
    destruct e; cbn [rpc_except] in Harm;
      eapply generate_well_formed; exact Harm.
  + destruct (rpc_finally_spec f2) as (c' & ->). discriminate.
Qed.

End ResponseFacts.

Lemma X3_response_well_formed_witness :
  exists response,
    fst (@Rpc.rpc_handler sample_runtime (sample_env silent_worker)
           (JObj [("jsonrpc", JStr "2.0"); ("id", JNum 7);
                  ("method", JStr "ping")]) empty_world) = Ok response
    /\ Dict.get "id" response = Some (JNum 7).
Proof.
eexists. split; [vm_compute; reflexivity|].
refine (proj1 (proj2 (@X3_response_well_formed sample_runtime
                        (sample_env silent_worker)
                        [("jsonrpc", JStr "2.0"); ("id", JNum 7);
                         ("method", JStr "ping")] empty_world _ _))).
vm_compute. reflexivity.
Defined.

(* ================================================================= *)
(** ** The dispatcher: local and forwarded methods *)

Section ForwardMore.
Context {RT : PyRuntime}.
Variable E : Env.

Import Rpc.

Lemma generate_success (d : dict) (result : json) (f : Frame)
  (sc : option dict) :
  response_server (JObj d) = Ok sc ->
  result = JNull \/ (exists r, result = JObj r) ->
  exists response t k meta,
    generate_jsonrpc_response E (JObj d) result None f
    = (Ok response, retimed f t k)
    /\ response_error_code response = None
    /\ Dict.get "result" response
       = Some (JObj (Dict.set "_meta" (JObj meta) (result_fields result))).
Proof.
intros Hsc Hres. unfold generate_jsonrpc_response.
rewrite (bind_returns _ _ _ (of_res_returns _ Hsc)).
destruct (on_tracer_get_trace E true f) as (trace & t & k & Htrace).
rewrite (bind_returns _ _ _ Htrace).
set (cm := _ ++ [("trace", JObj trace)]).
pose proof (@success_response_eq RT d cm result Hres) as Hs. cbv zeta in Hs.
unfold of_res. rewrite Hs.
eexists _, t, k, _. split; [reflexivity|].
unfold response_error_code. destruct (Dict.get "id" d); now split.
Qed.

Lemma valid_params (d : dict) (server : Schema.McpServerConfiguration) :
  validate_meta (JObj d) = Ok server ->
  exists p, Dict.get "params" d = Some (JObj p).
Proof.
unfold validate_meta, request_meta.
destruct (truthy (JObj d)); [|discriminate].
cbn [py_get]. destruct (Dict.get "params" d) as [params|]; [|discriminate].
destruct (truthy params) eqn:Ht; [|discriminate].
destruct params; try discriminate. eauto.
Qed.

(** X4: the three methods the outlet answers itself ([ping],
    [logging/setLevel], [notifications/initialized]), on a request with
    valid metadata: the answer is a result that consists of [_meta]
    only, and neither the resolver nor a worker is involved: the log
    gains the two lock events only and no worker is launched. *)
Theorem X4_local_methods (data : json) (method : string) (w : World)
  (server : Schema.McpServerConfiguration) :
  validate_meta data = Ok server ->
  py_get data "method" (JStr "") = Ok (JStr method) ->
  In method local_methods ->
  exists response w' meta,
    rpc_handler E data w = (Ok response, w')
    /\ response_error_code response = None
    /\ Dict.get "result" response = Some (JObj [("_meta", JObj meta)])
    /\ log w' = EvRelease :: EvAcquire :: log w
    /\ launched w' = launched w.
Proof.
intros Hmeta Hmethod Hin.
destruct (validate_meta_shape _ Hmeta) as [[d ->] Hsc].
destruct (valid_params _ Hmeta) as (p & Hp).
destruct (@rpc_body_validated RT E (JObj d) (JStr method)
            (enter E (JObj d) w) server Hmeta Hmethod) as (t & k & Hbody).
assert (Hout : exists g result,
          assoc method handlers_map = Some (Outlet g)
          /\ g (JObj d) = Ok result
          /\ (get_or_null "result" result = JNull
              \/ exists level,
                   get_or_null "result" result
                   = JObj [("_meta", JObj [("traceLevel", level)])])).
{ destruct Hin as [<-|[<-|[<-|[]]]].
  - eexists _, _. split; [reflexivity|]. split; [reflexivity|]. now left.
  - eexists _, [("result",
                   JObj [("_meta",
                          JObj [("traceLevel",
                                 match Dict.get "level" p with
                                 | Some level => level
                                 | None => JStr "info"
                                 end)])])].
    split; [reflexivity|]. cbn [py_get]. rewrite Hp. cbn [py_get].
    split; [|right; eexists; reflexivity].
    destruct (Dict.get "level" p); reflexivity.
  - eexists _, _. split; [reflexivity|]. split; [reflexivity|]. now left. }
destruct Hout as (g & result & Hassoc & Hg & Hshape).
cbn [lookup_handler of_res] in Hbody. unfold bind at 1 in Hbody.
rewrite Hassoc in Hbody. unfold of_res at 1 in Hbody.
cbv beta iota in Hbody.
match type of Hbody with
| _ = bind (on_tracer ?m) _ ?f =>
    destruct (on_tracer_record_span E "outletHandler" None None f)
      as (sp & t1 & k1 & Hrec)
end.
rewrite (bind_returns _ _ _ Hrec) in Hbody.
rewrite (bind_returns _ _ _ (of_res_returns _ Hg)) in Hbody.
assert (Hres : get_or_null "result" result = JNull
               \/ exists r, get_or_null "result" result = JObj r)
  by (destruct Hshape as [H|[level H]]; [now left | right; eauto]).
match type of Hbody with
| _ = generate_jsonrpc_response _ _ _ _ ?f =>
    destruct (@generate_success d (get_or_null "result" result) f _ Hsc Hres)
      as (response & t2 & k2 & meta & Hgen & Hcode & Hresult)
end.
rewrite Hgen in Hbody.
destruct (@rpc_handler_of_return RT E (JObj d) w _ _ Hbody)
  as (w' & Hrun & Hlog & Hlaunched).
destruct (enter_spec E (JObj d) w) as (t0 & k0 & Henter).
exists response, w'.
destruct Hshape as [H|[level H]]; rewrite H in Hresult;
  eexists; (split; [exact Hrun|]); (split; [exact Hcode|]);
  (split; [exact Hresult|]);
  rewrite Hlog, Hlaunched; unfold closed_log, retimed; rewrite Henter;
  now split.
Qed.

Lemma forward_resolver_raises (d : dict) (method : json)
  (server : Schema.McpServerConfiguration) (e : py_exc)
  (t : Tracer.Tracer) (c0 : option McpCaller.t) (k : nat) (l l1 : list event)
  (n : nat) :
  Dict.has "id" d = true ->
  PyStr.startswith (Schema.command server) "uv" = true ->
  UvHandler.parse_mcp_server_params E (Schema.args server) l = (Raise e, l1) ->
  exists t' k',
    forward E (JObj d) method server (mkFrame t c0 (mkWorld k l n))
    = (Raise e, mkFrame t' c0 (mkWorld k' l1 n)).
Proof.
intros Hid Huv Hparse. unfold forward.
assert (Hin : py_in "id" (JObj d) = Ok true) by (cbn; now rewrite Hid).
rewrite (bind_returns _ _ _ (of_res_returns _ Hin)).
cbv beta iota.
rewrite (bind_returns _ _ _ (eq_refl : ret tt _ = (Ok tt, _))).
destruct (on_tracer_record_span E "extractingServerConfig" None None
            (mkFrame t c0 (mkWorld k l n))) as (sp & t1 & k1 & Hrec).
rewrite (bind_returns _ _ _ Hrec).
exists t1, k1. apply bind_raises. unfold resolve_command. rewrite Huv.
unfold on_world, on_log, zoom, retimed.
cbn [mcp_caller world tracer log launched]. now rewrite Hparse.
Qed.

(** X6: when the argument resolver raises on a forwarded request, the
    answer is the error envelope of the formatted exception (for an
    ordinary exception: InternalError with its text as the message); the
    events between the two lock events are the resolver's own, none of
    them a launch, and no worker is created. *)
Theorem X6_resolver_failure (d : dict) (method : string) (w : World)
  (server : Schema.McpServerConfiguration) (e : py_exc) (l1 : list event) :
  validate_meta (JObj d) = Ok server ->
  Dict.get "method" d = Some (JStr method) ->
  assoc method handlers_map = Some HTrue ->
  Dict.has "id" d = true ->
  PyStr.startswith (Schema.command server) "uv" = true ->
  UvHandler.parse_mcp_server_params E (Schema.args server)
    (EvAcquire :: log w) = (Raise e, l1) ->
  exists response w',
    rpc_handler E (JObj d) w = (Ok response, w')
    /\ response_error_code response = Some (code (format_error (AnyExc e)))
    /\ response_error_message response
       = Some (message (format_error (AnyExc e)))
    /\ log w' = EvRelease :: l1
    /\ calmly (EvAcquire :: log w) l1
    /\ launched w' = launched w.
Proof.
intros Hmeta Hget Hassoc Hid Huv Hparse.
destruct (validate_meta_shape _ Hmeta) as [_ Hsc].
destruct (enter_spec E (JObj d) w) as (t0 & k0 & Henter).
assert (Hmethod : py_get (JObj d) "method" (JStr "") = Ok (JStr method))
  by (cbn; now rewrite Hget).
destruct (@rpc_body_forwarded RT E (JObj d) method (enter E (JObj d) w) server
            Hmeta Hmethod Hassoc) as (t & k & Hbody).
rewrite Henter in Hbody at 2. unfold retimed in Hbody.
cbn [mcp_caller world tracer log launched] in Hbody.
destruct (@forward_resolver_raises d (JStr method) server e t None k
            (EvAcquire :: log w) l1 (launched w) Hid Huv Hparse)
  as (t1 & k1 & Hfwd).
rewrite Hfwd in Hbody.
destruct (@rpc_handler_of_raise RT E (JObj d) w _ _ _ Hbody Hsc)
  as (response & w' & Hrun & Hcode & Hmsg & Hlog & Hlaunched).
exists response, w'. split; [exact Hrun|]. split; [exact Hcode|].
split; [exact Hmsg|]. split; [exact Hlog|]. split; [|exact Hlaunched].
pose proof (parse_calm E (Schema.args server) (EvAcquire :: log w)) as Hcalm.
now rewrite Hparse in Hcalm.
Qed.

Lemma forward_call_connected (d : dict) (method : string)
  (server : Schema.McpServerConfiguration) (uv : UvHandler.uv_params)
  (t : Tracer.Tracer) (c0 : option McpCaller.t) (k : nat) (l : list event)
  (n : nat) (v : dict) :
  let cfg := caller_config server uv in
  let srv := SimpleThreadedMcpServer.mk (McpCaller.module_path cfg)
               (McpCaller.function_name cfg) true false n in
  let notified :=
    EvWrite n (McpCaller.initialized_request (McpCaller.init cfg))
    :: handshake_log cfg n l in
  worker_exchange E (handshake_log cfg n l) n "30.0" = Reply (JObj v) ->
  Dict.has "error" v = false ->
  exists t' k',
    forward_call E (JObj d) (JStr method) server uv
      (mkFrame t c0 (mkWorld k l n))
    = (result <- on_call (McpCaller.execute_mcp_call E d) ;;
       generate_jsonrpc_response E (JObj d) result None)
        (mkFrame t'
           (Some (McpCaller.mk cfg 2 true (handshake_result v) (Some srv)))
           (mkWorld k' notified (S n))).
Proof.
intros cfg srv notified Hinit Herr. unfold forward_call.
destruct (on_tracer_record_span E "connectToServer" None None
            (mkFrame t c0 (mkWorld k l n))) as (sp & t1 & k1 & Hrec).
rewrite (bind_returns _ _ _ Hrec).
rewrite (bind_returns _ _ _ (modify_returns _ _)).
match goal with
| |- context [bind (on_caller (McpCaller.connect E)) ?kk ?f] =>
    assert (Hconn : on_caller (McpCaller.connect E) f
                    = (Ok (handshake_result v),
                       mkFrame t1
                         (Some (McpCaller.mk cfg 2 true (handshake_result v)
                                  (Some srv)))
                         (mkWorld k1 notified (S n))))
end.
{ unfold on_caller, retimed. cbn [mcp_caller world tracer log launched].
  fold cfg. now rewrite (connect_succeeds E cfg k1 l n Hinit Herr). }
rewrite (bind_returns _ _ _ Hconn).
match goal with
| |- context [bind (on_tracer ?m) ?kk ?f] =>
    destruct (on_tracer_record_span E "executeMcpCall" None
                (Some [("method", JStr method)]) f) as (sp2 & t2 & k2 & Hrec2)
end.
rewrite (bind_returns _ _ _ Hrec2).
exists t2, k2. reflexivity.
Qed.

Lemma on_call_replied (d : dict) (c : McpCaller.t)
  (srv : SimpleThreadedMcpServer.t) (t : Tracer.Tracer) (w : World) (v : json) :
  McpCaller._is_connected c = true ->
  McpCaller._server c = Some srv ->
  SimpleThreadedMcpServer.is_running srv = true ->
  McpCaller.is_method "initialize" d = false ->
  Dict.has "id" d = true ->
  let n := SimpleThreadedMcpServer.worker srv in
  let w1 := mkWorld (ticks w) (EvWrite n (JObj d) :: log w) (launched w) in
  worker_exchange E (EvWrite n (JObj d) :: log w) n "30.0" = Reply v ->
  on_call (McpCaller.execute_mcp_call E d) (mkFrame t (Some c) w)
  = (fst (execute_tail_of E (Ok v) (McpCaller.mkCall c (Some t) w1)),
     mkFrame t (Some c) w1).
Proof.
intros Hc Hs Hr Hm Hid n w1 Hx. unfold on_call. cbn [mcp_caller tracer world].
assert (Hout : outgoing c d = d) by (unfold outgoing; now rewrite Hid).
pose proof (@execute_replied RT E c srv (Some t) w d v Hc Hs Hr Hm) as H.
cbv zeta in H. rewrite Hout, Hid in H. rewrite (H Hx). reflexivity.
Qed.

Lemma rpc_body_replied (d : dict) (method : string) (w : World)
  (server : Schema.McpServerConfiguration) (uv : UvHandler.uv_params)
  (l1 : list event) (v : dict) (reply : json) :
  validate_meta (JObj d) = Ok server ->
  Dict.get "method" d = Some (JStr method) ->
  assoc method handlers_map = Some HTrue ->
  method <> "initialize" ->
  Dict.has "id" d = true ->
  PyStr.startswith (Schema.command server) "uv" = true ->
  UvHandler.parse_mcp_server_params E (Schema.args server)
    (EvAcquire :: log w) = (Ok uv, l1) ->
  let n := launched w in
  let cfg := caller_config server uv in
  let srv := SimpleThreadedMcpServer.mk (McpCaller.module_path cfg)
               (McpCaller.function_name cfg) true false n in
  let notified :=
    EvWrite n (McpCaller.initialized_request (McpCaller.init cfg))
    :: handshake_log cfg n l1 in
  worker_exchange E (handshake_log cfg n l1) n "30.0" = Reply (JObj v) ->
  Dict.has "error" v = false ->
  worker_exchange E (EvWrite n (JObj d) :: notified) n "30.0" = Reply reply ->
  exists s t k,
    rpc_body E (JObj d) (enter E (JObj d) w)
    = (result <- of_res (fst (execute_tail_of E (Ok reply) s)) ;;
       generate_jsonrpc_response E (JObj d) result None)
        (mkFrame t
           (Some (McpCaller.mk cfg 2 true (handshake_result v) (Some srv)))
           (mkWorld k (EvWrite n (JObj d) :: notified) (S n))).
Proof.
intros Hmeta Hget Hassoc Hne Hid Huv Hparse n cfg srv notified Hinit Herr Hx.
destruct (enter_spec E (JObj d) w) as (t0 & k0 & Henter).
assert (Hmethod : py_get (JObj d) "method" (JStr "") = Ok (JStr method))
  by (cbn; now rewrite Hget).
destruct (@rpc_body_forwarded RT E (JObj d) method (enter E (JObj d) w) server
            Hmeta Hmethod Hassoc) as (t & k & Hbody).
rewrite Henter in Hbody at 2. unfold retimed in Hbody.
cbn [mcp_caller world tracer log launched] in Hbody.
destruct (@forward_to_call RT E d (JStr method) server uv t None k
            (EvAcquire :: log w) l1 (launched w) Hid Huv Hparse)
  as (t1 & k1 & Hfwd).
rewrite Hfwd in Hbody.
destruct (@forward_call_connected d method server uv t1 None k1 l1
            (launched w) v Hinit Herr) as (t2 & k2 & Hcall).
rewrite Hcall in Hbody. fold n cfg srv notified in Hbody.
assert (Hm : McpCaller.is_method "initialize" d = false).
{ unfold McpCaller.is_method. rewrite Hget. now apply String.eqb_neq. }
pose proof (@on_call_replied d
              (McpCaller.mk cfg 2 true (handshake_result v) (Some srv)) srv t2
              (mkWorld k2 notified (S n)) reply eq_refl eq_refl eq_refl Hm Hid
              Hx) as Hon.
cbv zeta in Hon. cbn [ticks log launched SimpleThreadedMcpServer.worker srv] in Hon.
eexists _, t2, k2. rewrite Hbody. unfold bind at 1. rewrite Hon.
unfold bind at 1. unfold of_res. reflexivity.
Qed.

Lemma splat_spreads (result : json) :
  spreads result = true ->
  py_splat [] (py_or result (JObj [])) = Ok (result_fields result).
Proof.
unfold spreads, py_or, result_fields.
destruct result as [|b|z|s|l|r]; cbn [negb];
  try (intros H; apply negb_true_iff in H; rewrite H; reflexivity);
  try reflexivity.
intros _. destruct (truthy (JObj r)) eqn:Ht; [reflexivity|].
destruct r; [reflexivity | discriminate].
Qed.

Lemma splat_raises (result : json) :
  spreads result = false ->
  py_splat [] (py_or result (JObj []))
  = Raise (ExcOther TypeError (interp_message TypeError result)).
Proof.
unfold spreads, py_or.
destruct result as [|b|z|s|l|r]; try discriminate;
  intros H; apply negb_false_iff in H; rewrite H; reflexivity.
Qed.

(** The response builder on a result whose fields can be spread. *)
Lemma generate_spread (d : dict) (result : json) (f : Frame)
  (sc : option dict) :
  response_server (JObj d) = Ok sc ->
  spreads result = true ->
  exists response t k meta,
    generate_jsonrpc_response E (JObj d) result None f
    = (Ok response, retimed f t k)
    /\ response_error_code response = None
    /\ Dict.get "result" response
       = Some (JObj (Dict.set "_meta" (JObj meta) (result_fields result))).
Proof.
intros Hsc Hres. unfold generate_jsonrpc_response.
rewrite (bind_returns _ _ _ (of_res_returns _ Hsc)).
destruct (on_tracer_get_trace E true f) as (trace & t & k & Htrace).
rewrite (bind_returns _ _ _ Htrace).
set (cm := _ ++ [("trace", JObj trace)]).
unfold of_res, success_response.
rewrite response_version_eq, (splat_spreads _ Hres), echo_id_eq.
eexists _, t, k, _. split; [reflexivity|].
unfold response_error_code. destruct (Dict.get "id" d); now split.
Qed.

(** The response builder on a result that is neither a dictionary nor
    falsy: spreading it raises. *)
Lemma generate_splat_raises (d : dict) (result : json) (f : Frame)
  (sc : option dict) :
  response_server (JObj d) = Ok sc ->
  spreads result = false ->
  exists t k,
    generate_jsonrpc_response E (JObj d) result None f
    = (Raise (ExcOther TypeError (interp_message TypeError result)),
       retimed f t k).
Proof.
intros Hsc Hres. unfold generate_jsonrpc_response.
rewrite (bind_returns _ _ _ (of_res_returns _ Hsc)).
destruct (on_tracer_get_trace E true f) as (trace & t & k & Htrace).
rewrite (bind_returns _ _ _ Htrace).
unfold of_res, success_response.
rewrite response_version_eq, (splat_raises _ Hres).
exists t, k. reflexivity.
Qed.

(** What [rpc_handler] returns for a dictionary request carries the
    version and the id of the request. *)
Lemma handler_response_echoes (d : dict) (w w' : World) (response : dict) :
  rpc_handler E (JObj d) w = (Ok response, w') ->
  Dict.get "id" response = Dict.get "id" d.
Proof.
unfold rpc_handler, rpc_handler_frame, try_finally, try_except.
pose proof (@rpc_body_well_formed RT E d (enter E (JObj d) w) I) as Hbody.
destruct (rpc_body E (JObj d) (enter E (JObj d) w)) as [[r|e] f1].
- destruct (rpc_finally_spec f1) as (c' & ->). cbn. intros H.
  injection H as <- _. now destruct Hbody as (_ & H & _).
- destruct (rpc_except E (JObj d) e f1) as [[r|e'] f2] eqn:Harm.
  + destruct (rpc_finally_spec f2) as (c' & ->). cbn. intros H.
    injection H as <- _.
    assert (Hwf : well_formed_response d r).
    { destruct e; cbn [rpc_except] in Harm;
        eapply generate_well_formed; exact Harm. }
    now destruct Hwf as (_ & H & _).
  + destruct (rpc_finally_spec f2) as (c' & ->). discriminate.
Qed.

(** X7: the forwarded call that the worker answers.  For a request with
    valid metadata, an id, a forwarded method other than [initialize]
    and a command starting with "uv", when the resolver succeeds, the
    worker answers the handshake with a result and the request with a
    reply without [error]: let [converted] be the normalised [result] of
    that reply.  When [converted] is a dictionary or is falsy, the
    response is a result made of the fields of [converted] (none when it
    is falsy) with [_meta] set on top.  When [converted] is a list, a
    string, a number or a boolean that is not falsy, spreading it into
    the response raises [TypeError] and the response is the
    InternalError (-32603) envelope.  In both cases the response echoes
    the id, and the log shows the handshake, the notification, the
    request, then the stop of the worker and the release of the lock. *)
Theorem X7_forwarded_result (d : dict) (method : string) (w : World)
  (server : Schema.McpServerConfiguration) (uv : UvHandler.uv_params)
  (l1 : list event) (v r : dict) :
  validate_meta (JObj d) = Ok server ->
  Dict.get "method" d = Some (JStr method) ->
  assoc method handlers_map = Some HTrue ->
  method <> "initialize" ->
  Dict.has "id" d = true ->
  PyStr.startswith (Schema.command server) "uv" = true ->
  UvHandler.parse_mcp_server_params E (Schema.args server)
    (EvAcquire :: log w) = (Ok uv, l1) ->
  let n := launched w in
  let cfg := caller_config server uv in
  let notified :=
    EvWrite n (McpCaller.initialized_request (McpCaller.init cfg))
    :: handshake_log cfg n l1 in
  let converted := _convert_to_dict (get_or_null "result" r) in
  worker_exchange E (handshake_log cfg n l1) n "30.0" = Reply (JObj v) ->
  Dict.has "error" v = false ->
  worker_exchange E (EvWrite n (JObj d) :: notified) n "30.0"
  = Reply (JObj r) ->
  Dict.has "error" r = false ->
  exists response w',
    rpc_handler E (JObj d) w = (Ok response, w')
    /\ (if spreads converted then
          response_error_code response = None
          /\ exists meta,
               Dict.get "result" response
               = Some (JObj (Dict.set "_meta" (JObj meta)
                               (result_fields converted)))
        else
          response_error_code response
          = Some CustomErrorCode.INTERNAL_ERROR
          /\ response_error_message response
             = Some (JStr (interp_message TypeError converted)))
    /\ Dict.get "id" response = Dict.get "id" d
    /\ log w' = EvRelease :: EvStop n :: EvWrite n (JObj d) :: notified.
Proof.
intros Hmeta Hget Hassoc Hne Hid Huv Hparse n cfg notified converted
  Hinit Herr Hx Hrerr.
destruct (validate_meta_shape _ Hmeta) as [_ Hsc].
destruct (@rpc_body_replied d method w server uv l1 v (JObj r)
            Hmeta Hget Hassoc Hne Hid Huv Hparse Hinit Herr Hx)
  as (s & t & k & Hbody).
rewrite (@tail_result_reply RT E r s Hrerr) in Hbody.
rewrite (bind_returns _ _ _ (of_res_returns _ eq_refl)) in Hbody.
fold converted in Hbody.
destruct (spreads converted) eqn:Hspread.
- match type of Hbody with
  | _ = generate_jsonrpc_response _ _ _ _ ?f =>
      destruct (@generate_spread d converted f _ Hsc Hspread)
        as (response & t2 & k2 & meta & Hgen & Hcode & Hresult)
  end.
  rewrite Hgen in Hbody.
  destruct (@rpc_handler_of_return RT E (JObj d) w _ _ Hbody)
    as (w' & Hrun & Hlog & _).
  exists response, w'. split; [exact Hrun|].
  split; [split; [exact Hcode | now exists meta]|].
  split; [exact (@handler_response_echoes d w w' response Hrun)|].
  now rewrite Hlog.
- match type of Hbody with
  | _ = generate_jsonrpc_response _ _ _ _ ?f =>
      destruct (@generate_splat_raises d converted f _ Hsc Hspread)
        as (t2 & k2 & Hgen)
  end.
  rewrite Hgen in Hbody.
  destruct (@rpc_handler_of_raise RT E (JObj d) w _ _ _ Hbody Hsc)
    as (response & w' & Hrun & Hcode & Hmsg & Hlog & _).
  exists response, w'. split; [exact Hrun|].
  split; [split; [exact Hcode | exact Hmsg]|].
  split; [exact (@handler_response_echoes d w w' response Hrun)|].
  now rewrite Hlog.
Qed.

(** X8: the same forwarded call when the worker answers the request
    with an error dictionary: the response is the error envelope with
    code InternalError (-32603) and the worker's own message ("MCP
    server error" when it has none), and the worker is stopped before
    the lock is released. *)
Theorem X8_forwarded_error (d : dict) (method : string) (w : World)
  (server : Schema.McpServerConfiguration) (uv : UvHandler.uv_params)
  (l1 : list event) (v r err : dict) :
  validate_meta (JObj d) = Ok server ->
  Dict.get "method" d = Some (JStr method) ->
  assoc method handlers_map = Some HTrue ->
  method <> "initialize" ->
  Dict.has "id" d = true ->
  PyStr.startswith (Schema.command server) "uv" = true ->
  UvHandler.parse_mcp_server_params E (Schema.args server)
    (EvAcquire :: log w) = (Ok uv, l1) ->
  let n := launched w in
  let cfg := caller_config server uv in
  let notified :=
    EvWrite n (McpCaller.initialized_request (McpCaller.init cfg))
    :: handshake_log cfg n l1 in
  worker_exchange E (handshake_log cfg n l1) n "30.0" = Reply (JObj v) ->
  Dict.has "error" v = false ->
  worker_exchange E (EvWrite n (JObj d) :: notified) n "30.0"
  = Reply (JObj r) ->
  Dict.get "error" r = Some (JObj err) ->
  exists response w',
    rpc_handler E (JObj d) w = (Ok response, w')
    /\ response_error_code response = Some CustomErrorCode.INTERNAL_ERROR
    /\ response_error_message response
       = Some (match Dict.get "message" err with
               | Some m => m
               | None => JStr "MCP server error"
               end)
    /\ log w' = EvRelease :: EvStop n :: EvWrite n (JObj d) :: notified.
Proof.
intros Hmeta Hget Hassoc Hne Hid Huv Hparse n cfg notified
  Hinit Herr Hx Hrerr.
destruct (validate_meta_shape _ Hmeta) as [_ Hsc].
destruct (@rpc_body_replied d method w server uv l1 v (JObj r)
            Hmeta Hget Hassoc Hne Hid Huv Hparse Hinit Herr Hx)
  as (s & t & k & Hbody).
rewrite (@tail_error_reply RT E r err s Hrerr) in Hbody.
rewrite (bind_raises _ _ _ (eq_refl : of_res (Raise _) _ = (Raise _, _)))
  in Hbody.
destruct (@rpc_handler_of_raise RT E (JObj d) w _ _ _ Hbody Hsc)
  as (response & w' & Hrun & Hcode & Hmsg & Hlog & _).
exists response, w'. split; [exact Hrun|]. split; [exact Hcode|].
split; [exact Hmsg|]. now rewrite Hlog.
Qed.

End ForwardMore.

(* ================================================================= *)
(** ** The normalisation of results *)

Lemma json_induction (P : json -> Prop) :
  P JNull -> (forall b, P (JBool b)) -> (forall z, P (JNum z)) ->
  (forall s, P (JStr s)) ->
  (forall l, Forall P l -> P (JArr l)) ->
  (forall d, Forall (fun kv => P (snd kv)) d -> P (JObj d)) ->
  forall v, P v.
Proof.
intros Hn Hb Hz Hs Ha Ho. fix IH 1.
intros [|b|z|s|l|d];
  [exact Hn | apply Hb | apply Hz | apply Hs | apply Ha | apply Ho].
- induction l as [|a l IHl]; constructor; [apply IH | exact IHl].
- induction d as [|[k v] r IHr]; constructor; [apply IH | exact IHr].
Qed.

Lemma convert_no_null (v : json) : no_null_values (_convert_to_dict v) = true.
Proof.
induction v as [|b|z|s|l IH|d IH] using json_induction; try reflexivity.
- cbn. rewrite forallb_forall. intros x Hx. apply in_map_iff in Hx.
  destruct Hx as (y & <- & Hy). rewrite Forall_forall in IH. now apply IH.
- cbn. induction d as [|[k v] r IHr]; [reflexivity|].
  inversion IH as [|? ? Hv Hr]; subst. cbn in Hv.
  destruct (_convert_to_dict v) eqn:Hc; try (now apply IHr);
    cbn; rewrite (IHr Hr); rewrite ?andb_true_r; cbn in Hv; auto.
Qed.

Lemma convert_fixed (v : json) :
  no_null_values v = true -> _convert_to_dict v = v.
Proof.
induction v as [|b|z|s|l IH|d IH] using json_induction; try reflexivity.
- cbn. intros H. f_equal. rewrite forallb_forall in H.
  rewrite Forall_forall in IH.
  induction l as [|a l IHl]; [reflexivity|]. cbn. f_equal.
  + apply IH; [now left | apply H; now left].
  + apply IHl; intros x Hx; [apply IH | apply H]; now right.
- cbn. intros H. f_equal.
  induction d as [|[k v] r IHr]; [reflexivity|].
  inversion IH as [|? ? Hv Hr]; subst. cbn in Hv.
  apply andb_prop in H as [H1 H2].
  rewrite (IHr Hr H2).
  destruct v; try discriminate; try reflexivity.
  + now rewrite (Hv H1).
  + now rewrite (Hv H1).
Qed.

(** X16: in what [_convert_to_dict] returns, no dictionary holds
    [None] as a value, at any depth. *)
Theorem X16_convert_drops_null (v : json) :
  no_null_values (_convert_to_dict v) = true.
Proof. apply convert_no_null. Qed.

(** X17: [_convert_to_dict] is idempotent: converting a converted value
    changes nothing. *)
Theorem X17_convert_idempotent (v : json) :
  _convert_to_dict (_convert_to_dict v) = _convert_to_dict v.
Proof. apply convert_fixed, convert_no_null. Qed.

(* ================================================================= *)
(** ** The tracer along a run *)

Section TracerMore.
Context {RT : PyRuntime}.
Variable E : Env.

Import Tracer.

(** X18: [merge_child_trace] never raises, whatever it is given as a
    child trace: a failure inside is turned into an error span. *)
Theorem X18_merge_never_raises (base_seq parent_seq : string) (is_success : bool)
  (child_trace : json) (additional_data : option dict) (s : Tracer * nat) :
  fst (merge_child_trace E base_seq parent_seq is_success child_trace
         additional_data s) = Ok tt.
Proof.
unfold merge_child_trace, try_except at 1.
match goal with
| |- fst (match ?m s with _ => _ end) = _ => destruct (m s) as [[[]|e] s1]
end; reflexivity.
Qed.

Lemma end_running_idle (is_error : bool) (l : list TraceSpan) (k : nat) :
  running_spans l = [] -> end_running E is_error l k = (l, k).
Proof.
unfold running_spans. induction l as [|sp r IH]; [reflexivity|]. cbn.
destruct (is_running (status sp)); [discriminate|].
intros H. now rewrite (IH H).
Qed.

Lemma end_running_none (is_error : bool) (l : list TraceSpan) (k : nat) :
  running_spans (fst (end_running E is_error l k)) = [].
Proof.
unfold running_spans. revert k. induction l as [|sp r IH]; intros k; [reflexivity|].
cbn. destruct (is_running (status sp)) eqn:Hrun.
- specialize (IH (S k)). destruct (end_running E is_error r (S k)) as [r' k'].
  cbn in *. now destruct is_error.
- specialize (IH k). destruct (end_running E is_error r k) as [r' k'].
  cbn in *. now rewrite Hrun.
Qed.

(** X21: a second [get_trace] returns the same snapshot as the first
    and changes nothing: the end time is stamped once, no span is closed
    again, the clock is not read, whatever the two success flags are. *)
Theorem X21_get_trace_twice (first second : bool) (s : Tracer * nat) :
  let '(r1, s1) := get_trace E first s in
  get_trace E second s1 = (r1, s1).
Proof.
destruct s as [t k]. unfold get_trace.
pose proof (end_running_none (negb first) (spans t) k) as Hnone.
destruct (end_running E (negb first) (spans t) k) as [closed k1].
cbn [fst] in Hnone.
destruct (end_time t) as [e|]; cbn [spans end_time trace_id trace_start_time
                                     current_parent trace_additional_data];
  now rewrite (@end_running_idle (negb second) closed _ Hnone).
Qed.


(** In the order the calls are made, only the last span can be running. *)
Lemma end_last_running_settles (t : Tracer) (k : nat) :
  running_spans (removelast (spans t)) = [] ->
  running_spans (spans (fst (snd (end_last_running E (t, k))))) = [].
Proof.
unfold end_last_running.
destruct (rev (spans t)) as [|last before] eqn:Hrev.
- intros _. apply (f_equal (@rev _)) in Hrev.
  rewrite rev_involutive in Hrev. cbn in *. now rewrite Hrev.
- assert (Hsp : spans t = rev before ++ [last]).
  { rewrite <- (rev_involutive (spans t)), Hrev. reflexivity. }
  rewrite Hsp, removelast_last. intros H.
  destruct (is_running (status last)) eqn:Hrun; cbn.
  + unfold running_spans in *. rewrite filter_app, H. cbn.
    now destruct (status last).
  + unfold running_spans in *. rewrite Hsp, filter_app, H. cbn.
    now rewrite Hrun.
Qed.

Lemma record_span_spans (name : string) (parent : option string)
  (additional_data : option dict) (t : Tracer) (k : nat) :
  exists new,
    spans (fst (snd (record_span E name parent additional_data (t, k))))
    = spans (fst (snd (end_last_running E (t, k)))) ++ [new].
Proof.
destruct (end_last_running_spec E t k) as (closed & k1 & Hend & _).
unfold record_span, bind. rewrite Hend. cbn. eexists. reflexivity.
Qed.

Lemma own_call_settles (o : TracerRun.op) (s : Tracer * nat) :
  is_own_call o = true ->
  running_spans (removelast (spans (fst s))) = [] ->
  running_spans (removelast (spans (fst (TracerRun.step E o s)))) = [].
Proof.
destruct s as [t k]. destruct o as [name parent ad| |ok]; [|discriminate|];
  intros _ H; cbn [TracerRun.step fst] in *.
- destruct (record_span_spans name parent ad t k) as (new & ->).
  rewrite removelast_last. now apply end_last_running_settles.
- destruct (get_trace_spec E ok t k) as (closed & k' & finish & -> & ->).
  cbn. pose proof (end_running_none (negb ok) (spans t) k) as Hn.
  destruct (fst (end_running E (negb ok) (spans t) k)) as [|sp r] using rev_ind;
    [reflexivity|].
  rewrite removelast_last. unfold running_spans in *.
  rewrite filter_app in Hn. now apply app_eq_nil in Hn.
Qed.

Lemma running_at_most_last (l : list TraceSpan) :
  running_spans (removelast l) = [] -> (length (running_spans l) <= 1)%nat.
Proof.
destruct l as [|sp r] using rev_ind; [cbn; lia|].
rewrite removelast_last. unfold running_spans. intros H.
rewrite filter_app, H. cbn. destruct (is_running (status sp)); cbn; lia.
Qed.

Lemma own_run_settles (ops : list TracerRun.op) (s : Tracer * nat) :
  forallb is_own_call ops = true ->
  running_spans (removelast (spans (fst s))) = [] ->
  running_spans (removelast (spans (fst (TracerRun.run E ops s)))) = [].
Proof.
revert s. induction ops as [|o r IH]; intros s Hops Hs; [exact Hs|].
cbn in Hops. apply andb_prop in Hops as [Ho Hr].
unfold TracerRun.run in *. cbn. apply IH; [exact Hr|].
now apply own_call_settles.
Qed.

(** X22: on a tracer that is only used through [record_span] and
    [get_trace], at most one span is running at any time, and it is the
    last one. *)
Theorem X22_one_running_span (trace_id : string) (parent : option string)
  (additional_data : option dict) (k : nat) (ops : list TracerRun.op) :
  forallb is_own_call ops = true ->
  let l := spans (fst (TracerRun.run E ops
                         (Tracer.init E trace_id parent additional_data k))) in
  (length (running_spans l) <= 1)%nat
  /\ running_spans (removelast l) = [].
Proof.
intros Hops. cbv zeta.
assert (H : running_spans
              (removelast
                 (spans (fst (TracerRun.run E ops
                                (Tracer.init E trace_id parent additional_data
                                   k))))) = [])
  by (now apply own_run_settles).
split; [now apply running_at_most_last | exact H].
Qed.


Lemma merge_bare_spans (base_seq parent_seq : string) (ok : bool)
  (additional_data : dict) (names : list string) (t : Tracer) (k : nat) :
  let st := if ok then st_success else st_error in
  _merge_spans_array E (map bare_span names) base_seq parent_seq
    (status_str st) additional_data (t, k)
  = (Ok tt,
     (set_spans (spans t ++ merged_bare E base_seq parent_seq st
                              additional_data k names) t,
      (k + length names)%nat)).
Proof.
cbv zeta. revert t k. induction names as [|name r IH]; intros t k.
- cbn. rewrite app_nil_r, Nat.add_0_r. now destruct t.
- cbn [map _merge_spans_array bare_span merged_bare length].
  unfold bind at 1. unfold try_except.
  assert (Hone : (sp <- merged_span E [("seq", JStr name)] base_seq parent_seq
                          (status_str (if ok then st_success else st_error))
                          additional_data ;;
                  append_span sp) (t, k)
                 = (Ok tt,
                    (set_spans
                       (spans t ++
                        [mkSpan (base_seq ++ "." ++ name)%string
                           (Some parent_seq) (clock E k) None
                           (if ok then st_success else st_error) None
                           (Some additional_data) false]) t, S k))).
  { destruct ok; reflexivity. }
  rewrite Hone. rewrite IH. cbn [spans set_spans].
  rewrite <- app_assoc. cbn [app].
  replace (S k + length r)%nat with (k + S (length r))%nat by lia.
  now destruct t.
Qed.

(** X19: merging a list of n child spans that carry a name only
    appends n spans, in order: the i-th has the sequence
    [base_seq.name_i], the given parent, the status that [is_success]
    says, the additional data, no duration, the flag [is_valid] off, and
    the i-th clock reading as its start. *)
Theorem X19_merge_span_list (base_seq parent_seq : string) (is_success : bool)
  (names : list string) (additional_data : option dict) (t : Tracer) (k : nat) :
  let st := if is_success then st_success else st_error in
  merge_child_trace E base_seq parent_seq is_success
    (JArr (map bare_span names)) additional_data (t, k)
  = (Ok tt,
     (set_spans (spans t ++ merged_bare E base_seq parent_seq st
                              (or_empty additional_data) k names) t,
      (k + length names)%nat)).
Proof.
cbv zeta. unfold merge_child_trace, try_except, or_empty.
now rewrite merge_bare_spans.
Qed.

(** X20: a child trace that is neither a list nor a dictionary with a
    list under ["spans"] is recorded as one span of duration 0, flagged
    invalid, whose sequence ends in the child's [trace_id], else its
    [seq], else "unknown_span", and whose data keeps the child trace
    under ["child_trace"]. *)
Theorem X20_merge_fallback (base_seq parent_seq : string) (is_success : bool)
  (child_trace : json) (additional_data : option dict) (t : Tracer) (k : nat) :
  no_span_list child_trace = true ->
  merge_child_trace E base_seq parent_seq is_success child_trace
    additional_data (t, k)
  = (Ok tt,
     (set_spans
        (spans t ++
         [mkSpan (base_seq ++ "." ++
                  py_str (span_label child_trace "trace_id" "seq"
                            "unknown_span"))%string
            (Some parent_seq) (clock E k) (Some 0)
            (if is_success then st_success else st_error) None
            (Some (Dict.set "child_trace" child_trace
                     (or_empty additional_data)))
            false]) t,
      S k)).
Proof.
unfold no_span_list, merge_child_trace, or_empty.
destruct child_trace as [|b|z|s|l|d]; try discriminate; try reflexivity.
destruct (spans_of d); [discriminate|]. reflexivity.
Qed.

Section Timing.
Hypothesis Hclock : monotone_clock E.

Lemma well_timed_later (k k' : nat) (sp : TraceSpan) :
  (k <= k')%nat -> well_timed E k sp -> well_timed E k' sp.
Proof.
intros Hk [(j & Hj & Hstart) Hd]. split; [|exact Hd].
exists j. split; [lia | exact Hstart].
Qed.

Lemma ended_well_timed (k : nat) (sp : TraceSpan) (is_error : bool) :
  well_timed E k sp ->
  well_timed E (S k) (_end_previous_span (clock E k) sp is_error).
Proof.
intros [(j & Hj & Hstart) _]. split; cbn.
- exists j. split; [lia | exact Hstart].
- intros d Hd. injection Hd as <-. rewrite Hstart.
  assert (clock E j <= clock E k) by (apply Hclock; lia). lia.
Qed.

Lemma end_running_well_timed (is_error : bool) (l : list TraceSpan) (k : nat) :
  Forall (well_timed E k) l ->
  Forall (well_timed E (snd (end_running E is_error l k)))
         (fst (end_running E is_error l k))
  /\ (k <= snd (end_running E is_error l k))%nat.
Proof.
revert k. induction l as [|sp r IH]; intros k Hl; cbn.
- split; [constructor | lia].
- inversion Hl as [|? ? Hsp Hr]; subst.
  destruct (is_running (status sp)).
  + assert (Hr' : Forall (well_timed E (S k)) r).
    { eapply Forall_impl; [|exact Hr]. intros a. apply well_timed_later. lia. }
    specialize (IH (S k) Hr').
    destruct (end_running E is_error r (S k)) as [r' k']. cbn in *.
    destruct IH as [IH1 IH2]. split; [|lia].
    constructor; [|exact IH1].
    apply well_timed_later with (k := S k); [exact IH2|].
    now apply ended_well_timed.
  + specialize (IH k Hr).
    destruct (end_running E is_error r k) as [r' k']. cbn in *.
    destruct IH as [IH1 IH2]. split; [|exact IH2].
    constructor; [|exact IH1].
    now apply well_timed_later with (k := k).
Qed.

Lemma own_call_well_timed (o : TracerRun.op) (s : Tracer * nat) :
  is_own_call o = true ->
  Forall (well_timed E (snd s)) (spans (fst s)) ->
  Forall (well_timed E (snd (TracerRun.step E o s)))
         (spans (fst (TracerRun.step E o s))).
Proof.
destruct s as [t k]. destruct o as [name parent ad| |ok]; [|discriminate|];
  intros _ H; cbn [TracerRun.step fst snd] in *.
- destruct (record_span_spec E name parent ad t k) as (closed & k1 & Hrec & Hcl).
  cbv zeta in Hrec. rewrite Hrec. cbn.
  apply Forall_app. split.
  + inversion Hcl as [Hidle Hc Hk|init last Hold Hrun Hc Hk]; subst.
    * eapply Forall_impl; [|exact H]. intros a. apply well_timed_later. lia.
    * rewrite Hold in H. apply Forall_app in H as [Hinit Hlast].
      inversion Hlast as [|? ? Hl _]; subst.
      apply Forall_app. split.
      -- eapply Forall_impl; [|exact Hinit]. intros a.
         apply well_timed_later. lia.
      -- constructor; [|constructor].
         apply well_timed_later with (k := S k); [lia|].
         exact (ended_well_timed false Hl).
  + constructor; [|constructor]. split; cbn; [|discriminate].
    exists k1. split; [lia | reflexivity].
- unfold get_trace.
  destruct (end_running_well_timed (negb ok) H) as [H1 H2].
  destruct (end_running E (negb ok) (spans t) k) as [closed k1]. cbn in *.
  destruct (end_time t); cbn; [exact H1|].
  eapply Forall_impl; [|exact H1]. intros a. apply well_timed_later. lia.
Qed.

Lemma own_run_well_timed (ops : list TracerRun.op) (s : Tracer * nat) :
  forallb is_own_call ops = true ->
  Forall (well_timed E (snd s)) (spans (fst s)) ->
  Forall (well_timed E (snd (TracerRun.run E ops s)))
         (spans (fst (TracerRun.run E ops s))).
Proof.
revert s. induction ops as [|o r IH]; intros s Hops Hs; [exact Hs|].
cbn in Hops. apply andb_prop in Hops as [Ho Hr].
unfold TracerRun.run in *. cbn. apply IH; [exact Hr|].
now apply own_call_well_timed.
Qed.

End Timing.

End TracerMore.

(** X23: when the clock never goes back, no span of a tracer that is
    only used through [record_span] and [get_trace] has a negative
    duration. *)
Theorem X23_durations_nonnegative {RT : PyRuntime} (E : Env) (trace_id : string)
  (parent : option string) (additional_data : option dict) (k : nat)
  (ops : list TracerRun.op) :
  monotone_clock E ->
  forallb is_own_call ops = true ->
  Forall (fun sp => forall d, Tracer.duration sp = Some d -> 0 <= d)
         (Tracer.spans
            (fst (TracerRun.run E ops
                    (Tracer.init E trace_id parent additional_data k)))).
Proof.
intros Hclock Hops.
assert (H : Forall (well_timed E (snd (Tracer.init E trace_id parent
                                         additional_data k)))
                   (Tracer.spans (fst (Tracer.init E trace_id parent
                                         additional_data k))))
  by constructor.
pose proof (@own_run_well_timed RT E Hclock ops _ Hops H) as Hrun.
eapply Forall_impl; [|exact Hrun]. now intros sp [_ Hd].
Qed.

Lemma X23_durations_nonnegative_witness :
  let E := sample_env silent_worker in
  let ops := [TracerRun.OpRecord "a" None None;
              TracerRun.OpRecord "b" None None;
              TracerRun.OpGetTrace true] in
  monotone_clock E
  /\ forallb is_own_call ops = true
  /\ Forall (fun sp => forall d, Tracer.duration sp = Some d -> 0 <= d)
       (Tracer.spans
          (fst (@TracerRun.run sample_runtime E ops
                  (Tracer.init E "t" None None 0)))).
Proof.
cbv zeta.
assert (Hclock : monotone_clock (sample_env silent_worker))
  by (intros i j Hij; unfold sample_env; cbn [clock]; lia).
split; [exact Hclock|]. split; [reflexivity|].
apply (@X23_durations_nonnegative sample_runtime (sample_env silent_worker)
         "t" None None 0%nat _ Hclock). reflexivity.
Defined.


(* ================================================================= *)
(** ** The argument resolver *)

Lemma has_char_split_first (c : ascii) (s : string) :
  PyStr.has_char c (fst (PyStr.split_first c s)) = false
  /\ (snd (PyStr.split_first c s) = None -> PyStr.split_first c s = (s, None)).
Proof.
induction s as [|a s [IH1 IH2]]; cbn; [now split|].
destruct (Ascii.eqb a c) eqn:Hac; cbn; [split; [reflexivity | discriminate]|].
destruct (PyStr.split_first c s) as [h t]. cbn in *. rewrite Hac.
split; [exact IH1|]. intros ->. specialize (IH2 eq_refl). congruence.
Qed.

Lemma split_first_absent (c : ascii) (s : string) :
  PyStr.split_first c s = (s, None) -> PyStr.has_char c s = false.
Proof.
intros H. pose proof (has_char_split_first c s) as [H1 _].
now rewrite H in H1.
Qed.

Section ScanFacts.
Import UvHandler.

Lemma scan_bare_colon_free (st : scan_state) (arg : string) :
  colon_free st -> colon_free (scan_bare st arg).
Proof.
unfold scan_bare, colon_free. intros H.
destruct (no_package st); [|exact H].
pose proof (has_char_split_first ":" arg) as [H1 H2].
destruct (PyStr.split_first ":" arg) as [p [e|]]; cbn in *; [exact H1|].
specialize (H2 eq_refl). injection H2 as ->. exact H1.
Qed.

(** A property of the state that every option keeps and every bare token
    keeps holds after the scan. *)
Lemma scan_invariant (P : scan_state -> Prop) (args : list string) :
  (forall st arg,
     In arg args -> PyStr.startswith arg "--" = false ->
     P st -> P (scan_bare st arg)) ->
  (forall st pn ep sp wd iu ex,
     P st -> pn = package_name st -> ep = entry_point st ->
     P (mkScan pn ep sp wd iu ex)) ->
  forall st, P st -> P (scan st args).
Proof.
intros Hbare Hopt.
assert (H : forall n l, (length l <= n)%nat -> incl l args ->
                        forall st, P st -> P (scan st l)).
{ induction n as [|n IH]; intros [|arg rest] Hlen Hin st Hst; cbn in Hlen;
    try exact Hst; try lia.
  assert (Harg : In arg args) by (apply Hin; now left).
  assert (Hrest : incl rest args) by (intros x Hx; apply Hin; now right).
  cbn [scan]. destruct rest as [|v rest'].
  - destruct (PyStr.startswith arg "--") eqn:Hd; [exact Hst | now apply Hbare].
  - assert (Hrest' : incl rest' args)
      by (intros x Hx; apply Hrest; now right).
    cbn in Hlen.
    destruct (String.eqb arg "--from");
      [apply IH; [lia | exact Hrest' | eapply Hopt; [exact Hst | reflexivity | reflexivity]]|].
    destruct (String.eqb arg "--with");
      [apply IH; [lia | exact Hrest' | eapply Hopt; [exact Hst | reflexivity | reflexivity]]|].
    destruct (String.eqb arg "--index-url");
      [apply IH; [lia | exact Hrest' | eapply Hopt; [exact Hst | reflexivity | reflexivity]]|].
    destruct (String.eqb arg "--extra-index-url");
      [apply IH; [lia | exact Hrest' | eapply Hopt; [exact Hst | reflexivity | reflexivity]]|].
    destruct (PyStr.startswith arg "--") eqn:Hd.
    + destruct (negb (PyStr.startswith v "--"));
        apply IH; try exact Hst; try assumption; cbn; lia.
    + apply IH; [cbn; lia | exact Hrest | now apply Hbare]. }
intros st. apply (H (length args)); [lia | apply incl_refl].
Qed.

Lemma scan_colon_free (args : list string) (st : scan_state) :
  colon_free st -> colon_free (scan st args).
Proof.
apply scan_invariant.
- intros st0 arg _ _. apply scan_bare_colon_free.
- intros st0 pn ep sp wd iu ex H -> _. exact H.
Qed.

(** Once a package is named, the scan keeps it and its entry point. *)
Lemma scan_sticky (args : list string) (st : scan_state) :
  no_package st = false ->
  package_name (scan st args) = package_name st
  /\ entry_point (scan st args) = entry_point st.
Proof.
intros Hst.
assert (H : no_package (scan st args) = false
            /\ package_name (scan st args) = package_name st
            /\ entry_point (scan st args) = entry_point st).
{ revert Hst.
  pose (P := fun s => no_package s = false
                      /\ package_name s = package_name st
                      /\ entry_point s = entry_point st).
  intros Hst. change (P (scan st args)). apply scan_invariant.
  - intros s arg _ _ (H1 & H2 & H3). unfold P, scan_bare. now rewrite H1.
  - intros s pn ep sp wd iu ex (H1 & H2 & H3) -> ->. unfold P, no_package in *.
    cbn. now repeat split.
  - now repeat split. }
now destruct H as (_ & H2 & H3).
Qed.


(** Options alone name no package. *)
Lemma scan_options_only (args : list string) (st : scan_state) :
  Forall (fun a => PyStr.startswith a "--" = true) args ->
  package_name (scan st args) = package_name st.
Proof.
intros Hall.
pose (P := fun s => package_name s = package_name st).
change (P (scan st args)). apply scan_invariant.
- intros s arg Hin Hbare _. rewrite Forall_forall in Hall.
  specialize (Hall arg Hin). congruence.
- intros s pn ep sp wd iu ex H -> _. exact H.
- reflexivity.
Qed.

Lemma not_option (a name : string) :
  PyStr.startswith a "--" = false ->
  PyStr.startswith name "--" = true -> String.eqb a name = false.
Proof.
intros Ha Hn. destruct (String.eqb a name) eqn:H; [|reflexivity].
apply String.eqb_eq in H. congruence.
Qed.

(** X24: when the first argument is not an option and names a package
    (the text before its first colon is not empty), it decides the
    package and the entry point: every later bare token is ignored. *)
Theorem X24_scan_first_token (a : string) (rest : list string) :
  PyStr.startswith a "--" = false ->
  fst (PyStr.split_first ":" a) <> "" ->
  package_name (scan scan_init (a :: rest))
  = Some (fst (PyStr.split_first ":" a))
  /\ entry_point (scan scan_init (a :: rest))
     = snd (PyStr.split_first ":" a).
Proof.
intros Ha Hne.
assert (Hbare : package_name (scan_bare scan_init a)
                = Some (fst (PyStr.split_first ":" a))
                /\ entry_point (scan_bare scan_init a)
                   = snd (PyStr.split_first ":" a)).
{ unfold scan_bare. cbn [no_package scan_init package_name].
  pose proof (has_char_split_first ":" a) as [_ H2].
  destruct (PyStr.split_first ":" a) as [p [e|]]; cbn in *; [now split|].
  specialize (H2 eq_refl). injection H2 as ->. now split. }
destruct Hbare as [Hp He].
cbn [scan]. destruct rest as [|v rest'].
- rewrite Ha. now split.
- rewrite !(@not_option a _ Ha) by reflexivity. rewrite Ha.
  destruct (@scan_sticky (v :: rest') (scan_bare scan_init a)) as [H1 H2].
  + unfold no_package. rewrite Hp. now apply String.eqb_neq.
  + rewrite H1, H2. now split.
Qed.

Lemma X24_scan_first_token_witness :
  package_name (scan scan_init ["pkg:mod:fn"; "other"; "--from"; "src"])
  = Some "pkg"
  /\ entry_point (scan scan_init ["pkg:mod:fn"; "other"; "--from"; "src"])
     = Some "mod:fn".
Proof.
apply (@X24_scan_first_token "pkg:mod:fn" ["other"; "--from"; "src"]).
- reflexivity.
- discriminate.
Defined.

End ScanFacts.

Lemma replace_dash_colon_free (s : string) :
  PyStr.has_char ":" s = false ->
  PyStr.has_char ":" (PyStr.replace s "-" "_") = false.
Proof.
unfold PyStr.replace. induction s as [|a s IH]; [reflexivity|].
cbn [PyStr.has_char]. destruct (Ascii.eqb a ":") eqn:Ha; [discriminate|].
intros Hs. cbn [PyStr.replace_go String.prefix].
destruct (Ascii.ascii_dec "-" a) as [<-|Hne].
- cbn. assert (Hp : String.prefix "" s = true) by (now destruct s).
  rewrite Hp. cbn. now apply IH.
- cbn [PyStr.has_char]. rewrite Ha. now apply IH.
Qed.

Lemma split_colon_main (m : string) :
  PyStr.has_char ":" m = false ->
  PyStr.split ":" (m ++ ":main") = [m; "main"].
Proof.
induction m as [|a m IH]; [reflexivity|].
cbn [PyStr.has_char]. destruct (Ascii.eqb a ":") eqn:Ha; [discriminate|].
intros Hm. cbn [append PyStr.split]. rewrite Ha. now rewrite (IH Hm).
Qed.

Section ResolveFacts.
Context {RT : PyRuntime}.
Import UvHandler.

Lemma resolve_default (pkg : string) (entry : option string)
  (entry_points console_scripts : json) :
  PyStr.has_char ":" pkg = false ->
  nonempty entry = None ->
  py_get entry_points "console_scripts" (JObj []) = Ok console_scripts ->
  truthy console_scripts = false ->
  resolve_entry_point pkg entry entry_points
  = Ok (PyStr.replace pkg "-" "_", "main").
Proof.
intros Hpkg Hentry Hcs Hfalsy. unfold resolve_entry_point.
rewrite Hcs, Hfalsy.
rewrite (split_colon_main _ (replace_dash_colon_free _ Hpkg)).
destruct entry as [e|]; [|reflexivity].
cbn in Hentry. destruct (String.eqb e ""); [reflexivity | discriminate].
Qed.

(** X25: when the arguments give no entry point and the package
    declares no console script, the target is the function [main] of the
    module named after the package, with every "-" replaced by "_".  The
    unpacking of ["module:main"] cannot fail there, because the package
    name that the scan extracts never holds a colon. *)
Theorem X25_default_entry_point (args : list string) (pkg : string)
  (entry_points console_scripts : json) :
  let st := scan scan_init args in
  package_name st = Some pkg ->
  nonempty (entry_point st) = None ->
  py_get entry_points "console_scripts" (JObj []) = Ok console_scripts ->
  truthy console_scripts = false ->
  resolve_entry_point pkg (entry_point st) entry_points
  = Ok (PyStr.replace pkg "-" "_", "main").
Proof.
cbv zeta. intros Hpkg Hentry Hcs Hfalsy.
apply resolve_default with (console_scripts := console_scripts);
  try assumption.
pose proof (@scan_colon_free args scan_init I) as H.
unfold colon_free in H. now rewrite Hpkg in H.
Qed.

End ResolveFacts.

Lemma X25_default_entry_point_witness :
  @UvHandler.resolve_entry_point sample_runtime "my-server"
    (UvHandler.entry_point (UvHandler.scan UvHandler.scan_init ["--from"; "git+https://x"; "my-server"]))
    (JObj [])
  = Ok ("my_server", "main").
Proof.
apply (@X25_default_entry_point sample_runtime
         ["--from"; "git+https://x"; "my-server"] "my-server" (JObj [])
         (JObj []));
  reflexivity.
Defined.


Section ParseFailures.
Context {RT : PyRuntime}.
Variable E : Env.
Import UvHandler.

(** X26: an argument list in which every token starts with "--" names
    no package: the resolver raises [ValueError] "No package name found
    in arguments" before any command is run. *)
Theorem X26_parse_no_package (args : list string) (l : list event)
  (cache_dir : string) :
  Forall (fun a => PyStr.startswith a "--" = true) args ->
  setup_uv_environment E (EvResolve (Some args) :: l) = Ok cache_dir ->
  parse_mcp_server_params E (Some args) l
  = (Raise (ExcOther ValueError "No package name found in arguments"),
     EvResolve (Some args) :: l).
Proof.
intros Hall Hsetup. unfold parse_mcp_server_params.
unfold bind at 1. unfold record_event, modify. unfold bind at 1.
rewrite Hsetup. rewrite (scan_options_only scan_init Hall). reflexivity.
Qed.

(** X27: when the package is not installed and [uv pip install] exits
    with a non-zero code, the resolver raises [RuntimeError] "uv install
    failed: " followed by the standard error of [uv], and runs no other
    command. *)
Theorem X27_parse_install_failure (args : list string) (l : list event)
  (cache_dir pkg : string) (rc : Z) (out : option json) (err : string) :
  let st := scan scan_init args in
  let started := EvResolve (Some args) :: l in
  let cmd := uv_add_cmd cache_dir st pkg in
  setup_uv_environment E started = Ok cache_dir ->
  nonempty (package_name st) = Some pkg ->
  is_package_installed E started pkg = Ok false ->
  subprocess_run E (EvRun cmd :: started) cmd = Exited rc out err ->
  rc <> 0 ->
  parse_mcp_server_params E (Some args) l
  = (Raise (ExcOther RuntimeError ("uv install failed: " ++ err)),
     EvRun cmd :: started).
Proof.
cbv zeta. intros Hsetup Hpkg Hinst Hrun Hrc. apply Z.eqb_neq in Hrc.
unfold parse_mcp_server_params, install_phase, install_package,
  record_event, bind, modify, gets, raise, ret.
rewrite Hsetup, Hpkg, Hinst, Hrun, Hrc. reflexivity.
Qed.

End ParseFailures.

Lemma X26_parse_no_package_witness :
  @UvHandler.parse_mcp_server_params sample_runtime (sample_env silent_worker)
    (Some ["--from"; "--index-url"; "--verbose"]) []
  = (Raise (ExcOther ValueError "No package name found in arguments"),
     [EvResolve (Some ["--from"; "--index-url"; "--verbose"])]).
Proof.
apply (@X26_parse_no_package sample_runtime (sample_env silent_worker)
         ["--from"; "--index-url"; "--verbose"] [] "/mnt/cache").
- repeat constructor.
- reflexivity.
Defined.


(* ================================================================= *)
(** ** The search path of [setup_uv_environment] *)

Section SetupFacts.
Import UvSetup.

Lemma existsb_eqb_In (p : string) (l : list string) :
  existsb (String.eqb p) l = true <-> In p l.
Proof.
rewrite existsb_exists. split.
- intros (x & Hx & Heq). apply String.eqb_eq in Heq. now subst.
- intros H. exists p. split; [exact H | apply String.eqb_refl].
Qed.

Lemma dedup_In (seen l : list string) (p : string) :
  In p (dedup seen l) <-> In p l /\ p <> "" /\ ~ In p seen.
Proof.
revert seen. induction l as [|a r IH]; intros seen; cbn; [tauto|].
destruct (String.eqb a "") eqn:Ha; cbn.
- apply String.eqb_eq in Ha. subst a. rewrite IH. intuition congruence.
- apply String.eqb_neq in Ha.
  destruct (existsb (String.eqb a) seen) eqn:Hs; cbn.
  + apply existsb_eqb_In in Hs. rewrite IH. intuition congruence.
  + assert (Hn : ~ In a seen).
    { intros Hin. apply existsb_eqb_In in Hin. congruence. }
    rewrite IH. cbn. split.
    * intros [<-|(H1 & H2 & H3)]; [now auto|]. intuition.
    * intros ([<-|H1] & H2 & H3); [now left|].
      destruct (string_dec a p) as [<-|Hne]; [now left|].
      right. intuition.
Qed.

Lemma dedup_NoDup (seen l : list string) : NoDup (dedup seen l).
Proof.
revert seen. induction l as [|a r IH]; intros seen; cbn; [constructor|].
destruct (negb (String.eqb a "") && negb (existsb (String.eqb a) seen));
  [|apply IH].
constructor; [|apply IH].
rewrite dedup_In. intros (_ & _ & H). apply H. now left.
Qed.

Lemma path_join_nonempty (a b : string) : b <> "" -> path_join a b <> "".
Proof.
intros Hb. unfold path_join.
destruct (PyStr.startswith b "/"); [exact Hb|].
destruct (String.eqb a "" || endswith a "/").
- destruct a; cbn; [exact Hb | discriminate].
- destruct a; cbn; discriminate.
Qed.

(** X28: the search path that [setup_uv_environment] exports starts
    with the UV installation directory, holds no empty entry and no
    entry twice, and holds exactly the non-empty candidates (the
    installation directory, the site packages, the user site, [sys.path]
    and the previous [PYTHONPATH]). *)
Theorem X28_python_paths (cache_dir python_version : string)
  (site_packages : list string + string) (user_site : string)
  (sys_path : list string) (existing_path : string) :
  let dir := uv_install_dir cache_dir python_version in
  let paths := python_paths cache_dir python_version site_packages user_site
                 sys_path existing_path in
  hd_error paths = Some dir
  /\ NoDup paths
  /\ ~ In "" paths
  /\ forall p, In p paths <->
               p <> "" /\ In p (candidate_paths dir site_packages user_site
                                  sys_path existing_path).
Proof.
cbv zeta. unfold python_paths.
assert (Hdir : uv_install_dir cache_dir python_version <> "")
  by (apply path_join_nonempty; discriminate).
repeat split.
- unfold candidate_paths. cbn [app dedup existsb negb andb].
  apply String.eqb_neq in Hdir. now rewrite Hdir.
- apply dedup_NoDup.
- rewrite dedup_In. intros (_ & H & _). now apply H.
- rewrite dedup_In in H. tauto.
- rewrite dedup_In in H. tauto.
- intros [H1 H2]. rewrite dedup_In. cbn. tauto.
Qed.

End SetupFacts.


(* ================================================================= *)
(** ** The server configuration and the error envelope *)

Section SchemaFacts.
Context {RT : PyRuntime}.
Import Schema.

Lemma list_of_str_map (l : list string) : list_of_str (map JStr l) = Some l.
Proof. induction l as [|s r IH]; cbn; [reflexivity | now rewrite IH]. Qed.

Lemma dict_of_str_map (e : list (string * string)) :
  dict_of_str (map (fun kv => (fst kv, JStr (snd kv))) e) = Some e.
Proof.
induction e as [|[k s] r IH]; cbn; [reflexivity | now rewrite IH].
Qed.

Lemma literal_some (lit : string) (o : option json) (s : string) :
  literal lit o = Some s -> s = lit.
Proof.
unfold literal. destruct o as [[| | |x| |]|]; try discriminate.
- destruct (String.eqb x lit); [|discriminate]. now intros [= <-].
- now intros [= <-].
Qed.

(** What validation leaves in the fields that have a fixed value or
    several admissible types. *)
Lemma validate_server_fields (v : json) (cfg : McpServerConfiguration) :
  validate_server v = Some cfg ->
  jsonrpc cfg = "2.0" /\ type cfg = "stdio"
  /\ (stderr cfg = JNull \/ (exists s, stderr cfg = JStr s)
      \/ exists z, stderr cfg = JNum z).
Proof.
destruct v as [| | | | |d]; try discriminate.
unfold validate_server.
destruct (_ || _); [discriminate|].
repeat match goal with
       | |- match ?x with Some _ => _ | None => _ end = Some _ -> _ =>
           let H := fresh "Hfield" in destruct x eqn:H; [|discriminate]
       end.
intros [= <-]. cbn.
apply literal_some in Hfield0, Hfield1. subst.
split; [reflexivity|]. split; [reflexivity|].
revert Hfield5.
destruct (Dict.get "stderr" d) as [[| | | | |]|];
  try destruct (coerce_int _); intros [= <-]; eauto.
Qed.

(** X29: the dump of a validated server configuration, which every
    response echoes under [_meta.server], validates again, to the same
    configuration. *)
Theorem X29_model_dump_validates (v : json) (cfg : McpServerConfiguration) :
  validate_server v = Some cfg ->
  validate_server (JObj (model_dump cfg)) = Some cfg.
Proof.
intros H. destruct (validate_server_fields _ H) as (Hj & Ht & Hse).
destruct cfg as [pv j t c a w se e ver]. cbn in Hj, Ht, Hse. subst j t.
unfold validate_server, model_dump. cbn.
assert (Ha : match match a with Some l => JArr (map JStr l) | None => JNull end
             with
             | JNull => Some None
             | JArr l => match list_of_str l with
                         | Some l' => Some (Some l')
                         | None => None
                         end
             | _ => None
             end = Some a)
  by (destruct a; [now rewrite list_of_str_map | reflexivity]).
assert (He : match match e with
                   | Some e0 => JObj (map (fun kv => (fst kv, JStr (snd kv))) e0)
                   | None => JNull
                   end
             with
             | JNull => Some None
             | JObj e0 => match dict_of_str e0 with
                          | Some e' => Some (Some e')
                          | None => None
                          end
             | _ => None
             end = Some e)
  by (destruct e; [now rewrite dict_of_str_map | reflexivity]).
rewrite Ha, He.
destruct Hse as [->|[[s ->]|[z ->]]]; destruct w, ver; reflexivity.
Qed.

End SchemaFacts.

Lemma X29_model_dump_validates_witness :
  let v := JObj [("command", JStr "uvx");
                 ("args", JArr [JStr "pkg"]);
                 ("env", JObj [("TOKEN", JStr "x")])] in
  exists cfg,
    @Schema.validate_server sample_runtime v = Some cfg
    /\ @Schema.validate_server sample_runtime (JObj (Schema.model_dump cfg))
       = Some cfg.
Proof.
cbv zeta. eexists. split; [reflexivity|].
apply (@X29_model_dump_validates sample_runtime
         (JObj [("command", JStr "uvx");
                ("args", JArr [JStr "pkg"]);
                ("env", JObj [("TOKEN", JStr "x")])])).
reflexivity.
Defined.

Lemma replace_absent (old new s : string) :
  old <> "" -> PyStr.contains old s = false -> PyStr.replace s old new = s.
Proof.
intros Hne. unfold PyStr.replace.
destruct old as [|c old]; [now elim Hne|]. clear Hne.
induction s as [|a s IH]; [reflexivity|].
cbn [PyStr.contains PyStr.replace_go].
destruct (String.prefix (String c old) (String a s)); [discriminate|].
intros H. now rewrite (IH H).
Qed.

(** X30: [format_error] undoes [to_response]: the envelope of an error
    whose message is a string without the marker "MCP error <code>: "
    and whose data is [None] or a non-empty dictionary is read back as
    the same error. *)
Theorem X30_error_round_trip {RT : PyRuntime} (e : CustomError) (m : string) :
  message e = JStr m ->
  PyStr.contains ("MCP error " ++ PyStr.of_Z (code e) ++ ": ") m = false ->
  data e = JNull \/ (exists kv d, data e = JObj (kv :: d)) ->
  format_error (AnyVal (JObj (to_response e))) = e.
Proof.
intros Hm Hfree Hdata. destruct e as [c msg dat].
cbn [message code data] in *. subst msg.
assert (Hrep : PyStr.replace m ("MCP error " ++ PyStr.of_Z c ++ ": ") "" = m)
  by (apply replace_absent; [discriminate | exact Hfree]).
unfold format_error, to_response. cbn [data code message].
destruct Hdata as [->|(kv & d & ->)];
  cbn [truthy Dict.has Dict.get Dict.set String.eqb Ascii.eqb Bool.eqb andb
       CustomErrorResponse];
  now rewrite Hrep.
Qed.

Lemma X30_error_round_trip_witness :
  let e := mkCustomError (-32601) (JStr "Method not found: x")
             (JObj [("reason", JStr "unknown")]) in
  @format_error sample_runtime (AnyVal (JObj (@to_response e))) = e.
Proof.
cbv zeta.
apply (@X30_error_round_trip sample_runtime
         (mkCustomError (-32601) (JStr "Method not found: x")
            (JObj [("reason", JStr "unknown")])) "Method not found: x").
- reflexivity.
- reflexivity.
- right. do 2 eexists. reflexivity.
Defined.

(* ----------------------------------------------------------------- *)
(** *** The theorems on sample runs *)

(** The theorem on a [ping] with the sample descriptor. *)
Lemma X4_local_methods_witness :
  exists response w',
    @Rpc.rpc_handler sample_runtime (sample_env silent_worker)
      (sample_request "uvx" "ping") empty_world = (Ok response, w')
    /\ response_error_code response = None
    /\ log w' = [EvRelease; EvAcquire].
Proof.
destruct (@X4_local_methods sample_runtime (sample_env silent_worker)
            (sample_request "uvx" "ping") "ping" empty_world
            (sample_server "uvx") eq_refl eq_refl (or_introl eq_refl))
  as (response & w' & meta & Hrun & Hcode & _ & Hlog & _).
exists response, w'. now repeat split.
Defined.

(** The theorem on a [tools/list] notification. *)
Lemma X5_notification_not_forwarded_witness :
  let data := JObj [("jsonrpc", JStr "2.0"); ("method", JStr "tools/list");
                    ("params",
                     JObj [("_meta",
                            JObj [("server",
                                   JObj [("command", JStr "uvx")])])])] in
  exists response w',
    @Rpc.rpc_handler sample_runtime (sample_env silent_worker) data empty_world
    = (Ok response, w')
    /\ response_error_code response = Some (-32601)
    /\ response_error_message response
       = Some (JStr "Method not found: tools/list")
    /\ log w' = [EvRelease; EvAcquire].
Proof.
cbv zeta.
destruct (@X5_notification_not_forwarded sample_runtime
            (sample_env silent_worker)
            (JObj [("jsonrpc", JStr "2.0"); ("method", JStr "tools/list");
                   ("params",
                    JObj [("_meta",
                           JObj [("server",
                                  JObj [("command", JStr "uvx")])])])])
            "tools/list" empty_world
            (Schema.mkServer "2025-03-26" "2.0" "stdio" "uvx" None None JNull
               None None)
            eq_refl eq_refl eq_refl eq_refl)
  as (response & w' & Hrun & Hcode & Hmsg & Hlog).
exists response, w'. now repeat split.
Defined.

(** The theorem on the sample request when [uv] cannot install the
    package. *)
Lemma X6_resolver_failure_witness :
  exists response w',
    @Rpc.rpc_handler sample_runtime broken_index_env
      (sample_request "uvx" "tools/call") empty_world = (Ok response, w')
    /\ response_error_code response = Some (-32603)
    /\ response_error_message response
       = Some (JStr "uv install failed: no such package")
    /\ launched w' = 0%nat.
Proof.
destruct (@X6_resolver_failure sample_runtime broken_index_env
            (sample_fields "uvx" "tools/call") "tools/call" empty_world
            (sample_server "uvx")
            (ExcOther RuntimeError "uv install failed: no such package")
            [EvRun ["uv"; "pip"; "install"; "--prefix"; "/mnt/cache";
                    "git+https://x"];
             EvResolve (Some example_args); EvAcquire]
            eq_refl eq_refl eq_refl eq_refl eq_refl eq_refl)
  as (response & w' & Hrun & Hcode & Hmsg & _ & _ & Hlaunched).
exists response, w'. now repeat split.
Defined.

(** The theorem on the sample request, with a worker that answers
    [{"ok": true}]. *)
Lemma X7_forwarded_result_witness :
  let E := sample_env (replying_worker (JObj [("ok", JBool true)])) in
  exists response w' meta,
    @Rpc.rpc_handler sample_runtime E (sample_request "uvx" "tools/call")
      empty_world = (Ok response, w')
    /\ response_error_code response = None
    /\ Dict.get "result" response
       = Some (JObj [("ok", JBool true); ("_meta", JObj meta)])
    /\ Dict.get "id" response = Some (JNum 1)
    /\ exists l, log w' = EvRelease :: EvStop 0 :: l.
Proof.
cbv zeta.
destruct (@X7_forwarded_result sample_runtime
            (sample_env (replying_worker (JObj [("ok", JBool true)])))
            (sample_fields "uvx" "tools/call") "tools/call" empty_world
            (sample_server "uvx") sample_uv_params
            [EvRun ["uv"; "pip"; "inspect"; "pkg"];
             EvResolve (Some example_args); EvAcquire]
            [("jsonrpc", JStr "2.0"); ("id", JNum 1);
             ("result", JObj [("ok", JBool true)])]
            [("jsonrpc", JStr "2.0"); ("id", JNum 1);
             ("result", JObj [("ok", JBool true)])]
            eq_refl eq_refl eq_refl
            (fun H : "tools/call" = "initialize" =>
               eq_ind "tools/call"
                 (fun s => match s with
                           | String "t" _ => True
                           | _ => False
                           end) I "initialize" H)
            eq_refl eq_refl eq_refl eq_refl eq_refl eq_refl eq_refl)
  as (response & w' & Hrun & Hcase & Hid & Hlog).
change (response_error_code response = None
        /\ exists meta,
             Dict.get "result" response
             = Some (JObj [("ok", JBool true); ("_meta", JObj meta)]))
  in Hcase.
destruct Hcase as [Hcode [meta Hresult]].
exists response, w', meta. split; [exact Hrun|]. split; [exact Hcode|].
split; [exact Hresult|]. split; [exact Hid|]. eexists. exact Hlog.
Defined.

(** The sample request with a worker that answers with a list: the
    list cannot be spread into the response, and the answer is
    InternalError; the worker is stopped and the lock released as
    before. *)
Lemma forwarded_list_result_internal_error :
  let E := sample_env (replying_worker (JArr [JNum 1])) in
  exists response w' l,
    @Rpc.rpc_handler sample_runtime E (sample_request "uvx" "tools/call")
      empty_world = (Ok response, w')
    /\ response_error_code response = Some (-32603)
    /\ Dict.has "result" response = false
    /\ Dict.get "id" response = Some (JNum 1)
    /\ log w' = EvRelease :: EvStop 0 :: l.
Proof.
cbv zeta. do 3 eexists. split; [vm_compute; reflexivity|].
repeat split; reflexivity.
Qed.

(** The theorem on the sample request, with a worker that answers the
    call with an error. *)
Lemma X8_forwarded_error_witness :
  exists response w',
    @Rpc.rpc_handler sample_runtime (sample_env (erring_worker false))
      (sample_request "uvx" "tools/call") empty_world = (Ok response, w')
    /\ response_error_code response = Some (-32603)
    /\ response_error_message response = Some (JStr "boom")
    /\ exists l, log w' = EvRelease :: EvStop 0 :: l.
Proof.
destruct (@X8_forwarded_error sample_runtime
            (sample_env (erring_worker false))
            (sample_fields "uvx" "tools/call") "tools/call" empty_world
            (sample_server "uvx") sample_uv_params
            [EvRun ["uv"; "pip"; "inspect"; "pkg"];
             EvResolve (Some example_args); EvAcquire]
            [("jsonrpc", JStr "2.0"); ("id", JNum 1);
             ("result", JObj [("protocolVersion", JStr "2025-03-26")])]
            [("jsonrpc", JStr "2.0"); ("id", JNum 1);
             ("error", JObj [("code", JNum (-32000));
                             ("message", JStr "boom")])]
            [("code", JNum (-32000)); ("message", JStr "boom")]
            eq_refl eq_refl eq_refl
            (fun H : "tools/call" = "initialize" =>
               eq_ind "tools/call"
                 (fun s => match s with
                           | String "t" _ => True
                           | _ => False
                           end) I "initialize" H)
            eq_refl eq_refl eq_refl eq_refl eq_refl eq_refl eq_refl)
  as (response & w' & Hrun & Hcode & Hmsg & Hlog).
exists response, w'. split; [exact Hrun|]. split; [exact Hcode|].
split; [exact Hmsg|]. eexists. exact Hlog.
Defined.

(** The theorem with a worker that refuses the handshake. *)
Lemma X10_connect_initialize_failed_witness :
  fst (@McpCaller.connect sample_runtime (sample_env (erring_worker true))
         (McpCaller.init sample_config, empty_world))
  = Raise (ExcCustom
             (mkCustomError (-32603) (JStr "Initialize failed: boom") JNull)).
Proof.
apply (@X10_connect_initialize_failed sample_runtime
         (sample_env (erring_worker true)) sample_config empty_world
         [("jsonrpc", JStr "2.0"); ("id", JNum 1);
          ("error", JObj [("code", JNum (-32000)); ("message", JStr "boom")])]
         [("code", JNum (-32000)); ("message", JStr "boom")]
         (JStr "boom") eq_refl eq_refl eq_refl).
Defined.

(** The theorem on a request without an id: it is sent with the id 2 of
    the bridge, whose counter moves to 3. *)
Lemma X12_execute_sends_with_id_witness :
  let E := sample_env (replying_worker (JObj [("ok", JBool true)])) in
  let d := [("jsonrpc", JStr "2.0"); ("method", JStr "tools/list")] in
  let s' := snd (@McpCaller.execute_mcp_call sample_runtime E d
                   (McpCaller.mkCall connected_bridge None empty_world)) in
  log (McpCaller.world s')
  = [EvWrite 0 (JObj [("jsonrpc", JStr "2.0"); ("method", JStr "tools/list");
                      ("id", JNum 2)])]
  /\ McpCaller._request_message_id (McpCaller.self s') = 3.
Proof.
cbv zeta.
destruct (@X12_execute_sends_with_id sample_runtime
            (sample_env (replying_worker (JObj [("ok", JBool true)])))
            connected_bridge
            (SimpleThreadedMcpServer.mk "mod.sub" "fn" true false 0)
            None empty_world
            [("jsonrpc", JStr "2.0"); ("method", JStr "tools/list")]
            eq_refl eq_refl eq_refl eq_refl)
  as (Hlog & _ & Hid).
split; [exact Hlog | exact Hid].
Defined.

(** The theorem with a worker that answers the call with an error. *)
Lemma X13_execute_error_reply_witness :
  fst (@McpCaller.execute_mcp_call sample_runtime
         (sample_env (erring_worker false))
         [("jsonrpc", JStr "2.0"); ("id", JNum 5);
          ("method", JStr "tools/list")]
         (McpCaller.mkCall connected_bridge None empty_world))
  = Raise (ExcCustom
             (mkCustomError (-32603) (JStr "boom")
                (JObj [("code", JNum (-32000)); ("message", JStr "boom")]))).
Proof.
apply (@X13_execute_error_reply sample_runtime
         (sample_env (erring_worker false)) connected_bridge
         (SimpleThreadedMcpServer.mk "mod.sub" "fn" true false 0)
         None empty_world
         [("jsonrpc", JStr "2.0"); ("id", JNum 5);
          ("method", JStr "tools/list")]
         [("jsonrpc", JStr "2.0"); ("id", JNum 5);
          ("error", JObj [("code", JNum (-32000)); ("message", JStr "boom")])]
         [("code", JNum (-32000)); ("message", JStr "boom")]
         eq_refl eq_refl eq_refl eq_refl eq_refl eq_refl).
Defined.

(** The theorem with a worker whose result has a null field. *)
Lemma X14_execute_result_reply_witness :
  fst (@McpCaller.execute_mcp_call sample_runtime
         (sample_env (replying_worker
                        (JObj [("tools", JArr []); ("nextCursor", JNull)])))
         [("jsonrpc", JStr "2.0"); ("id", JNum 5);
          ("method", JStr "tools/list")]
         (McpCaller.mkCall connected_bridge None empty_world))
  = Ok (JObj [("tools", JArr [])]).
Proof.
apply (@X14_execute_result_reply sample_runtime
         (sample_env (replying_worker
                        (JObj [("tools", JArr []); ("nextCursor", JNull)])))
         connected_bridge
         (SimpleThreadedMcpServer.mk "mod.sub" "fn" true false 0)
         None empty_world
         [("jsonrpc", JStr "2.0"); ("id", JNum 5);
          ("method", JStr "tools/list")]
         [("jsonrpc", JStr "2.0"); ("id", JNum 5);
          ("result", JObj [("tools", JArr []); ("nextCursor", JNull)])]
         eq_refl eq_refl eq_refl eq_refl eq_refl eq_refl).
Defined.

(** The theorem on a child trace that is a string. *)
Lemma X20_merge_fallback_witness :
  Tracer.spans
    (fst (snd (@Tracer.merge_child_trace sample_runtime
                 (sample_env silent_worker) "call" "root" false
                 (JStr "garbage") None
                 (Tracer.init (sample_env silent_worker) "t" None None 0))))
  = [Tracer.mkSpan "call.unknown_span" (Some "root") 1001 (Some 0)
       Tracer.st_error None (Some [("child_trace", JStr "garbage")]) false].
Proof.
exact (f_equal (fun r => Tracer.spans (fst (snd r)))
         (@X20_merge_fallback sample_runtime (sample_env silent_worker)
            "call" "root" false (JStr "garbage") None
            (fst (Tracer.init (sample_env silent_worker) "t" None None 0))
            1 eq_refl)).
Defined.

(** The theorem on four calls. *)
Lemma X22_one_running_span_witness :
  let E := sample_env silent_worker in
  let ops := [TracerRun.OpRecord "a" None None;
              TracerRun.OpRecord "b" None None;
              TracerRun.OpGetTrace true;
              TracerRun.OpRecord "c" None None] in
  (length (running_spans
             (Tracer.spans
                (fst (@TracerRun.run sample_runtime E ops
                        (Tracer.init E "t" None None 0))))) <= 1)%nat.
Proof.
cbv zeta.
exact (proj1 (@X22_one_running_span sample_runtime (sample_env silent_worker)
                "t" None None 0%nat
                [TracerRun.OpRecord "a" None None;
                 TracerRun.OpRecord "b" None None;
                 TracerRun.OpGetTrace true;
                 TracerRun.OpRecord "c" None None] eq_refl)).
Defined.

(** The theorem on the arguments of the example, when [uv] cannot
    install the package. *)
Lemma X27_parse_install_failure_witness :
  @UvHandler.parse_mcp_server_params sample_runtime broken_index_env
    (Some example_args) []
  = (Raise (ExcOther RuntimeError "uv install failed: no such package"),
     [EvRun ["uv"; "pip"; "install"; "--prefix"; "/mnt/cache";
             "git+https://x"];
      EvResolve (Some example_args)]).
Proof.
apply (@X27_parse_install_failure sample_runtime broken_index_env
         example_args [] "/mnt/cache" "pkg" 1 None "no such package"
         eq_refl eq_refl eq_refl eq_refl).
discriminate.
Defined.
